(** * Time-management assistant: timer synchronisation and record ledger

    A shallow embedding of the browser extension's core:
    - [StorageManager] (storage.js): the localStorage-backed record ledger,
      settings and popup-side timer snapshot;
    - [Background] (background.js): the service worker that owns the live
      timer state and snapshots it to chrome.storage.local;
    - [TimerManager] (popup.js): the popup's timer controls, its record
      forms and row buttons, and the counters of its report;
    - [SettingsManager] (options.js): the category list of the options page;
    - [Extension]: the popup, the service worker and both stores run
      together, one event at a time.

    Conventions.  JavaScript numbers that the code only ever uses as whole
    numbers (epoch milliseconds, minutes, ids) are [Z]; a number that may be
    NaN is a [Number]; a field that may hold any JSON value is a [JsValue].
    [Date.now()] is an explicit argument [now].  A function that writes to a
    store returns the store after the call; every store carries the log of
    the write calls made on it, so that "writes nothing" is an equation
    between stores. *)

From Stdlib Require Import ZArith List String Ascii Bool Lia.
From Stdlib Require Import DecimalString DecimalPos DecimalZ.
Import ListNotations.

#[local] Open Scope string_scope.
#[local] Open Scope Z_scope.

(* ===================================================================== *)
(** * Part I: the model                                                    *)
(* ===================================================================== *)

(** ** JavaScript values and the built-ins the code calls *)

(** A number the code computes with: NaN or a whole number.  Fractions and
    the loss of precision past 2^53 are outside the embedding. *)
Inductive Number : Type :=
| NaN
| Int (z : Z).

(** What a field of a parsed JSON record may hold. *)
Inductive JsValue : Type :=
| JsUndefined
| JsNull
| JsBool (b : bool)
| JsNumber (n : Number)
| JsString (s : string).

(** ToBoolean. *)
Definition truthy (v : JsValue) : bool :=
  match v with
  | JsUndefined | JsNull => false
  | JsBool b => b
  | JsNumber NaN => false
  | JsNumber (Int z) => negb (z =? 0)
  | JsString s => negb (s =? "")%string
  end.

(** [a || b]. *)
Definition jsOr (a b : JsValue) : JsValue := if truthy a then a else b.

(** [a || b] on two numbers. *)
Definition orZ (a b : Z) : Z := if a =? 0 then b else a.

(** [a + b] on numbers. *)
Definition numAdd (a b : Number) : Number :=
  match a, b with
  | Int x, Int y => Int (x + y)
  | _, _ => NaN
  end.

(** [a - b] on numbers. *)
Definition numSub (a b : Number) : Number :=
  match a, b with
  | Int x, Int y => Int (x - y)
  | _, _ => NaN
  end.

(** The white space [parseInt] skips, StrWhiteSpaceChar.  A string is the
    UTF-8 bytes of its text.  The white space of one byte: U+0009 to
    U+000D and U+0020. *)
Definition isWhiteSpace (c : ascii) : bool :=
  let n := nat_of_ascii c in
  ((9 <=? n) && (n <=? 13) || (n =? 32))%nat.

(** The white space of two bytes: U+00A0. *)
Definition isWhiteSpace2 (a b : ascii) : bool :=
  ((nat_of_ascii a =? 194) && (nat_of_ascii b =? 160))%nat.

(** The white space of three bytes: U+1680, U+2000 to U+200A, U+2028,
    U+2029, U+202F, U+205F, U+3000 and U+FEFF. *)
Definition isWhiteSpace3 (a b c : ascii) : bool :=
  let x := nat_of_ascii a in
  let y := nat_of_ascii b in
  let z := nat_of_ascii c in
  ((x =? 225) && (y =? 154) && (z =? 128)
   || (x =? 226) && (y =? 128)
      && ((128 <=? z) && (z <=? 138) || (z =? 168) || (z =? 169) || (z =? 175))
   || (x =? 226) && (y =? 129) && (z =? 159)
   || (x =? 227) && (y =? 128) && (z =? 128)
   || (x =? 239) && (y =? 187) && (z =? 191))%nat.

Fixpoint skipWhiteSpace (s : string) : string :=
  match s with
  | EmptyString => s
  | String a rest =>
      if isWhiteSpace a then skipWhiteSpace rest
      else if (nat_of_ascii a <? 128)%nat then s
      else
        match rest with
        | EmptyString => s
        | String b rest2 =>
            if isWhiteSpace2 a b then skipWhiteSpace rest2
            else
              match rest2 with
              | EmptyString => s
              | String c rest3 =>
                  if isWhiteSpace3 a b c then skipWhiteSpace rest3 else s
              end
        end
  end.

(** The value of a character as a digit: 0-9, then a-z / A-Z for 10-35. *)
Definition digitValue (c : ascii) : option Z :=
  let n := Z.of_nat (nat_of_ascii c) in
  if (48 <=? n) && (n <=? 57) then Some (n - 48)
  else if (97 <=? n) && (n <=? 122) then Some (n - 87)
  else if (65 <=? n) && (n <=? 90) then Some (n - 55)
  else None.

(** The value of the longest prefix of [s] made of digits below [radix];
    [acc] is [None] until the first digit is read. *)
Fixpoint parseDigits (radix : Z) (acc : option Z) (s : string) : option Z :=
  match s with
  | EmptyString => acc
  | String c rest =>
      match digitValue c with
      | Some d =>
          if d <? radix
          then parseDigits radix
                 (Some (radix * match acc with Some a => a | None => 0 end + d))
                 rest
          else acc
      | None => acc
      end
  end.

(** [parseInt(s)] on a string, no radix given: skip white space, read a
    sign, switch to radix 16 on a 0x / 0X prefix, read the digits. *)
Definition parseIntString (s : string) : Number :=
  let s1 := skipWhiteSpace s in
  let '(sign, s2) :=
    match s1 with
    | String "-" rest => (-1, rest)
    | String "+" rest => (1, rest)
    | _ => (1, s1)
    end in
  let '(radix, s3) :=
    match s2 with
    | String "0" (String "x" rest) => (16, rest)
    | String "0" (String "X" rest) => (16, rest)
    | _ => (10, s2)
    end in
  match parseDigits radix None s3 with
  | Some m => Int (sign * m)
  | None => NaN
  end.

(** [parseInt(v)]: the argument is first converted to a string.  A whole
    number (below 10^21, where printing switches to exponents) prints as
    its decimal digits and reads back as itself; "true", "false", "null",
    "undefined" and "NaN" start with no digit. *)
Definition parseInt (v : JsValue) : Number :=
  match v with
  | JsNumber (Int z) => Int z
  | JsString s => parseIntString s
  | JsNumber NaN | JsUndefined | JsNull | JsBool _ => NaN
  end.

(** [Math.round(ms / (1000 * 60))] on a whole number of milliseconds:
    [Math.round x] is the floor of [x + 1/2], and [Z.div] is the floor of
    the quotient for a positive divisor. *)
Definition roundMinutes (ms : Z) : Z := (ms + 30000) / 60000.

(** The handle a [setInterval] call left in a variable: nothing yet, a live
    interval, or a handle whose interval [clearInterval] has stopped.  A
    handle is a positive integer, so only [NoHandle] (null) is falsy. *)
Inductive Interval : Type :=
| NoHandle
| Live
| Cleared.

(** [clearInterval(h)]: a no-op on null. *)
Definition clearInterval (h : Interval) : Interval :=
  match h with
  | NoHandle => NoHandle
  | Live | Cleared => Cleared
  end.

(** ToString on a number: NaN, or the decimal digits of a whole number,
    with a minus sign below zero (the form numbers below 10^21 print in). *)
Definition numberToString (n : Number) : string :=
  match n with
  | NaN => "NaN"
  | Int z => NilZero.string_of_int (Z.to_int z)
  end.

(** ToString. *)
Definition toString (v : JsValue) : string :=
  match v with
  | JsUndefined => "undefined"
  | JsNull => "null"
  | JsBool true => "true"
  | JsBool false => "false"
  | JsNumber n => numberToString n
  | JsString s => s
  end.

(** ToNumber on a value that is not a string. *)
Definition primitiveNumber (v : JsValue) : option Number :=
  match v with
  | JsUndefined => Some NaN
  | JsNull => Some (Int 0)
  | JsBool true => Some (Int 1)
  | JsBool false => Some (Int 0)
  | JsNumber n => Some n
  | JsString _ => None
  end.

(** [a + b]: the sum of two numbers if neither operand is a string, the
    concatenation of both as strings otherwise. *)
Definition jsAdd (a b : JsValue) : JsValue :=
  match primitiveNumber a, primitiveNumber b with
  | Some x, Some y => JsNumber (numAdd x y)
  | _, _ => JsString (toString a ++ toString b)
  end.

(** A number after [JSON.stringify] and [JSON.parse]: NaN is written as
    null. *)
Definition jsonNumber (n : Number) : JsValue :=
  match n with
  | NaN => JsNull
  | Int z => JsNumber (Int z)
  end.

(** [Math.round(x / (1000 * 60))]. *)
Definition roundMinutesOf (x : Number) : Number :=
  match x with
  | NaN => NaN
  | Int ms => Int (roundMinutes ms)
  end.

(** [x <= 0]: false on NaN. *)
Definition notPositive (x : Number) : bool :=
  match x with
  | NaN => false
  | Int z => z <=? 0
  end.

(** [text.replace(/c/g, replacement)] for a pattern of one character. *)
Fixpoint replaceAll (c : ascii) (replacement text : string) : string :=
  match text with
  | EmptyString => EmptyString
  | String a rest =>
      if (a =? c)%char then replacement ++ replaceAll c replacement rest
      else String a (replaceAll c replacement rest)
  end.

(** The double quote character. *)
Definition doubleQuote : ascii := "034"%char.

(** A plain object ([{}]) used as a map from strings.  The list holds its
    own properties: [property] is the value of one, undefined when the
    object has none of that name, and [assign] sets one, keeping the place
    of a name the object has and appending a new one.  (Names that read as
    array indices are listed first by [Object.entries]; the order of the
    names is not used below, only what is stored under each.) *)
Fixpoint property (key : string) (obj : list (string * JsValue)) : JsValue :=
  match obj with
  | [] => JsUndefined
  | (k, v) :: rest => if (k =? key)%string then v else property key rest
  end.

Fixpoint assign (key : string) (v : JsValue) (obj : list (string * JsValue))
  : list (string * JsValue) :=
  match obj with
  | [] => [(key, v)]
  | (k, x) :: rest =>
      if (k =? key)%string then (k, v) :: rest else (k, x) :: assign key v rest
  end.

Definition hasOwn (key : string) (obj : list (string * JsValue)) : bool :=
  existsb (fun entry => (fst entry =? key)%string) obj.

(** What a plain object inherits from Object.prototype, each member with
    the text it turns into when it is added to something.  The methods
    print as native functions (the text is the one of Chrome's engine, in
    which the extension runs); [__proto__] is Object.prototype itself. *)
Definition objectPrototype : list (string * string) :=
  [("constructor", "function Object() { [native code] }");
   ("__defineGetter__", "function __defineGetter__() { [native code] }");
   ("__defineSetter__", "function __defineSetter__() { [native code] }");
   ("hasOwnProperty", "function hasOwnProperty() { [native code] }");
   ("__lookupGetter__", "function __lookupGetter__() { [native code] }");
   ("__lookupSetter__", "function __lookupSetter__() { [native code] }");
   ("isPrototypeOf", "function isPrototypeOf() { [native code] }");
   ("propertyIsEnumerable", "function propertyIsEnumerable() { [native code] }");
   ("toString", "function toString() { [native code] }");
   ("valueOf", "function valueOf() { [native code] }");
   ("__proto__", "[object Object]");
   ("toLocaleString", "function toLocaleString() { [native code] }")].

Fixpoint textOf (key : string) (members : list (string * string)) : option string :=
  match members with
  | [] => None
  | (k, text) :: rest => if (k =? key)%string then Some text else textOf key rest
  end.

Definition inherited (key : string) : option string := textOf key objectPrototype.

(** What reading [obj[key]] gives: a value the embedding has, or a
    function or object, of which only its text is kept. *)
Inductive Read : Type :=
| Value (v : JsValue)
| Member (text : string).

(** [obj[key]]: the own property, else the inherited member, else
    undefined. *)
Definition read (key : string) (obj : list (string * JsValue)) : Read :=
  if hasOwn key obj then Value (property key obj)
  else match inherited key with
       | Some text => Member text
       | None => Value JsUndefined
       end.

(** ToBoolean of what was read: a function or an object is truthy. *)
Definition truthyRead (r : Read) : bool :=
  match r with
  | Value v => truthy v
  | Member _ => true
  end.

(** [r + b] for what was read: a function or an object is added as its
    text. *)
Definition addRead (r : Read) (b : JsValue) : JsValue :=
  match r with
  | Value v => jsAdd v b
  | Member text => JsString (text ++ toString b)
  end.

(** [obj[key] = v] with a number or a text for [v]: the setter of
    [__proto__] ignores a value that is not an object, every other name
    becomes or stays an own property. *)
Definition write (key : string) (v : JsValue) (obj : list (string * JsValue))
  : list (string * JsValue) :=
  if (key =? "__proto__")%string then obj else assign key v obj.

(** ** storage.js: StorageManager over localStorage

    The pages run inside the extension, where [chrome.storage] exists
    (background.js uses it unguarded), so the [!chrome || !chrome.storage]
    guards do not fire, and [localStorage.setItem] is taken to succeed.

    A key of localStorage is [None] when it holds no text ([getItem] gives
    null, or the empty text): the getters then return their default and
    [init] writes the key.  It is [Some v] when it holds text, [v] being
    what the getter of the key returns: the parsed value, or, for text that
    does not parse, what the getter's [catch] returns, which is [[]] for
    the records and [{}] for the settings.  Such text is left alone by
    [init] and replaced by the next write, like a stored [[]] or [{}].
    For the timer snapshot, which nothing but its getter reads, text that
    does not parse is [None], what [getCurrentTimer] makes of it. *)
Module StorageManager.

Record WorkRecord : Type := {
  id : Z;
  date : string;
  startTime : string;
  endTime : string;
  duration : JsValue;
  content : string;
  type : string
}.

(** The [updates] object of [updateRecord]: the fields it carries. *)
Record Updates : Type := {
  newId : option Z;
  newDate : option string;
  newStartTime : option string;
  newEndTime : option string;
  newDuration : option JsValue;
  newContent : option string;
  newType : option string
}.

Record Features : Type := {
  timer : bool;
  statistics : bool;
  export : bool;
  manualRecord : bool
}.

(** The settings object; [{}] has no field at all. *)
Record Settings : Type := {
  features : option Features;
  workTypes : option (list string);
  dateFormat : option string;
  timeFormat : option string
}.

(** The popup's copy of the timer state, as [saveCurrentTimer] stores it;
    [snapStartTime] is null before the first start. *)
Record TimerSnapshot : Type := {
  snapIsRunning : bool;
  snapStartTime : option Z;
  snapElapsedTime : Z
}.

Definition RECORDS : string := "timeTracker_records".
Definition SETTINGS : string := "timeTracker_settings".
Definition CURRENT_TIMER : string := "timeTracker_currentTimer".

(** A call that changes localStorage. *)
Inductive Write : Type :=
| SetItem (key : string)
| RemoveItem (key : string).

(** localStorage: what the three keys hold, and the write calls made so
    far. *)
Record LocalStorage : Type := {
  records : option (list WorkRecord);
  settings : option Settings;
  currentTimer : option TimerSnapshot;
  writes : list Write
}.

Definition empty : LocalStorage :=
  {| records := None; settings := None; currentTimer := None; writes := [] |}.

(** What a ledger call hands back: a promise resolved with [true], or
    plain [false]. *)
Inductive Result : Type :=
| ResolvedTrue
| ReturnedFalse.

Definition saveRecords (rs : list WorkRecord) (ls : LocalStorage) : LocalStorage :=
  {| records := Some rs;
     settings := settings ls;
     currentTimer := currentTimer ls;
     writes := writes ls ++ [SetItem RECORDS] |}.

Definition getRecords (ls : LocalStorage) : list WorkRecord :=
  match records ls with
  | Some rs => rs
  | None => []
  end.

Definition withId (i : Z) (r : WorkRecord) : WorkRecord :=
  {| id := i; date := date r; startTime := startTime r; endTime := endTime r;
     duration := duration r; content := content r; type := type r |}.

(** [record.id = Date.now(); records.push(record)]. *)
Definition addRecord (now : Z) (record : WorkRecord) (ls : LocalStorage)
  : Result * LocalStorage :=
  let rs := getRecords ls in
  (ResolvedTrue, saveRecords (rs ++ [withId now record]) ls).

Fixpoint findIndex {A : Type} (p : A -> bool) (l : list A) : option nat :=
  match l with
  | [] => None
  | x :: rest =>
      if p x then Some 0%nat
      else match findIndex p rest with
           | Some i => Some (S i)
           | None => None
           end
  end.

Fixpoint setNth {A : Type} (i : nat) (x : A) (l : list A) : list A :=
  match l, i with
  | [], _ => []
  | _ :: rest, O => x :: rest
  | y :: rest, S j => y :: setNth j x rest
  end.

Definition orElse {A : Type} (o : option A) (d : A) : A :=
  match o with
  | Some x => x
  | None => d
  end.

(** [{ ...record, ...updates }]. *)
Definition merge (r : WorkRecord) (u : Updates) : WorkRecord :=
  {| id := orElse (newId u) (id r);
     date := orElse (newDate u) (date r);
     startTime := orElse (newStartTime u) (startTime r);
     endTime := orElse (newEndTime u) (endTime r);
     duration := orElse (newDuration u) (duration r);
     content := orElse (newContent u) (content r);
     type := orElse (newType u) (type r) |}.

Definition updateRecord (i : Z) (updates : Updates) (ls : LocalStorage)
  : Result * LocalStorage :=
  let rs := getRecords ls in
  match findIndex (fun record => id record =? i) rs with
  | Some index =>
      match nth_error rs index with
      | Some old => (ResolvedTrue, saveRecords (setNth index (merge old updates) rs) ls)
      | None => (ReturnedFalse, ls)
      end
  | None => (ReturnedFalse, ls)
  end.

Definition deleteRecord (i : Z) (ls : LocalStorage) : Result * LocalStorage :=
  let rs := getRecords ls in
  let newRecords := filter (fun record => negb (id record =? i)) rs in
  if negb (List.length newRecords =? List.length rs)%nat
  then (ResolvedTrue, saveRecords newRecords ls)
  else (ReturnedFalse, ls).

Definition saveSettings (s : Settings) (ls : LocalStorage) : LocalStorage :=
  {| records := records ls;
     settings := Some s;
     currentTimer := currentTimer ls;
     writes := writes ls ++ [SetItem SETTINGS] |}.

Definition noSettings : Settings :=
  {| features := None; workTypes := None; dateFormat := None; timeFormat := None |}.

Definition getSettings (ls : LocalStorage) : Settings :=
  orElse (settings ls) noSettings.

Definition saveCurrentTimer (t : TimerSnapshot) (ls : LocalStorage) : LocalStorage :=
  {| records := records ls;
     settings := settings ls;
     currentTimer := Some t;
     writes := writes ls ++ [SetItem CURRENT_TIMER] |}.

Definition getCurrentTimer (ls : LocalStorage) : option TimerSnapshot :=
  currentTimer ls.

Definition clearCurrentTimer (ls : LocalStorage) : LocalStorage :=
  {| records := records ls;
     settings := settings ls;
     currentTimer := None;
     writes := writes ls ++ [RemoveItem CURRENT_TIMER] |}.

Definition defaultSettings : Settings :=
  {| features := Some {| timer := true; statistics := true;
                         export := true; manualRecord := true |};
     workTypes := Some ["工作"; "生活"; "运动"; "学习"];
     dateFormat := Some "yyyy-MM-dd";
     timeFormat := Some "HH:mm" |}.

(** [init]: write the defaults for whichever key holds no text
    ([!localStorage.getItem(key)]); a key that holds text, parsed or not,
    is not written. *)
Definition init (ls : LocalStorage) : LocalStorage :=
  let ls1 := match settings ls with
             | None => saveSettings defaultSettings ls
             | Some _ => ls
             end in
  match records ls1 with
  | None => saveRecords [] ls1
  | Some _ => ls1
  end.

Definition getRecordsByDate (d : string) (ls : LocalStorage) : list WorkRecord :=
  filter (fun record => (date record =? d)%string) (getRecords ls).

(** [parseInt(record.duration || 0)]. *)
Definition minutes (record : WorkRecord) : Number :=
  parseInt (jsOr (duration record) (JsNumber (Int 0))).

(** [rs.reduce((total, record) => total + parseInt(record.duration || 0), 0)]. *)
Definition sumMinutes (rs : list WorkRecord) : Number :=
  fold_left (fun total record => numAdd total (minutes record)) rs (Int 0).

Definition getTotalTimeByDate (d : string) (ls : LocalStorage) : Number :=
  sumMinutes (getRecordsByDate d ls).

Definition getWorkTimeExcludingLifeByDate (d : string) (ls : LocalStorage) : Number :=
  sumMinutes
    (filter (fun record => negb (type record =? "生活")%string)
       (getRecordsByDate d ls)).

(** Following the spec's words, for comparison with the two totals above:
    "the sum of durations of records on that date with type 生活". *)
Definition lifeMinutesByDate (d : string) (ls : LocalStorage) : Number :=
  sumMinutes
    (filter (fun record => (type record =? "生活")%string)
       (getRecordsByDate d ls)).

(** The ids a ledger holds, oldest first. *)
Definition ids (ls : LocalStorage) : list Z := map id (getRecords ls).

(** [add] called once per clock reading of [clock], in order. *)
Fixpoint addAll (clock : list Z) (record : WorkRecord) (ls : LocalStorage)
  : LocalStorage :=
  match clock with
  | [] => ls
  | now :: later => addAll later record (snd (addRecord now record ls))
  end.

End StorageManager.

(** ** background.js: the service worker

    The worker's globals are [timerInterval] and [timerState]; its only
    persistent state is the key timeTracker_currentTimer of
    chrome.storage.local, which no other script writes. *)
Module Background.

Record TimerState : Type := {
  isRunning : bool;
  startTime : Z;
  elapsedTime : Z
}.

(** The [data] of a START_TIMER message; the popup may send a null
    [startTime]. *)
Record StartData : Type := {
  dataStartTime : option Z;
  dataElapsedTime : Z
}.

(** The messages the listener tells apart; [OTHER] is any other type, such
    as the SETTINGS_UPDATED the options page broadcasts. *)
Inductive Message : Type :=
| START_TIMER (data : StartData)
| PAUSE_TIMER
| CLEAR_TIMER
| GET_TIMER_STATUS
| OTHER.

Inductive Response : Type :=
| Status (status : string)
| Snapshot (state : TimerState).

(** A call that changes chrome.storage.local. *)
Inductive Write : Type :=
| StorageSet (state : TimerState)
| StorageRemove.

Record Worker : Type := {
  timerInterval : Interval;
  timerState : TimerState;
  currentTimer : option TimerState;
  writes : list Write
}.

Definition idle : TimerState :=
  {| isRunning := false; startTime := 0; elapsedTime := 0 |}.

(** A freshly installed worker. *)
Definition initial : Worker :=
  {| timerInterval := NoHandle; timerState := idle;
     currentTimer := None; writes := [] |}.

(** The browser stops the worker and starts it again: the globals are
    re-initialised, chrome.storage.local is kept. *)
Definition restart (w : Worker) : Worker :=
  {| timerInterval := NoHandle; timerState := idle;
     currentTimer := currentTimer w; writes := writes w |}.

(** [chrome.storage.local.set({ timeTracker_currentTimer: timerState })]. *)
Definition persist (w : Worker) : Worker :=
  {| timerInterval := timerInterval w;
     timerState := timerState w;
     currentTimer := Some (timerState w);
     writes := writes w ++ [StorageSet (timerState w)] |}.

(** [data.startTime || Date.now()]. *)
Definition startTimeOr (t : option Z) (now : Z) : Z :=
  match t with
  | Some s => orZ s now
  | None => now
  end.

Definition startTimer (now : Z) (data : StartData) (w : Worker) : Worker :=
  persist
    {| timerInterval := Live;
       timerState := {| isRunning := true;
                        startTime := startTimeOr (dataStartTime data) now;
                        elapsedTime := orZ (dataElapsedTime data) 0 |};
       currentTimer := currentTimer w;
       writes := writes w |}.

(** The callback [startTimer] hands to [setInterval]; it runs only while
    that interval is live. *)
Definition tick (now : Z) (w : Worker) : Worker :=
  match timerInterval w with
  | Live =>
      persist
        {| timerInterval := timerInterval w;
           timerState := {| isRunning := isRunning (timerState w);
                            startTime := startTime (timerState w);
                            elapsedTime := now - startTime (timerState w) |};
           currentTimer := currentTimer w;
           writes := writes w |}
  | NoHandle | Cleared => w
  end.

Definition pauseTimer (now : Z) (w : Worker) : Worker :=
  let w1 :=
    match timerInterval w with
    | NoHandle => w
    | Live | Cleared =>
        {| timerInterval := NoHandle; timerState := timerState w;
           currentTimer := currentTimer w; writes := writes w |}
    end in
  if isRunning (timerState w1)
  then persist
         {| timerInterval := timerInterval w1;
            timerState := {| isRunning := false;
                             startTime := startTime (timerState w1);
                             elapsedTime := now - startTime (timerState w1) |};
            currentTimer := currentTimer w1;
            writes := writes w1 |}
  else w1.

Definition clearTimer (now : Z) (w : Worker) : Worker :=
  let w1 := pauseTimer now w in
  {| timerInterval := timerInterval w1;
     timerState := idle;
     currentTimer := None;
     writes := writes w1 ++ [StorageRemove] |}.

Definition asData (s : TimerState) : StartData :=
  {| dataStartTime := Some (startTime s); dataElapsedTime := elapsedTime s |}.

(** [getTimerStatus]: the worker after the call and what [sendResponse]
    was given. *)
Definition getTimerStatus (now : Z) (w : Worker) : Worker * TimerState :=
  match currentTimer w with
  | Some stored =>
      let w1 := {| timerInterval := timerInterval w; timerState := stored;
                   currentTimer := currentTimer w; writes := writes w |} in
      let w2 :=
        match isRunning stored, timerInterval w1 with
        | true, NoHandle => startTimer now (asData stored) w1
        | _, _ => w1
        end in
      (w2, timerState w2)
  | None => (w, timerState w)
  end.

(** The [onMessage] listener. *)
Definition onMessage (now : Z) (m : Message) (w : Worker) : Worker * Response :=
  match m with
  | START_TIMER data => (startTimer now data w, Status "started")
  | PAUSE_TIMER => (pauseTimer now w, Status "paused")
  | CLEAR_TIMER => (clearTimer now w, Status "cleared")
  | GET_TIMER_STATUS =>
      let '(w1, s) := getTimerStatus now w in (w1, Snapshot s)
  | OTHER => (w, Status "unknown command")
  end.

(** What can happen to the worker: a message arrives, its interval fires,
    or the browser restarts it; [now] is the clock reading at that time. *)
Inductive Event : Type :=
| Receive (now : Z) (m : Message)
| Tick (now : Z)
| Restart.

Definition step (e : Event) (w : Worker) : Worker :=
  match e with
  | Receive now m => fst (onMessage now m w)
  | Tick now => tick now w
  | Restart => restart w
  end.

(** The clock reading of an event is a positive epoch time. *)
Definition timely (e : Event) : Prop :=
  match e with
  | Receive now _ | Tick now => 0 < now
  | Restart => True
  end.

(** The workers some history of events leads to. *)
Inductive Reachable : Worker -> Prop :=
| reach_initial : Reachable initial
| reach_step (e : Event) (w : Worker) :
    Reachable w -> timely e -> Reachable (step e w).

End Background.

(** ** popup.js: TimerManager *)
Module TimerManager.

(** The timer fields of a [TimerManager] instance. *)
Record State : Type := {
  timerInterval : Interval;
  isRunning : bool;
  startTime : option Z;
  elapsedTime : Z;
  currentDate : string
}.

(** What a method does to the world outside its instance, in call order:
    messages to the service worker, [StorageManager] calls, and the two
    ways the class tells the user something ([showMessage], [alert]). *)
Inductive Effect : Type :=
| SendMessage (m : Background.Message)
| SaveCurrentTimer (t : StorageManager.TimerSnapshot)
| AddRecord (r : StorageManager.WorkRecord)
| ClearCurrentTimer
| ShowMessage (message kind : string)
| Alert (message : string).

(** The constructor, before [init] has heard from the worker. *)
Definition create (today : string) : State :=
  {| timerInterval := NoHandle; isRunning := false; startTime := None;
     elapsedTime := 0; currentDate := today |}.

(** ToNumber on [this.startTime]: null counts as 0. *)
Definition toNumber (t : option Z) : Z :=
  match t with
  | Some s => s
  | None => 0
  end.

(** [!this.startTime]. *)
Definition noStartTime (t : option Z) : bool :=
  match t with
  | Some s => s =? 0
  | None => true
  end.

(** Whether [updateTimerDisplay] asks the worker for its status. *)
Definition asksStatus (st : State) : bool := isRunning st.

(** The callback of [updateTimerDisplay] on the worker's answer. *)
Definition updateTimerDisplay (now : Z) (response : option Background.TimerState)
    (st : State) : State :=
  match response with
  | Some r =>
      if Background.isRunning r
      then {| timerInterval := timerInterval st; isRunning := isRunning st;
              startTime := startTime st;
              elapsedTime := now - Background.startTime r;
              currentDate := currentDate st |}
      else st
  | None => st
  end.

(** The callback of [loadTimerState], run at [now]: [response] is the
    worker's answer to GET_TIMER_STATUS (absent when nothing answered),
    [stored] what [StorageManager.getCurrentTimer()] returns.  Both
    branches that find a running timer call [updateTimerDisplay], which
    sends a second status query; [display] is the worker's answer to that
    one.  In the branch that restores from localStorage the query leaves
    before the START_TIMER message. *)
Definition loadTimerState (now : Z) (response : option Background.TimerState)
    (stored : option StorageManager.TimerSnapshot)
    (display : option Background.TimerState) (st : State)
  : State * list Effect :=
  let fromStorage :=
    match stored with
    | Some t =>
        if StorageManager.snapIsRunning t
        then (updateTimerDisplay now display
                {| timerInterval := Live; isRunning := true;
                   startTime := StorageManager.snapStartTime t;
                   elapsedTime := StorageManager.snapElapsedTime t;
                   currentDate := currentDate st |},
              [SendMessage Background.GET_TIMER_STATUS;
               SendMessage
                 (Background.START_TIMER
                    {| Background.dataStartTime := StorageManager.snapStartTime t;
                       Background.dataElapsedTime := StorageManager.snapElapsedTime t |})])
        else (st, [])
    | None => (st, [])
    end in
  match response with
  | Some r =>
      if Background.isRunning r
      then (updateTimerDisplay now display
              {| timerInterval := Live; isRunning := true;
                 startTime := Some (Background.startTime r);
                 elapsedTime := Background.elapsedTime r;
                 currentDate := currentDate st |},
            [SendMessage Background.GET_TIMER_STATUS])
      else fromStorage
  | None => fromStorage
  end.

Definition startTimer (now : Z) (st : State) : State * list Effect :=
  if isRunning st then (st, [])
  else
    let start := now - elapsedTime st in
    ({| timerInterval := Live; isRunning := true; startTime := Some start;
        elapsedTime := elapsedTime st; currentDate := currentDate st |},
     [SendMessage
        (Background.START_TIMER
           {| Background.dataStartTime := Some start;
              Background.dataElapsedTime := elapsedTime st |});
      SaveCurrentTimer
        {| StorageManager.snapIsRunning := true;
           StorageManager.snapStartTime := Some start;
           StorageManager.snapElapsedTime := elapsedTime st |}]).

Definition pauseTimer (now : Z) (st : State) : State * list Effect :=
  if negb (isRunning st) then (st, [])
  else
    let elapsed := now - toNumber (startTime st) in
    ({| timerInterval := clearInterval (timerInterval st); isRunning := false;
        startTime := startTime st; elapsedTime := elapsed;
        currentDate := currentDate st |},
     [SendMessage Background.PAUSE_TIMER;
      SaveCurrentTimer
        {| StorageManager.snapIsRunning := false;
           StorageManager.snapStartTime := startTime st;
           StorageManager.snapElapsedTime := elapsed |}]).

Definition resumeTimer (now : Z) (st : State) : State * list Effect :=
  startTimer now st.

Definition resetTimer (st : State) : State :=
  {| timerInterval := timerInterval st; isRunning := isRunning st;
     startTime := None; elapsedTime := 0; currentDate := currentDate st |}.

Definition pad2 (n : Z) : string :=
  String (ascii_of_nat (48 + Z.to_nat (n / 10)))
    (String (ascii_of_nat (48 + Z.to_nat (n mod 10))) EmptyString).

Section Clock.

(** The popup's time zone: minutes its wall clock is ahead of UTC. *)
Variable zone : Z.

(** [formatTime(new Date(ms))]: local hours and minutes, two digits each. *)
Definition formatTime (ms : Z) : string :=
  let localMinutes := (ms + zone * 60000) / 60000 in
  pad2 ((localMinutes / 60) mod 24) ++ ":" ++ pad2 (localMinutes mod 60).

(** [endTimer]; [workType] is the value of the category selector.  The
    record has no id yet ([addRecord] sets it), so its [id] here is 0. *)
Definition endTimer (now : Z) (workType : string) (st : State)
  : State * list Effect :=
  if noStartTime (startTime st) then (st, [])
  else
    let endTime := now in
    let durationMs := orZ (elapsedTime st) (endTime - toNumber (startTime st)) in
    let durationMinutes := roundMinutes durationMs in
    let record :=
      {| StorageManager.id := 0;
         StorageManager.date := currentDate st;
         StorageManager.startTime := formatTime (toNumber (startTime st));
         StorageManager.endTime := formatTime endTime;
         StorageManager.duration := JsNumber (Int durationMinutes);
         StorageManager.content := "计时工作";
         StorageManager.type := workType |} in
    (resetTimer
       {| timerInterval := clearInterval (timerInterval st); isRunning := false;
          startTime := startTime st; elapsedTime := elapsedTime st;
          currentDate := currentDate st |},
     [AddRecord record;
      SendMessage Background.CLEAR_TIMER;
      ClearCurrentTimer]).

End Clock.

(** The record [endTimer] hands to [StorageManager.addRecord], if any. *)
Definition committed (effects : list Effect) : list StorageManager.WorkRecord :=
  flat_map (fun e => match e with AddRecord r => [r] | _ => [] end) effects.

(** What the user is told: the [showMessage] and [alert] calls. *)
Definition reported (effects : list Effect) : list Effect :=
  filter (fun e => match e with ShowMessage _ _ | Alert _ => true | _ => false end)
    effects.

(** Following the spec's words, for comparison with [resumeTimer]:
    "start(elapsedSeed) sets startTime = now - elapsedSeed, begins the
    1-second tick and writes the snapshot". *)
Definition startWithSeed (elapsedSeed now : Z) (st : State) : State * list Effect :=
  let start := now - elapsedSeed in
  ({| timerInterval := Live; isRunning := true; startTime := Some start;
      elapsedTime := elapsedSeed; currentDate := currentDate st |},
   [SendMessage
      (Background.START_TIMER
         {| Background.dataStartTime := Some start;
            Background.dataElapsedTime := elapsedSeed |});
    SaveCurrentTimer
      {| StorageManager.snapIsRunning := true;
         StorageManager.snapStartTime := Some start;
         StorageManager.snapElapsedTime := elapsedSeed |}]).

(** [escapeHtml]: five replacements, one after the other. *)
Definition escapeHtml (text : string) : string :=
  if (text =? "")%string then ""
  else
    replaceAll "'" "&#039;"
      (replaceAll doubleQuote "&quot;"
         (replaceAll ">" "&gt;"
            (replaceAll "<" "&lt;"
               (replaceAll "&" "&amp;" text)))).

(** The [data-id] attribute [loadRecords] gives the two buttons of a row:
    [`${record.id}`]. *)
Definition dataId (record : StorageManager.WorkRecord) : string :=
  toString (JsNumber (Int (StorageManager.id record))).

(** [deleteRecord(id)], [id] being the [data-id] of the button;
    [confirmed] is the answer to the confirm dialog.  When [parseInt]
    gives NaN the filter of [StorageManager.deleteRecord] keeps every
    record, NaN being different from every id, and nothing is written. *)
Definition deleteRecord (confirmed : bool) (id : string)
    (ls : StorageManager.LocalStorage) : StorageManager.LocalStorage :=
  if confirmed
  then match parseIntString id with
       | Int recordId => snd (StorageManager.deleteRecord recordId ls)
       | NaN => ls
       end
  else ls.

(** [editRecord(id)] up to the form: the id read from the button and the
    record the form is opened on, or the message that there is none. *)
Definition editRecord (id : string) (ls : StorageManager.LocalStorage)
  : option (Z * StorageManager.WorkRecord) * list Effect :=
  let found :=
    match parseIntString id with
    | Int recordId =>
        match find (fun r => StorageManager.id r =? recordId)
                (StorageManager.getRecords ls) with
        | Some record => Some (recordId, record)
        | None => None
        end
    | NaN => None
    end in
  match found with
  | Some form => (Some form, [])
  | None => (None, [ShowMessage "未找到该记录" "error"])
  end.

Section Forms.

(** [new Date(`${date}T${time}`)] as epoch milliseconds: the reading of a
    date and a time of day on the popup's clock, NaN for an invalid date. *)
Variable dateTime : string -> string -> Number.

(** The save button of the form [showAddRecordForm] opens, clicked at
    [now] with these values in the fields. *)
Definition onSaveRecord (now : Z) (content type startTime endTime : string)
    (st : State) (ls : StorageManager.LocalStorage)
  : StorageManager.LocalStorage * list Effect :=
  if (content =? "")%string || (startTime =? "")%string || (endTime =? "")%string
  then (ls, [Alert "请填写所有必填字段"])
  else
    let start := dateTime (currentDate st) startTime in
    let end_ := dateTime (currentDate st) endTime in
    let duration := roundMinutesOf (numSub end_ start) in
    if notPositive duration
    then (ls, [Alert "结束时间必须晚于开始时间"])
    else
      let record :=
        {| StorageManager.id := 0;
           StorageManager.date := currentDate st;
           StorageManager.startTime := startTime;
           StorageManager.endTime := endTime;
           StorageManager.duration := jsonNumber duration;
           StorageManager.content := content;
           StorageManager.type := type |} in
      (snd (StorageManager.addRecord now record ls),
       [ShowMessage "记录添加成功" "success"]).

(** The save button of the form [editRecord] opened on [record], found
    under [recordId]. *)
Definition onSaveEditRecord (recordId : Z) (record : StorageManager.WorkRecord)
    (content type date startTime endTime : string)
    (ls : StorageManager.LocalStorage)
  : StorageManager.LocalStorage * list Effect :=
  if (content =? "")%string || (date =? "")%string
     || (startTime =? "")%string || (endTime =? "")%string
  then (ls, [Alert "请填写所有必填字段"])
  else
    let start := dateTime date startTime in
    let end_ := dateTime date endTime in
    let duration := roundMinutesOf (numSub end_ start) in
    if notPositive duration
    then (ls, [Alert "结束时间必须晚于开始时间"])
    else
      let updatedRecord :=
        {| StorageManager.newId := Some (StorageManager.id record);
           StorageManager.newDate := Some date;
           StorageManager.newStartTime := Some startTime;
           StorageManager.newEndTime := Some endTime;
           StorageManager.newDuration := Some (jsonNumber duration);
           StorageManager.newContent := Some content;
           StorageManager.newType := Some type |} in
      (snd (StorageManager.updateRecord recordId updatedRecord ls),
       [ShowMessage "记录已更新" "success"]).

End Forms.

(** The three counters of [generateReport]. *)
Record ReportStats : Type := {
  statsByDate : list (string * JsValue);
  statsByType : list (string * JsValue);
  totalDuration : JsValue
}.

(** [if (!stats[key]) { stats[key] = 0; } stats[key] += amount], on a
    counter that began as [{}]. *)
Definition accumulate (key : string) (amount : JsValue)
    (stats : list (string * JsValue)) : list (string * JsValue) :=
  let stats1 :=
    if negb (truthyRead (read key stats))
    then write key (JsNumber (Int 0)) stats
    else stats in
  write key (addRead (read key stats1) amount) stats1.

(** The [forEach] of [generateReport]. *)
Definition reportStats (records : list StorageManager.WorkRecord) : ReportStats :=
  fold_left
    (fun stats record =>
       {| statsByDate := accumulate (StorageManager.date record)
                           (StorageManager.duration record) (statsByDate stats);
          statsByType := accumulate (StorageManager.type record)
                           (StorageManager.duration record) (statsByType stats);
          totalDuration := jsAdd (totalDuration stats)
                             (StorageManager.duration record) |})
    records
    {| statsByDate := []; statsByType := []; totalDuration := JsNumber (Int 0) |}.

(** [generateReport]: the counters the report is written from, if there
    is any record to report. *)
Definition generateReport (ls : StorageManager.LocalStorage)
  : option ReportStats * list Effect :=
  let records := StorageManager.getRecords ls in
  match records with
  | [] => (None, [ShowMessage "没有可生成报告的记录" "error"])
  | _ :: _ => (Some (reportStats records), [ShowMessage "报告已成功生成" "success"])
  end.

(** [loadWorkTypes]: the options of the category selector,
    [settings.workTypes || ['工作']]; an array, even an empty one, is
    truthy. *)
Definition loadWorkTypes (ls : StorageManager.LocalStorage) : list string :=
  match StorageManager.workTypes (StorageManager.getSettings ls) with
  | Some workTypes => workTypes
  | None => ["工作"]
  end.

End TimerManager.

(** ** The popup, the worker and the stores together

    One popup is open at a time.  A message the popup sends is handled by
    the worker before the next event, at the same clock reading. *)
Module Extension.

Record World : Type := {
  popup : TimerManager.State;
  worker : Background.Worker;
  storage : StorageManager.LocalStorage
}.

(** Carry out one effect of a popup method. *)
Definition perform (now : Z) (w : World) (e : TimerManager.Effect) : World :=
  match e with
  | TimerManager.SendMessage m =>
      {| popup := popup w;
         worker := fst (Background.onMessage now m (worker w));
         storage := storage w |}
  | TimerManager.SaveCurrentTimer t =>
      {| popup := popup w; worker := worker w;
         storage := StorageManager.saveCurrentTimer t (storage w) |}
  | TimerManager.AddRecord r =>
      {| popup := popup w; worker := worker w;
         storage := snd (StorageManager.addRecord now r (storage w)) |}
  | TimerManager.ClearCurrentTimer =>
      {| popup := popup w; worker := worker w;
         storage := StorageManager.clearCurrentTimer (storage w) |}
  | TimerManager.ShowMessage _ _ | TimerManager.Alert _ => w
  end.

(** Run a popup method: install its new state, carry out its effects. *)
Definition call (now : Z) (w : World)
    (method : TimerManager.State -> TimerManager.State * list TimerManager.Effect)
  : World :=
  let '(st, effects) := method (popup w) in
  fold_left (perform now)
    effects
    {| popup := st; worker := worker w; storage := storage w |}.

Inductive Event : Type :=
| Open (today : string)        (* the popup page is (re)loaded *)
| Start
| Pause
| Resume
| End (workType : string)
| Refresh                      (* the popup's display interval fires *)
| WorkerTick                   (* the worker's interval fires *)
| WorkerRestart.

Section Clock.

Variable zone : Z.

Definition step (w : World) (timed : Z * Event) : World :=
  let '(now, e) := timed in
  match e with
  | Open today =>
      let '(wk, s) := Background.getTimerStatus now (worker w) in
      let ls := StorageManager.init (storage w) in
      let display := snd (Background.getTimerStatus now wk) in
      call now
        {| popup := TimerManager.create today; worker := wk; storage := ls |}
        (TimerManager.loadTimerState now (Some s)
           (StorageManager.getCurrentTimer ls) (Some display))
  | Start => call now w (TimerManager.startTimer now)
  | Pause => call now w (TimerManager.pauseTimer now)
  | Resume => call now w (TimerManager.resumeTimer now)
  | End workType => call now w (TimerManager.endTimer zone now workType)
  | Refresh =>
      if TimerManager.asksStatus (popup w)
      then
        let '(wk, s) := Background.getTimerStatus now (worker w) in
        {| popup := TimerManager.updateTimerDisplay now (Some s) (popup w);
           worker := wk; storage := storage w |}
      else w
  | WorkerTick =>
      {| popup := popup w; worker := Background.tick now (worker w);
         storage := storage w |}
  | WorkerRestart =>
      {| popup := popup w; worker := Background.restart (worker w);
         storage := storage w |}
  end.

(** A run: the events of a history, oldest first, each with the clock
    reading it happens at. *)
Definition run (history : list (Z * Event)) (w : World) : World :=
  fold_left step history w.

End Clock.

(** The extension right after installation, the popup constructed. *)
Definition installed (today : string) : World :=
  {| popup := TimerManager.create today;
     worker := Background.initial;
     storage := StorageManager.empty |}.

(** The clock readings of a history never go back, starting from [t]. *)
Fixpoint chronological (t : Z) (history : list (Z * Event)) : Prop :=
  match history with
  | [] => True
  | (now, _) :: later => t <= now /\ chronological now later
  end.

(** No [Pause] among the events. *)
Definition pauseFree (history : list (Z * Event)) : Prop :=
  Forall (fun timed => snd timed <> Pause) history.

End Extension.

(** ** options.js: SettingsManager *)
Module SettingsManager.

(** [currentSettings], and the four check boxes of the page. *)
Record State : Type := {
  currentSettings : StorageManager.Settings;
  toggles : StorageManager.Features
}.

Inductive Effect : Type :=
| ShowStatusMessage (message kind : string)
| SettingsUpdated (s : StorageManager.Settings).

Definition withWorkTypes (l : list string) (s : StorageManager.Settings)
  : StorageManager.Settings :=
  {| StorageManager.features := StorageManager.features s;
     StorageManager.workTypes := Some l;
     StorageManager.dateFormat := StorageManager.dateFormat s;
     StorageManager.timeFormat := StorageManager.timeFormat s |}.

Definition withFeatures (f : StorageManager.Features) (s : StorageManager.Settings)
  : StorageManager.Settings :=
  {| StorageManager.features := Some f;
     StorageManager.workTypes := StorageManager.workTypes s;
     StorageManager.dateFormat := StorageManager.dateFormat s;
     StorageManager.timeFormat := StorageManager.timeFormat s |}.

(** [this.currentSettings.workTypes ?? []]. *)
Definition workTypesOf (st : State) : list string :=
  StorageManager.orElse (StorageManager.workTypes (currentSettings st)) [].

(** [loadSettings]: read the settings, set each check box
    ([features?.x ?? true]). *)
Definition loadSettings (ls : StorageManager.LocalStorage) : State :=
  let s := StorageManager.getSettings ls in
  {| currentSettings := s;
     toggles :=
       StorageManager.orElse (StorageManager.features s)
         {| StorageManager.timer := true; StorageManager.statistics := true;
            StorageManager.export := true; StorageManager.manualRecord := true |} |}.

Definition saveSettings (st : State) (ls : StorageManager.LocalStorage)
  : State * StorageManager.LocalStorage * list Effect :=
  let s := withFeatures (toggles st) (currentSettings st) in
  ({| currentSettings := s; toggles := toggles st |},
   StorageManager.saveSettings s ls,
   [ShowStatusMessage "设置已保存" "success"; SettingsUpdated s]).

Definition includes (x : string) (l : list string) : bool :=
  existsb (fun y => (y =? x)%string) l.

(** [addWorkType]; [typeName] is the trimmed text of the input box. *)
Definition addWorkType (typeName : string) (st : State)
    (ls : StorageManager.LocalStorage)
  : State * StorageManager.LocalStorage * list Effect :=
  if (typeName =? "")%string then (st, ls, [])
  else
    let workTypes := workTypesOf st in
    if includes typeName workTypes
    then (st, ls, [ShowStatusMessage "该选择类型已存在" "error"])
    else
      saveSettings
        {| currentSettings := withWorkTypes (workTypes ++ [typeName]) (currentSettings st);
           toggles := toggles st |}
        ls.

(** [l.splice(index, 1)]: what is left of [l].  A negative index counts
    from the end; past the end nothing is removed. *)
Definition splice1 (index : Z) (l : list string) : list string :=
  let len := Z.of_nat (List.length l) in
  let start := if index <? 0 then Z.max (len + index) 0 else Z.min index len in
  firstn (Z.to_nat start) l ++ skipn (S (Z.to_nat start)) l.

Definition deleteWorkType (index : Z) (st : State)
    (ls : StorageManager.LocalStorage)
  : State * StorageManager.LocalStorage * list Effect :=
  let workTypes := workTypesOf st in
  if (List.length workTypes <=? 1)%nat
  then (st, ls, [ShowStatusMessage "至少保留一种选择类型" "error"])
  else
    saveSettings
      {| currentSettings := withWorkTypes (splice1 index workTypes) (currentSettings st);
         toggles := toggles st |}
      ls.

(** The options page with the store behind it. *)
Record Page : Type := {
  manager : State;
  storage : StorageManager.LocalStorage
}.

Inductive Event : Type :=
| AddWorkType (typeName : string)
| DeleteWorkType (index : Z)
| Toggle (f : StorageManager.Features)
| Reload.

(** The page is loaded: [StorageManager.init], then [loadSettings]. *)
Definition load (ls : StorageManager.LocalStorage) : Page :=
  let ls1 := StorageManager.init ls in
  {| manager := loadSettings ls1; storage := ls1 |}.

Definition step (p : Page) (e : Event) : Page :=
  match e with
  | AddWorkType typeName =>
      let '(st, ls, _) := addWorkType typeName (manager p) (storage p) in
      {| manager := st; storage := ls |}
  | DeleteWorkType index =>
      let '(st, ls, _) := deleteWorkType index (manager p) (storage p) in
      {| manager := st; storage := ls |}
  | Toggle f =>
      let '(st, ls, _) :=
        saveSettings {| currentSettings := currentSettings (manager p); toggles := f |}
          (storage p) in
      {| manager := st; storage := ls |}
  | Reload => load (storage p)
  end.

(** The pages reachable from a first load on an empty store. *)
Inductive Reachable : Page -> Prop :=
| reach_load : Reachable (load StorageManager.empty)
| reach_step (p : Page) (e : Event) : Reachable p -> Reachable (step p e).

(** The category list a settings object carries is present and non-empty. *)
Definition hasWorkType (s : StorageManager.Settings) : Prop :=
  exists l, StorageManager.workTypes s = Some l /\ l <> [].

End SettingsManager.

(** ** Notions the statements below use *)

(** The minutes of a record as a whole number, 0 where [parseInt] gives NaN. *)
Definition wholeMinutes (r : StorageManager.WorkRecord) : Z :=
  match StorageManager.minutes r with
  | Int z => z
  | NaN => 0
  end.

Definition sumWhole (rs : list StorageManager.WorkRecord) : Z :=
  fold_right (fun r acc => wholeMinutes r + acc) 0 rs.

(** The duration of a record is a whole number of minutes, not negative. *)
Definition nonNegativeDuration (r : StorageManager.WorkRecord) : Prop :=
  exists m, StorageManager.duration r = JsNumber (Int m) /\ 0 <= m.

(** Each element is above all the elements before it. *)
Fixpoint increasing (l : list Z) : Prop :=
  match l with
  | [] => True
  | x :: rest => Forall (fun y => x < y) rest /\ increasing rest
  end.

(** What the worker's own writes keep true: a running state has a start
    time, the interval variable is null or live, and the interval is live
    only while both the state and its stored copy are running. *)
Definition workerSound (w : Background.Worker) : Prop :=
  (Background.isRunning (Background.timerState w) = true ->
   Background.startTime (Background.timerState w) <> 0) /\
  (forall s, Background.currentTimer w = Some s ->
             Background.isRunning s = true -> Background.startTime s <> 0) /\
  Background.timerInterval w <> Cleared /\
  (Background.timerInterval w = Live ->
   Background.isRunning (Background.timerState w) = true /\
   exists s, Background.currentTimer w = Some s /\ Background.isRunning s = true).

(** A timer state whose start is not after [t] and whose elapsed time is
    not negative. *)
Definition inPast (t : Z) (s : Background.TimerState) : Prop :=
  Background.startTime s <= t /\ 0 <= Background.elapsedTime s.

(** The same of the worker's state and of its stored copy. *)
Definition workerPast (t : Z) (w : Background.Worker) : Prop :=
  inPast t (Background.timerState w) /\
  forall s, Background.currentTimer w = Some s -> inPast t s.

(** The same of the popup's fields. *)
Definition popupPast (t : Z) (st : TimerManager.State) : Prop :=
  TimerManager.toNumber (TimerManager.startTime st) <= t /\
  0 <= TimerManager.elapsedTime st.

(** The same of the snapshot the popup keeps in localStorage. *)
Definition snapshotPast (t : Z) (ls : StorageManager.LocalStorage) : Prop :=
  forall s, StorageManager.currentTimer ls = Some s ->
            TimerManager.toNumber (StorageManager.snapStartTime s) <= t /\
            0 <= StorageManager.snapElapsedTime s.

(** What every run keeps true at clock reading [t]: no start time, in the
    popup, in the worker or in either store, lies after [t]; no elapsed
    time is negative; no committed duration is negative. *)
Definition worldSound (t : Z) (w : Extension.World) : Prop :=
  0 <= t /\
  popupPast t (Extension.popup w) /\
  workerPast t (Extension.worker w) /\
  snapshotPast t (Extension.storage w) /\
  Forall nonNegativeDuration (StorageManager.getRecords (Extension.storage w)).

(** The worker has been running since [start]: the stored snapshot says
    so, and so does the state whenever the interval variable is set. *)
Definition runningSince (start : Z) (wk : Background.Worker) : Prop :=
  (exists s, Background.currentTimer wk = Some s /\
             Background.isRunning s = true /\ Background.startTime s = start) /\
  (Background.timerInterval wk <> NoHandle ->
   Background.isRunning (Background.timerState wk) = true /\
   Background.startTime (Background.timerState wk) = start).

(** Events that leave the popup's controls alone: the display refresh and
    what happens to the worker on its own. *)
Definition displayOnly (history : list (Z * Extension.Event)) : Prop :=
  Forall (fun timed => snd timed = Extension.Refresh \/
                       snd timed = Extension.WorkerTick \/
                       snd timed = Extension.WorkerRestart) history.

(** No display refresh among the events. *)
Definition refreshFree (history : list (Z * Extension.Event)) : Prop :=
  Forall (fun timed => snd timed <> Extension.Refresh) history.

(** The elapsed time the popup shows after a history of such events, for a
    run that began at [start]: what the last refresh computed, or [elapsed]
    if there was none. *)
Fixpoint displayed (start elapsed : Z) (history : list (Z * Extension.Event)) : Z :=
  match history with
  | [] => elapsed
  | (now, Extension.Refresh) :: later => displayed start (now - start) later
  | _ :: later => displayed start elapsed later
  end.

(** What the options page keeps true: the category list is present and
    non-empty, in the page's settings and in the stored ones. *)
Definition pageSound (p : SettingsManager.Page) : Prop :=
  SettingsManager.hasWorkType
    (SettingsManager.currentSettings (SettingsManager.manager p)) /\
  exists s, StorageManager.settings (SettingsManager.storage p) = Some s /\
            SettingsManager.hasWorkType s.

(** ** Sample inputs *)

(** A life record whose duration does not parse, the only record of its day. *)
Definition unreadableLife : StorageManager.LocalStorage :=
  {| StorageManager.records :=
       Some [{| StorageManager.id := 1753062720000;
                StorageManager.date := "2025-07-21";
                StorageManager.startTime := "09:52";
                StorageManager.endTime := "11:53";
                StorageManager.duration := JsString "abc";
                StorageManager.content := "午休";
                StorageManager.type := "生活" |}];
     StorageManager.settings := None;
     StorageManager.currentTimer := None;
     StorageManager.writes := [] |}.

(** A day with a timed record, a 生活 record whose duration is the text
    "30" and a record without duration. *)
Definition sampleDay : StorageManager.LocalStorage :=
  {| StorageManager.records :=
       Some [{| StorageManager.id := 1753062720000;
                StorageManager.date := "2025-07-21";
                StorageManager.startTime := "09:52";
                StorageManager.endTime := "11:53";
                StorageManager.duration := JsNumber (Int 121);
                StorageManager.content := "高保真图";
                StorageManager.type := "工作" |};
             {| StorageManager.id := 1753070000000;
                StorageManager.date := "2025-07-21";
                StorageManager.startTime := "12:00";
                StorageManager.endTime := "12:30";
                StorageManager.duration := JsString "30";
                StorageManager.content := "午饭";
                StorageManager.type := "生活" |};
             {| StorageManager.id := 1753080000000;
                StorageManager.date := "2025-07-21";
                StorageManager.startTime := "14:00";
                StorageManager.endTime := "14:00";
                StorageManager.duration := JsUndefined;
                StorageManager.content := "";
                StorageManager.type := "学习" |}];
     StorageManager.settings := None;
     StorageManager.currentTimer := None;
     StorageManager.writes := [] |}.

(** The same day as [sampleDay], the 工作 record's duration unreadable. *)
Definition unreadableWork : StorageManager.LocalStorage :=
  {| StorageManager.records :=
       Some [{| StorageManager.id := 1753062720000;
                StorageManager.date := "2025-07-21";
                StorageManager.startTime := "09:52";
                StorageManager.endTime := "11:53";
                StorageManager.duration := JsString "abc";
                StorageManager.content := "高保真图";
                StorageManager.type := "工作" |};
             {| StorageManager.id := 1753070000000;
                StorageManager.date := "2025-07-21";
                StorageManager.startTime := "12:00";
                StorageManager.endTime := "12:30";
                StorageManager.duration := JsNumber (Int 30);
                StorageManager.content := "午饭";
                StorageManager.type := "生活" |}];
     StorageManager.settings := None;
     StorageManager.currentTimer := None;
     StorageManager.writes := [] |}.

(** A worker started with 90 s already elapsed, after its first tick. *)
Definition tickingWorker : Background.Worker :=
  Background.step (Background.Tick 1753062721000)
    (Background.step
       (Background.Receive 1753062720000
          (Background.START_TIMER
             {| Background.dataStartTime := Some 1753062630000;
                Background.dataElapsedTime := 90000 |}))
       Background.initial).

(** A popup paused 18 minutes into a run, in front of a paused worker. *)
Definition pausedWorld : Extension.World :=
  Extension.run 480
    [(1753062720000, Extension.Start); (1753063800000, Extension.Pause)]
    (Extension.installed "2025-07-21").

(** A timed run that is refreshed 29.5 s after its start and stopped 0.7 s
    later. *)
Definition staleHistory : list (Z * Extension.Event) :=
  [(1753062720000, Extension.Start);
   (1753062749500, Extension.Refresh);
   (1753062750200, Extension.End "工作")].

(** The day of the spec's scenario, the display refreshed just before the
    stop. *)
Definition scenarioHistory : list (Z * Extension.Event) :=
  [(1753062720000, Extension.Start);
   (1753063800000, Extension.Pause);
   (1753063800000, Extension.Resume);
   (1753069979000, Extension.Refresh);
   (1753069980000, Extension.End "工作")].

(** An options page left with a single category. *)
Definition lastCategoryPage : SettingsManager.Page :=
  fold_left SettingsManager.step
    [SettingsManager.DeleteWorkType 1; SettingsManager.DeleteWorkType 1;
     SettingsManager.DeleteWorkType 1]
    (SettingsManager.load StorageManager.empty).

(** ** Further notions and sample inputs *)

(** A record with nothing in it. *)
Definition blankRecord : StorageManager.WorkRecord :=
  {| StorageManager.id := 0; StorageManager.date := "";
     StorageManager.startTime := ""; StorageManager.endTime := "";
     StorageManager.duration := JsUndefined;
     StorageManager.content := ""; StorageManager.type := "" |}.

(** The worker's interval fires at each reading of [clock], in order. *)
Definition ticks (clock : list Z) (w : Background.Worker) : Background.Worker :=
  fold_left (fun wk now => Background.tick now wk) clock w.

(** The category list of the page is present, without repeats, and holds
    no empty label. *)
Definition pageTidy (p : SettingsManager.Page) : Prop :=
  exists l,
    StorageManager.workTypes
      (SettingsManager.currentSettings (SettingsManager.manager p)) = Some l /\
    NoDup l /\ ~ In "" l.

(** Nothing on the page is unsaved: the stored settings are the page's, the
    stored features are the check boxes, and the records key is present. *)
Definition pageSaved (p : SettingsManager.Page) : Prop :=
  StorageManager.settings (SettingsManager.storage p)
  = Some (SettingsManager.currentSettings (SettingsManager.manager p)) /\
  StorageManager.features (SettingsManager.currentSettings (SettingsManager.manager p))
  = Some (SettingsManager.toggles (SettingsManager.manager p)) /\
  StorageManager.records (SettingsManager.storage p) <> None.

(** A stretch of running: the popup is started at the first reading, then
    only display refreshes and worker events happen, then it is paused at
    the last reading. *)
Definition Session : Type := (Z * list (Z * Extension.Event) * Z)%type.

Definition sessionHistory (s : Session) : list (Z * Extension.Event) :=
  let '(started, between, paused) := s in
  ((started, Extension.Start) :: between ++ [(paused, Extension.Pause)])%list.

Definition sessionsHistory (ss : list Session) : list (Z * Extension.Event) :=
  flat_map sessionHistory ss.

(** The time the sessions ran: the sum of pause minus start. *)
Fixpoint runningTime (ss : list Session) : Z :=
  match ss with
  | [] => 0
  | (started, _, paused) :: rest => (paused - started) + runningTime rest
  end.

(** Between start and pause of each session only refreshes and worker
    events happen. *)
Definition quietSessions (ss : list Session) : Prop :=
  Forall (fun s => displayOnly (snd (fst s))) ss.

(** Each session starts no earlier than [t], the pause of the one before. *)
Fixpoint startsAfter (t : Z) (ss : list Session) : Prop :=
  match ss with
  | [] => True
  | (started, _, paused) :: rest => t <= started /\ startsAfter paused rest
  end.

(** No worker restart among the events. *)
Definition restartFree (history : list (Z * Extension.Event)) : Prop :=
  Forall (fun timed => snd timed <> Extension.WorkerRestart) history.

(** The spec's scenario as two sessions: 09:52 to 10:10, then 10:10 to
    11:53 with a display refresh on the way. *)
Definition scenarioSessions : list Session :=
  [(1753062720000, [], 1753063800000);
   (1753063800000, [(1753069979000, Extension.Refresh)], 1753069980000)].

(** What [escapeHtml] writes for one character. *)
Definition escapeChar (c : ascii) : string :=
  if (c =? "&")%char then "&amp;"
  else if (c =? "<")%char then "&lt;"
  else if (c =? ">")%char then "&gt;"
  else if (c =? doubleQuote)%char then "&quot;"
  else if (c =? "'")%char then "&#039;"
  else String c EmptyString.

(** Each character of a text escaped on its own. *)
Fixpoint escapeEach (text : string) : string :=
  match text with
  | EmptyString => EmptyString
  | String c rest => escapeChar c ++ escapeEach rest
  end.

(** The characters that end a quoted attribute value or open a tag. *)
Definition markup (c : ascii) : Prop :=
  c = "<"%char \/ c = ">"%char \/ c = doubleQuote \/ c = "'"%char.

(** A clock for the forms' time fields: the time of day "HH:MM" as the
    milliseconds since midnight, whatever the date. *)
Definition sampleDateTime (date time : string) : Number :=
  match parseIntString (substring 0 2 time), parseIntString (substring 3 2 time) with
  | Int h, Int m => Int ((h * 60 + m) * 60000)
  | _, _ => NaN
  end.

(** A duration as the extension itself stores it: a whole number, or null
    where it computed NaN. *)
Definition writtenDuration (r : StorageManager.WorkRecord) : Prop :=
  StorageManager.duration r = JsNull \/
  exists m, StorageManager.duration r = JsNumber (Int m).

(** One counter of the report on its own: the records counted under the
    key [key] gives them. *)
Definition tally (key : StorageManager.WorkRecord -> string)
    (rs : list StorageManager.WorkRecord) : list (string * JsValue) :=
  fold_left
    (fun stats record =>
       TimerManager.accumulate (key record) (StorageManager.duration record) stats)
    rs [].

(** The records a key function files under [k]. *)
Definition filedUnder (key : StorageManager.WorkRecord -> string) (k : string)
    (rs : list StorageManager.WorkRecord) : list StorageManager.WorkRecord :=
  filter (fun r => (key r =? k)%string) rs.

(** A ledger the add-record form wrote: lunch, then the weekly report. *)
Definition writtenLedger : StorageManager.LocalStorage :=
  fst (TimerManager.onSaveRecord sampleDateTime 1753090000000
         "周报" "工作" "16:00" "16:30" (TimerManager.create "2025-07-21")
         (fst (TimerManager.onSaveRecord sampleDateTime 1753080000000
                 "午饭" "生活" "12:00" "12:45" (TimerManager.create "2025-07-21")
                 StorageManager.empty))).

(* ===================================================================== *)
(** * Part II: properties                                                  *)
(* ===================================================================== *)

(** ** The built-ins *)

Lemma orZ_zero_r (a : Z) : orZ a 0 = a.
Proof. unfold orZ. destruct (Z.eqb_spec a 0); congruence. Qed.

Lemma orZ_nonzero (a b : Z) : b <> 0 -> orZ a b <> 0.
Proof. unfold orZ. destruct (Z.eqb_spec a 0); congruence. Qed.

Lemma orZ_cases (a b : Z) : (a = 0 /\ orZ a b = b) \/ (a <> 0 /\ orZ a b = a).
Proof. unfold orZ. destruct (Z.eqb_spec a 0); auto. Qed.

Example parseInt_reads :
  parseInt (JsString "121") = Int 121 /\
  parseInt (JsString "  -12px") = Int (-12) /\
  parseInt (JsString "0x1A") = Int 26 /\
  parseInt (JsString "12.7") = Int 12 /\
  parseInt (JsNumber (Int 30)) = Int 30.
Proof. repeat split; reflexivity. Qed.

(** White space of more than one byte is skipped like a blank: a no-break
    space, an ideographic space, a byte order mark. *)
Example parseInt_skips_wide_space :
  parseInt (JsString (String "194" (String "160" "42"))) = Int 42 /\
  parseInt (JsString (String "227" (String "128" (String "128" "42")))) = Int 42 /\
  parseInt (JsString (String "239" (String "187" (String "191" " 42")))) = Int 42 /\
  parseInt (JsString (String "227" (String "128" (String "129" "42")))) = NaN.
Proof. repeat split; reflexivity. Qed.

Example parseInt_gives_up :
  parseInt (JsString "abc") = NaN /\
  parseInt (JsString "") = NaN /\
  parseInt (JsString "-") = NaN /\
  parseInt (JsBool true) = NaN /\
  parseInt JsNull = NaN.
Proof. repeat split; reflexivity. Qed.

Example roundMinutes_halves :
  roundMinutes 29999 = 0 /\ roundMinutes 30000 = 1 /\
  roundMinutes (-30000) = 0 /\ roundMinutes (-30001) = -1.
Proof. repeat split; reflexivity. Qed.

Lemma roundMinutes_nonneg (ms : Z) : 0 <= ms -> 0 <= roundMinutes ms.
Proof. intros H. unfold roundMinutes. apply Z.div_pos; lia. Qed.

Lemma roundMinutes_monotone (a b : Z) : a <= b -> roundMinutes a <= roundMinutes b.
Proof. intros H. unfold roundMinutes. apply Z.div_le_mono; lia. Qed.

(** A missing, null, zero or empty duration counts for nothing. *)
Lemma minutes_falsy (r : StorageManager.WorkRecord) :
  truthy (StorageManager.duration r) = false -> StorageManager.minutes r = Int 0.
Proof.
  intros H. unfold StorageManager.minutes, jsOr. rewrite H. reflexivity.
Qed.

(** A whole number of minutes counts as itself. *)
Lemma minutes_number (r : StorageManager.WorkRecord) (m : Z) :
  StorageManager.duration r = JsNumber (Int m) -> StorageManager.minutes r = Int m.
Proof.
  intros H. unfold StorageManager.minutes, jsOr. rewrite H. simpl.
  destruct (Z.eqb_spec m 0); simpl; congruence.
Qed.

(** ** The record ledger *)

Section Ledger.

Import StorageManager.

Lemma filter_keeps_all {A : Type} (p : A -> bool) (l : list A) :
  (forall x, In x l -> p x = true) -> filter p l = l.
Proof.
  induction l as [|x l IH]; intros Hall; simpl.
  - reflexivity.
  - rewrite (Hall x (or_introl eq_refl)). f_equal.
    apply IH. intros y Hy. apply Hall. now right.
Qed.

Lemma findIndex_none {A : Type} (p : A -> bool) (l : list A) :
  (forall x, In x l -> p x = false) -> findIndex p l = None.
Proof.
  induction l as [|x l IH]; intros Hall; simpl.
  - reflexivity.
  - rewrite (Hall x (or_introl eq_refl)).
    rewrite IH; [reflexivity|]. intros y Hy. apply Hall. now right.
Qed.

Lemma absent_id_differs (ls : LocalStorage) (i : Z) :
  ~ In i (ids ls) -> forall r, In r (getRecords ls) -> (id r =? i) = false.
Proof.
  intros Habsent r Hr. apply Z.eqb_neq. intros Heq. apply Habsent.
  unfold ids. rewrite <- Heq. now apply in_map.
Qed.

(** [add] gives each record the clock reading of its call as id. *)
Lemma addAll_ids (clock : list Z) (record : WorkRecord) (ls : LocalStorage) :
  ids (addAll clock record ls) = (ids ls ++ clock)%list.
Proof.
  revert ls. induction clock as [|now later IH]; intros ls; simpl.
  - now rewrite app_nil_r.
  - rewrite IH. unfold ids, getRecords. simpl.
    rewrite map_app. simpl. now rewrite <- app_assoc.
Qed.

Lemma increasing_app (l : list Z) (x : Z) :
  increasing l -> Forall (fun y => y < x) l -> increasing (l ++ [x])%list.
Proof.
  induction l as [|y l IH]; simpl; intros Hinc Hlt.
  - split; [constructor | exact I].
  - destruct Hinc as [Hy Hl]. inversion Hlt as [|? ? Hyx Hlx]; subst. split.
    + apply Forall_app. split; [exact Hy | now repeat constructor].
    + now apply IH.
Qed.

(** While the clock moves on between calls, the ids do increase. *)
Lemma addAll_increasing (clock : list Z) (record : WorkRecord) :
  increasing clock -> increasing (ids (addAll clock record empty)).
Proof. intros H. now rewrite addAll_ids. Qed.

Lemma sumMinutes_from (rs : list WorkRecord) (a : Z) :
  (forall r, In r rs -> minutes r <> NaN) ->
  fold_left (fun total record => numAdd total (minutes record)) rs (Int a)
  = Int (a + sumWhole rs).
Proof.
  revert a. induction rs as [|r rs IH]; intros a Hall; simpl.
  - f_equal. lia.
  - assert (Hr : minutes r <> NaN) by (apply Hall; now left).
    unfold wholeMinutes. destruct (minutes r) as [|z]; [congruence|].
    simpl. rewrite IH by (intros y Hy; apply Hall; now right).
    f_equal. lia.
Qed.

Lemma sumMinutes_whole (rs : list WorkRecord) :
  (forall r, In r rs -> minutes r <> NaN) -> sumMinutes rs = Int (sumWhole rs).
Proof. intros H. unfold sumMinutes. now rewrite sumMinutes_from. Qed.

Lemma sumWhole_split (p : WorkRecord -> bool) (rs : list WorkRecord) :
  sumWhole (filter (fun r => negb (p r)) rs)
  = sumWhole rs - sumWhole (filter p rs).
Proof.
  induction rs as [|r rs IH]; simpl; [reflexivity|].
  destruct (p r); simpl; rewrite IH; lia.
Qed.

Lemma NaN_absorbs (rs : list WorkRecord) :
  fold_left (fun total record => numAdd total (minutes record)) rs NaN = NaN.
Proof. induction rs as [|r rs IH]; simpl; [reflexivity | exact IH]. Qed.

(** One duration [parseInt] cannot read turns the whole sum into NaN. *)
Lemma sumMinutes_NaN (rs : list WorkRecord) (r : WorkRecord) :
  In r rs -> minutes r = NaN -> sumMinutes rs = NaN.
Proof.
  unfold sumMinutes. generalize (Int 0).
  induction rs as [|x rs IH]; intros a Hin Hr; simpl; [contradiction|].
  destruct Hin as [-> | Hin].
  - rewrite Hr. destruct a; simpl; apply NaN_absorbs.
  - now apply IH.
Qed.

End Ledger.

(** C5, at the failing input: two [add] calls made at the same clock
    reading leave two records with the same id in the ledger, so the second
    id is not above the first and the ids are not unique. *)
Theorem addRecord_same_tick_same_id :
  forall record : StorageManager.WorkRecord,
    StorageManager.ids
      (StorageManager.addAll [1753062720000; 1753062720000] record StorageManager.empty)
    = [1753062720000; 1753062720000]
    /\ ~ increasing
         (StorageManager.ids
            (StorageManager.addAll [1753062720000; 1753062720000] record
               StorageManager.empty)).
Proof.
  intros record. rewrite addAll_ids. simpl. split; [reflexivity|].
  intros [Hlt _]. inversion Hlt as [|? ? H _]. lia.
Qed.

(** Two records that share an id are deleted together. *)
Example same_tick_records_deleted_together :
  forall record : StorageManager.WorkRecord,
    StorageManager.getRecords
      (snd (StorageManager.deleteRecord 1753062720000
              (StorageManager.addAll [1753062720000; 1753062720000] record
                 StorageManager.empty)))
    = [].
Proof.
  intros record. reflexivity.
Qed.

(** C6: the total without 生活 is not the total minus the 生活 sum once a
    duration is unreadable.  With a single 生活 record whose duration is
    the text "abc", the total without 生活 is 0 while the total and the
    生活 sum are both NaN, and so is their difference: the NaN that
    [parseInt] gives for such a duration (C7) reaches two of the three
    sums and not the third. *)
Lemma unreadable_life_breaks_total_minus_life :
  StorageManager.getWorkTimeExcludingLifeByDate "2025-07-21" unreadableLife = Int 0
  /\ numSub (StorageManager.getTotalTimeByDate "2025-07-21" unreadableLife)
            (StorageManager.lifeMinutesByDate "2025-07-21" unreadableLife) = NaN
  /\ StorageManager.getWorkTimeExcludingLifeByDate "2025-07-21" unreadableLife
     <> numSub (StorageManager.getTotalTimeByDate "2025-07-21" unreadableLife)
               (StorageManager.lifeMinutesByDate "2025-07-21" unreadableLife).
Proof. repeat split; try reflexivity. vm_compute. discriminate. Qed.

(** Short of that the difference is right: when every record of the day
    has a duration that is missing or that [parseInt] reads, the two totals
    and the 生活 sum are whole numbers and the total without 生活 is the
    total minus the 生活 sum. *)
Theorem excludingLife_is_total_minus_life
    (ls : StorageManager.LocalStorage) (d : string) :
  (forall r, In r (StorageManager.getRecordsByDate d ls) ->
             StorageManager.minutes r <> NaN) ->
  exists total life : Z,
    StorageManager.getTotalTimeByDate d ls = Int total /\
    StorageManager.lifeMinutesByDate d ls = Int life /\
    StorageManager.getWorkTimeExcludingLifeByDate d ls = Int (total - life) /\
    StorageManager.getWorkTimeExcludingLifeByDate d ls
    = numSub (StorageManager.getTotalTimeByDate d ls)
             (StorageManager.lifeMinutesByDate d ls).
Proof.
  intros Hall.
  unfold StorageManager.getTotalTimeByDate, StorageManager.lifeMinutesByDate,
    StorageManager.getWorkTimeExcludingLifeByDate.
  set (rs := StorageManager.getRecordsByDate d ls) in *.
  assert (Hsub : forall p r, In r (filter p rs) -> StorageManager.minutes r <> NaN).
  { intros p r Hr. apply Hall. apply filter_In in Hr. tauto. }
  pose proof (sumMinutes_whole rs Hall) as Htotal.
  pose proof (sumMinutes_whole _
                (Hsub (fun record => (StorageManager.type record =? "生活")%string)))
    as Hlife.
  pose proof (sumMinutes_whole _
                (Hsub (fun record => negb (StorageManager.type record =? "生活")%string)))
    as Hrest.
  pose proof (sumWhole_split
                (fun record => (StorageManager.type record =? "生活")%string) rs)
    as Hsplit.
  cbv beta in Hsplit. rewrite Htotal, Hlife, Hrest, Hsplit.
  eexists _, _. repeat split; reflexivity.
Qed.

Lemma excludingLife_is_total_minus_life_witness :
  exists total life : Z,
    StorageManager.getTotalTimeByDate "2025-07-21" sampleDay = Int total /\
    StorageManager.lifeMinutesByDate "2025-07-21" sampleDay = Int life /\
    StorageManager.getWorkTimeExcludingLifeByDate "2025-07-21" sampleDay
    = Int (total - life) /\
    StorageManager.getWorkTimeExcludingLifeByDate "2025-07-21" sampleDay
    = numSub (StorageManager.getTotalTimeByDate "2025-07-21" sampleDay)
             (StorageManager.lifeMinutesByDate "2025-07-21" sampleDay).
Proof.
  apply (excludingLife_is_total_minus_life sampleDay "2025-07-21").
  intros r Hr. vm_compute in Hr.
  destruct Hr as [<- | [<- | [<- | []]]]; vm_compute; discriminate.
Defined.

(** C7, at the failing input: a record whose duration is the text "abc" is
    not counted as zero; both daily sums come out as NaN, where counting it
    as zero would give 30 and 0. *)
Theorem unreadable_duration_gives_NaN :
  StorageManager.getTotalTimeByDate "2025-07-21" unreadableWork = NaN /\
  StorageManager.getWorkTimeExcludingLifeByDate "2025-07-21" unreadableWork = NaN.
Proof. split; reflexivity. Qed.

(** C9: on an id the ledger does not hold, [deleteRecord] and
    [updateRecord] both return [false] and hand back the store as it was,
    its write log included: nothing was written. *)
Theorem absent_id_leaves_ledger_unchanged
    (ls : StorageManager.LocalStorage) (i : Z) :
  ~ In i (StorageManager.ids ls) ->
  StorageManager.deleteRecord i ls = (StorageManager.ReturnedFalse, ls) /\
  forall updates,
    StorageManager.updateRecord i updates ls = (StorageManager.ReturnedFalse, ls).
Proof.
  intros Habsent. pose proof (absent_id_differs ls i Habsent) as Hdiff. split.
  - unfold StorageManager.deleteRecord.
    rewrite filter_keeps_all.
    + now rewrite Nat.eqb_refl.
    + intros r Hr. now rewrite (Hdiff r Hr).
  - intros updates. unfold StorageManager.updateRecord.
    now rewrite (findIndex_none _ _ Hdiff).
Qed.

Lemma absent_id_leaves_ledger_unchanged_witness :
  ~ In 42 (StorageManager.ids sampleDay) /\
  StorageManager.deleteRecord 42 sampleDay = (StorageManager.ReturnedFalse, sampleDay) /\
  forall updates,
    StorageManager.updateRecord 42 updates sampleDay
    = (StorageManager.ReturnedFalse, sampleDay).
Proof.
  assert (Habsent : ~ In 42 (StorageManager.ids sampleDay)).
  { simpl. intros [H | [H | [H | []]]]; discriminate H. }
  split; [exact Habsent|].
  exact (absent_id_leaves_ledger_unchanged sampleDay 42 Habsent).
Defined.

(** Where the id is present, [deleteRecord] does write. *)
Example present_id_is_deleted :
  fst (StorageManager.deleteRecord 1753070000000 sampleDay) = StorageManager.ResolvedTrue
  /\ StorageManager.ids (snd (StorageManager.deleteRecord 1753070000000 sampleDay))
     = [1753062720000; 1753080000000]
  /\ StorageManager.writes (snd (StorageManager.deleteRecord 1753070000000 sampleDay))
     = [StorageManager.SetItem StorageManager.RECORDS].
Proof. repeat split; reflexivity. Qed.

(** ** The service worker *)

Section Worker.

Import Background.

Lemma startTimeOr_nonzero (t : option Z) (now : Z) :
  now <> 0 -> startTimeOr t now <> 0.
Proof. destruct t as [s|]; simpl; [apply orZ_nonzero | trivial]. Qed.

Lemma startTimeOr_given (s now : Z) : s <> 0 -> startTimeOr (Some s) now = s.
Proof. intros H. simpl. destruct (orZ_cases s now) as [[? ?]|[_ ->]]; congruence. Qed.

Lemma startTimer_sound (now : Z) (data : StartData) (w : Worker) :
  0 < now -> workerSound (startTimer now data w).
Proof.
  intros Hnow.
  assert (Hs : startTimeOr (dataStartTime data) now <> 0)
    by (apply startTimeOr_nonzero; lia).
  unfold workerSound, startTimer, persist; simpl. repeat split.
  - intros _. exact Hs.
  - intros s Heq _. injection Heq as <-. exact Hs.
  - discriminate.
  - eexists. split; reflexivity.
Qed.

Lemma pauseTimer_interval (now : Z) (w : Worker) :
  timerInterval (pauseTimer now w) = NoHandle.
Proof.
  unfold pauseTimer.
  destruct (timerInterval w) eqn:Hi; simpl;
    destruct (isRunning (timerState w)); simpl; auto.
Qed.

Lemma pauseTimer_not_running (now : Z) (w : Worker) :
  isRunning (timerState (pauseTimer now w)) = false.
Proof.
  unfold pauseTimer.
  destruct (timerInterval w) eqn:Hi; simpl;
    destruct (isRunning (timerState w)) eqn:Hr; simpl; auto.
Qed.

Lemma pauseTimer_sound (now : Z) (w : Worker) :
  workerSound w -> workerSound (pauseTimer now w).
Proof.
  intros (Hstate & Hstored & _ & _).
  unfold workerSound.
  rewrite pauseTimer_interval, pauseTimer_not_running.
  repeat split; try discriminate.
  intros s. unfold pauseTimer.
  destruct (timerInterval w); simpl;
    destruct (isRunning (timerState w)); simpl; intros Heq Hrun;
    try (now apply (Hstored s));
    injection Heq as <-; discriminate Hrun.
Qed.

Lemma clearTimer_sound (now : Z) (w : Worker) : workerSound (clearTimer now w).
Proof.
  unfold workerSound, clearTimer; simpl. rewrite pauseTimer_interval.
  repeat split; discriminate.
Qed.

Lemma getTimerStatus_sound (now : Z) (w : Worker) :
  0 < now -> workerSound w -> workerSound (fst (getTimerStatus now w)).
Proof.
  intros Hnow Hw. unfold getTimerStatus.
  destruct (currentTimer w) as [stored|] eqn:Hc; [|exact Hw].
  destruct Hw as (Hstate & Hstored & Hnc & Hlive). simpl.
  assert (Hst : isRunning stored = true -> startTime stored <> 0)
    by (apply Hstored; exact Hc).
  destruct (isRunning stored) eqn:Hr, (timerInterval w) eqn:Hi;
    try (now apply startTimer_sound); try congruence.
  - unfold workerSound; simpl. rewrite ?Hi, ?Hr.
    repeat split; try discriminate; auto.
    + intros s Heq _. injection Heq as <-. auto.
    + eauto.
  - unfold workerSound; simpl. rewrite ?Hi, ?Hr.
    repeat split; try discriminate.
    intros s Heq Hrun. injection Heq as <-. congruence.
  - exfalso. destruct (Hlive eq_refl) as (_ & s & Hs & Hrun). congruence.
Qed.

Lemma tick_sound (now : Z) (w : Worker) : workerSound w -> workerSound (tick now w).
Proof.
  intros Hw. unfold tick. destruct (timerInterval w) eqn:Hi; try exact Hw.
  destruct Hw as (Hstate & Hstored & Hnc & Hlive).
  destruct (Hlive Hi) as (Hrun & _).
  unfold workerSound, persist; simpl. rewrite ?Hi. repeat split.
  - exact Hstate.
  - intros s Heq _. injection Heq as <-. simpl. now apply Hstate.
  - discriminate.
  - exact Hrun.
  - eexists. split; [reflexivity | exact Hrun].
Qed.

Lemma restart_sound (w : Worker) : workerSound w -> workerSound (restart w).
Proof.
  intros (_ & Hstored & _ & _). unfold workerSound, restart; simpl.
  repeat split; try discriminate. exact Hstored.
Qed.

(** Every worker a history leads to is sound. *)
Lemma reachable_sound (w : Worker) : Reachable w -> workerSound w.
Proof.
  induction 1 as [|e w Hreach IH Htime].
  - unfold workerSound, initial; simpl. repeat split; discriminate.
  - destruct e as [now m| now |]; simpl in *.
    + destruct m as [data| | | |]; simpl.
      * now apply startTimer_sound.
      * now apply pauseTimer_sound.
      * apply clearTimer_sound.
      * pose proof (getTimerStatus_sound now w Htime IH) as Hs.
        destruct (getTimerStatus now w). exact Hs.
      * exact IH.
    + now apply tick_sound.
    + now apply restart_sound.
Qed.

(** With no interval and a running snapshot in the store, a status query
    adopts the snapshot, starts the interval and answers the snapshot. *)
Lemma getTimerStatus_rehydrates (now : Z) (w : Worker) (snap : TimerState) :
  timerInterval w = NoHandle ->
  currentTimer w = Some snap ->
  isRunning snap = true ->
  startTime snap <> 0 ->
  getTimerStatus now w
  = ({| timerInterval := Live; timerState := snap; currentTimer := Some snap;
        writes := writes w ++ [StorageSet snap] |}, snap).
Proof.
  intros Hi Hc Hrun Hstart. unfold getTimerStatus. rewrite Hc, Hrun. simpl.
  rewrite Hi. unfold startTimer, persist, asData. simpl.
  destruct (orZ_cases (startTime snap) now) as [[? _]|[_ ->]]; [congruence|].
  rewrite orZ_zero_r.
  destruct snap as [r s e]. simpl in *. subst r. reflexivity.
Qed.

Lemma pauseTimer_frame (now : Z) (w : Worker) :
  isRunning (timerState w) = false ->
  timerState (pauseTimer now w) = timerState w /\
  currentTimer (pauseTimer now w) = currentTimer w /\
  writes (pauseTimer now w) = writes w.
Proof.
  intros Hrun. unfold pauseTimer.
  destruct (timerInterval w); simpl; rewrite Hrun; auto.
Qed.

Lemma pauseTimer_fixed (now : Z) (w : Worker) :
  timerInterval w = NoHandle -> isRunning (timerState w) = false ->
  pauseTimer now w = w.
Proof. intros Hi Hrun. unfold pauseTimer. now rewrite Hi, Hrun. Qed.

End Worker.

(** C1: take any worker a history has led to whose stored snapshot says
    running, and restart it (its globals are lost).  The next status query
    answers that very snapshot: running, with the stored start time and
    elapsed time; it leaves the worker with that state, a live interval and
    the snapshot stored again; and every later tick computes the elapsed
    time from the stored start time. *)
Theorem restarted_worker_resumes_running
    (w0 : Background.Worker) (snap : Background.TimerState) (now : Z) :
  Background.Reachable w0 ->
  Background.currentTimer w0 = Some snap ->
  Background.isRunning snap = true ->
  exists w,
    Background.getTimerStatus now (Background.restart w0) = (w, snap) /\
    Background.timerInterval w = Live /\
    Background.timerState w = snap /\
    Background.currentTimer w = Some snap /\
    forall later,
      Background.timerState (Background.tick later w)
      = {| Background.isRunning := true;
           Background.startTime := Background.startTime snap;
           Background.elapsedTime := later - Background.startTime snap |}.
Proof.
  intros Hreach Hstored Hrun.
  destruct (reachable_sound w0 Hreach) as (_ & Hstart & _ & _).
  eexists. split.
  - apply getTimerStatus_rehydrates; trivial. now apply (Hstart snap).
  - simpl. repeat split. intros later. unfold Background.tick. simpl.
    now rewrite Hrun.
Qed.

Lemma restarted_worker_resumes_running_witness :
  exists w,
    Background.getTimerStatus 1753062725000 (Background.restart tickingWorker)
    = (w, {| Background.isRunning := true;
             Background.startTime := 1753062630000;
             Background.elapsedTime := 91000 |}) /\
    Background.timerInterval w = Live /\
    Background.timerState w
    = {| Background.isRunning := true;
         Background.startTime := 1753062630000;
         Background.elapsedTime := 91000 |} /\
    Background.currentTimer w
    = Some {| Background.isRunning := true;
              Background.startTime := 1753062630000;
              Background.elapsedTime := 91000 |} /\
    forall later,
      Background.timerState (Background.tick later w)
      = {| Background.isRunning := true;
           Background.startTime := 1753062630000;
           Background.elapsedTime := later - 1753062630000 |}.
Proof.
  apply (restarted_worker_resumes_running tickingWorker
           {| Background.isRunning := true;
              Background.startTime := 1753062630000;
              Background.elapsedTime := 91000 |} 1753062725000).
  - unfold tickingWorker.
    apply Background.reach_step; [apply Background.reach_step|]; simpl; try lia.
    apply Background.reach_initial.
  - reflexivity.
  - reflexivity.
Defined.

(** C10: pausing a worker that is not running leaves its timer state and
    the stored snapshot as they were and writes nothing; on every worker a
    history has led to it changes nothing at all; and a second pause after a
    pause, whatever the worker and the two clock readings, is the first
    pause. *)
Theorem pauseTimer_not_running_is_noop :
  (forall now w,
      Background.isRunning (Background.timerState w) = false ->
      Background.timerState (Background.pauseTimer now w) = Background.timerState w /\
      Background.currentTimer (Background.pauseTimer now w) = Background.currentTimer w /\
      Background.writes (Background.pauseTimer now w) = Background.writes w) /\
  (forall now w,
      Background.Reachable w ->
      Background.isRunning (Background.timerState w) = false ->
      Background.pauseTimer now w = w) /\
  (forall now later w,
      Background.pauseTimer later (Background.pauseTimer now w)
      = Background.pauseTimer now w).
Proof.
  split; [|split].
  - intros now w. apply pauseTimer_frame.
  - intros now w Hreach Hrun. apply pauseTimer_fixed; [|exact Hrun].
    destruct (reachable_sound w Hreach) as (_ & _ & Hnc & Hlive).
    destruct (Background.timerInterval w); trivial.
    + destruct (Hlive eq_refl) as [Hr _]. congruence.
    + congruence.
  - intros now later w. apply pauseTimer_fixed.
    + apply pauseTimer_interval.
    + apply pauseTimer_not_running.
Qed.

Lemma pauseTimer_not_running_is_noop_witness :
  Background.pauseTimer 1753062726000 (Background.pauseTimer 1753062725000 tickingWorker)
  = Background.pauseTimer 1753062725000 tickingWorker
  /\ Background.writes (Background.pauseTimer 1753062725000 tickingWorker)
     <> Background.writes tickingWorker
  /\ Background.pauseTimer 1753062725000 Background.initial = Background.initial.
Proof.
  destruct pauseTimer_not_running_is_noop as (_ & Hfixed & Htwice).
  split; [apply Htwice | split].
  - vm_compute. discriminate.
  - apply Hfixed; [apply Background.reach_initial | reflexivity].
Defined.

(** ** The popup's timer *)

(** C3: on a paused popup (not running, elapsed time [e]) [resumeTimer]
    returns the same new state and the same effects, in the same order, as
    the spec's start with seed [e]; so, run in any world, the two leave the
    same world.  In that world the popup runs from [now - e] with a live
    tick, localStorage holds the snapshot (running, [now - e], [e]), and the
    worker runs with a live interval, elapsed time [e] and, unless
    [now - e] is 0, start time [now - e]. *)
Theorem resumeTimer_is_startWithSeed (now : Z) (st : TimerManager.State) :
  TimerManager.isRunning st = false ->
  TimerManager.resumeTimer now st
  = TimerManager.startWithSeed (TimerManager.elapsedTime st) now st
  /\ forall w, Extension.popup w = st ->
       let e := TimerManager.elapsedTime st in
       let w' := Extension.call now w (TimerManager.resumeTimer now) in
       w' = Extension.call now w (TimerManager.startWithSeed e now) /\
       TimerManager.isRunning (Extension.popup w') = true /\
       TimerManager.startTime (Extension.popup w') = Some (now - e) /\
       TimerManager.elapsedTime (Extension.popup w') = e /\
       TimerManager.timerInterval (Extension.popup w') = Live /\
       StorageManager.currentTimer (Extension.storage w')
       = Some {| StorageManager.snapIsRunning := true;
                 StorageManager.snapStartTime := Some (now - e);
                 StorageManager.snapElapsedTime := e |} /\
       Background.timerInterval (Extension.worker w') = Live /\
       Background.isRunning (Background.timerState (Extension.worker w')) = true /\
       Background.elapsedTime (Background.timerState (Extension.worker w')) = e /\
       (now - e <> 0 ->
        Background.startTime (Background.timerState (Extension.worker w')) = now - e).
Proof.
  intros Hpaused.
  assert (Heq : TimerManager.resumeTimer now st
                = TimerManager.startWithSeed (TimerManager.elapsedTime st) now st).
  { unfold TimerManager.resumeTimer, TimerManager.startTimer. now rewrite Hpaused. }
  split; [exact Heq|].
  intros w Hw e w'. subst w'. unfold Extension.call. rewrite Hw, Heq.
  unfold TimerManager.startWithSeed. fold e. simpl.
  repeat split; try reflexivity.
  - apply orZ_zero_r.
  - intros Hne. now apply startTimeOr_given.
Qed.

Lemma resumeTimer_is_startWithSeed_witness :
  TimerManager.elapsedTime (Extension.popup pausedWorld) = 1080000 /\
  TimerManager.resumeTimer 1753064000000 (Extension.popup pausedWorld)
  = TimerManager.startWithSeed 1080000 1753064000000 (Extension.popup pausedWorld) /\
  Background.startTime
    (Background.timerState
       (Extension.worker
          (Extension.call 1753064000000 pausedWorld
             (TimerManager.resumeTimer 1753064000000))))
  = 1753064000000 - 1080000.
Proof.
  destruct (resumeTimer_is_startWithSeed 1753064000000 (Extension.popup pausedWorld)
              eq_refl) as [Heq Hworld].
  split; [reflexivity | split; [exact Heq|]].
  destruct (Hworld pausedWorld eq_refl) as (_ & _ & _ & _ & _ & _ & _ & _ & _ & Hstart).
  apply Hstart. vm_compute. discriminate.
Defined.

(** On a running popup [resumeTimer] does nothing, where the spec's start
    would move the start time. *)
Example resumeTimer_when_running :
  let st := fst (TimerManager.startTimer 1753062720000 (TimerManager.create "2025-07-21")) in
  TimerManager.resumeTimer 1753064000000 st = (st, [])
  /\ fst (TimerManager.startWithSeed 0 1753064000000 st) <> st.
Proof. split; [reflexivity | discriminate]. Qed.

(** C4, as stated, fails: on a popup whose timer was never started
    [endTimer] tells the user nothing, neither by [showMessage] nor by
    [alert]; it hands back the popup as it was and has no effect at all. *)
Lemma endTimer_unstarted_reports_nothing :
  TimerManager.endTimer 480 1753062720000 "工作" (TimerManager.create "2025-07-21")
  = (TimerManager.create "2025-07-21", [])
  /\ ~ exists e,
         In e (TimerManager.reported
                 (snd (TimerManager.endTimer 480 1753062720000 "工作"
                         (TimerManager.create "2025-07-21")))).
Proof. split; [reflexivity | intros [e []]]. Qed.

(** C4, amended: with no start time (null, or 0) [endTimer] is a silent
    no-op: the popup is unchanged and there is no effect, so no record is
    committed, nothing is sent to the worker, nothing is written and
    nothing is shown; the world it runs in stays as it is. *)
Theorem endTimer_unstarted_is_silent_noop
    (zone now : Z) (workType : string) (st : TimerManager.State) :
  TimerManager.noStartTime (TimerManager.startTime st) = true ->
  TimerManager.endTimer zone now workType st = (st, [])
  /\ TimerManager.committed (snd (TimerManager.endTimer zone now workType st)) = []
  /\ TimerManager.reported (snd (TimerManager.endTimer zone now workType st)) = []
  /\ forall w, Extension.popup w = st ->
       Extension.call now w (TimerManager.endTimer zone now workType) = w.
Proof.
  intros Hnone.
  assert (Heq : TimerManager.endTimer zone now workType st = (st, []))
    by (unfold TimerManager.endTimer; now rewrite Hnone).
  rewrite Heq. repeat split.
  intros w Hw. unfold Extension.call. rewrite Hw, Heq. simpl.
  rewrite <- Hw. now destruct w.
Qed.

Lemma endTimer_unstarted_is_silent_noop_witness :
  TimerManager.endTimer 480 1753062720000 "工作" (TimerManager.create "2025-07-21")
  = (TimerManager.create "2025-07-21", [])
  /\ Extension.call 1753062720000 (Extension.installed "2025-07-21")
       (TimerManager.endTimer 480 1753062720000 "工作")
     = Extension.installed "2025-07-21".
Proof.
  destruct (endTimer_unstarted_is_silent_noop 480 1753062720000 "工作"
              (TimerManager.create "2025-07-21") eq_refl) as (Heq & _ & _ & Hworld).
  split; [exact Heq | now apply Hworld].
Defined.

(** ** Runs of the whole extension *)

Section Runs.

Variable zone : Z.

Lemma inPast_later (t t' : Z) (s : Background.TimerState) :
  inPast t s -> t <= t' -> inPast t' s.
Proof. unfold inPast. intros [? ?] ?. split; lia. Qed.

Lemma workerPast_later (t t' : Z) (w : Background.Worker) :
  workerPast t w -> t <= t' -> workerPast t' w.
Proof.
  intros [Hstate Hstored] Hle. split.
  - now apply inPast_later with t.
  - intros s Hs. apply inPast_later with t; auto.
Qed.

Lemma startTimer_past (now : Z) (data : Background.StartData) (w : Background.Worker) :
  TimerManager.toNumber (Background.dataStartTime data) <= now ->
  0 <= now ->
  0 <= Background.dataElapsedTime data ->
  workerPast now (Background.startTimer now data w).
Proof.
  intros Hstart Hnow Helapsed.
  assert (Hs : inPast now
                 {| Background.isRunning := true;
                    Background.startTime :=
                      Background.startTimeOr (Background.dataStartTime data) now;
                    Background.elapsedTime := orZ (Background.dataElapsedTime data) 0 |}).
  { unfold inPast; simpl. rewrite orZ_zero_r. split; [|exact Helapsed].
    destruct (Background.dataStartTime data) as [s|]; simpl in *; [|lia].
    destruct (orZ_cases s now) as [[_ ->]|[_ ->]]; lia. }
  unfold workerPast, Background.startTimer, Background.persist; simpl.
  split; [exact Hs|]. intros s Heq. injection Heq as <-. exact Hs.
Qed.

Lemma pauseTimer_past (t now : Z) (w : Background.Worker) :
  workerPast t w -> t <= now -> workerPast now (Background.pauseTimer now w).
Proof.
  intros Hw Hle. pose proof (workerPast_later t now w Hw Hle) as [Hstate Hstored].
  assert (Hp : inPast now
                 {| Background.isRunning := false;
                    Background.startTime := Background.startTime (Background.timerState w);
                    Background.elapsedTime :=
                      now - Background.startTime (Background.timerState w) |}).
  { destruct Hstate as [Hs He]. unfold inPast; simpl. split; lia. }
  unfold Background.pauseTimer.
  destruct (Background.timerInterval w); simpl;
    destruct (Background.isRunning (Background.timerState w)); simpl;
    unfold workerPast, Background.persist; simpl; split; trivial;
    intros s Heq; injection Heq as <-; exact Hp.
Qed.

Lemma clearTimer_past (now : Z) (w : Background.Worker) :
  0 <= now -> workerPast now (Background.clearTimer now w).
Proof.
  intros Hnow. unfold workerPast, Background.clearTimer, inPast; simpl.
  split; [lia | discriminate].
Qed.

Lemma tick_past (t now : Z) (w : Background.Worker) :
  workerPast t w -> t <= now -> workerPast now (Background.tick now w).
Proof.
  intros Hw Hle. pose proof (workerPast_later t now w Hw Hle) as [Hstate Hstored].
  unfold Background.tick.
  destruct (Background.timerInterval w); try (split; assumption).
  assert (Hp : inPast now
                 {| Background.isRunning := Background.isRunning (Background.timerState w);
                    Background.startTime := Background.startTime (Background.timerState w);
                    Background.elapsedTime :=
                      now - Background.startTime (Background.timerState w) |}).
  { destruct Hstate as [Hs He]. unfold inPast; simpl. split; lia. }
  unfold workerPast, Background.persist; simpl. split; [exact Hp|].
  intros s Heq. injection Heq as <-. exact Hp.
Qed.

Lemma getTimerStatus_answer (now : Z) (w : Background.Worker) :
  snd (Background.getTimerStatus now w)
  = Background.timerState (fst (Background.getTimerStatus now w)).
Proof.
  unfold Background.getTimerStatus.
  now destruct (Background.currentTimer w).
Qed.

Lemma getTimerStatus_past (t now : Z) (w : Background.Worker) :
  workerPast t w -> t <= now -> 0 <= now ->
  workerPast now (fst (Background.getTimerStatus now w)).
Proof.
  intros Hw Hle Hnow.
  pose proof (workerPast_later t now w Hw Hle) as [Hstate Hstored].
  unfold Background.getTimerStatus.
  destruct (Background.currentTimer w) as [stored|] eqn:Hc;
    cbn [fst].
  - destruct (Hstored stored eq_refl) as [Hs He].
    assert (Hkeep : workerPast now
                      {| Background.timerInterval := Background.timerInterval w;
                         Background.timerState := stored;
                         Background.currentTimer := Some stored;
                         Background.writes := Background.writes w |}).
    { split; simpl; [split; assumption|].
      intros s Heq. injection Heq as <-. split; assumption. }
    destruct (Background.isRunning stored); [|exact Hkeep].
    cbn [Background.timerInterval].
    destruct (Background.timerInterval w); try exact Hkeep.
    apply startTimer_past; simpl; assumption.
  - split; trivial. intros s Heq. rewrite Hc in Heq. discriminate.
Qed.

Lemma restart_past (t : Z) (w : Background.Worker) :
  0 <= t -> workerPast t w -> workerPast t (Background.restart w).
Proof.
  intros Ht [_ Hstored]. unfold workerPast, Background.restart, inPast; simpl.
  split; [lia | exact Hstored].
Qed.

Lemma getRecords_init (ls : StorageManager.LocalStorage) :
  StorageManager.getRecords (StorageManager.init ls) = StorageManager.getRecords ls
  /\ StorageManager.currentTimer (StorageManager.init ls)
     = StorageManager.currentTimer ls.
Proof.
  unfold StorageManager.init, StorageManager.getRecords.
  destruct (StorageManager.settings ls); simpl;
    destruct (StorageManager.records ls) eqn:Hr; simpl; rewrite ?Hr; split; reflexivity.
Qed.

Lemma popupPast_later (t t' : Z) (st : TimerManager.State) :
  popupPast t st -> t <= t' -> popupPast t' st.
Proof. unfold popupPast. intros [? ?] ?. split; lia. Qed.

Lemma snapshotPast_later (t t' : Z) (ls : StorageManager.LocalStorage) :
  snapshotPast t ls -> t <= t' -> snapshotPast t' ls.
Proof.
  unfold snapshotPast. intros H Hle s Hs. destruct (H s Hs). split; lia.
Qed.

Lemma worldSound_intro (t : Z) (p : TimerManager.State) (wk : Background.Worker)
    (ls : StorageManager.LocalStorage) :
  0 <= t -> popupPast t p -> workerPast t wk -> snapshotPast t ls ->
  Forall nonNegativeDuration (StorageManager.getRecords ls) ->
  worldSound t {| Extension.popup := p; Extension.worker := wk;
                  Extension.storage := ls |}.
Proof. unfold worldSound; simpl. tauto. Qed.

Lemma worldSound_later (t t' : Z) (w : Extension.World) :
  worldSound t w -> t <= t' -> worldSound t' w.
Proof.
  intros (Ht & Hp & Hw & Hs & Hr) Hle. destruct w as [p wk ls].
  apply worldSound_intro; try lia; trivial.
  - now apply popupPast_later with t.
  - now apply workerPast_later with t.
  - now apply snapshotPast_later with t.
Qed.

Lemma installed_sound (today : string) : worldSound 0 (Extension.installed today).
Proof.
  apply worldSound_intro; try lia.
  - unfold popupPast; simpl. lia.
  - unfold workerPast, inPast; simpl. split; [lia | discriminate].
  - unfold snapshotPast; simpl. discriminate.
  - constructor.
Qed.

Lemma onMessage_status (now : Z) (wk : Background.Worker) :
  fst (Background.onMessage now Background.GET_TIMER_STATUS wk)
  = fst (Background.getTimerStatus now wk).
Proof. simpl. now destruct (Background.getTimerStatus now wk). Qed.

Lemma updateTimerDisplay_past (now : Z) (wk : Background.Worker)
    (st : TimerManager.State) :
  workerPast now wk -> 0 <= now -> popupPast now st ->
  popupPast now
    (TimerManager.updateTimerDisplay now
       (Some (snd (Background.getTimerStatus now wk))) st).
Proof.
  intros Hwk Hnow [Hstart Helapsed].
  pose proof (getTimerStatus_past now now wk Hwk (Z.le_refl _) Hnow) as [[Hs _] _].
  rewrite <- getTimerStatus_answer in Hs.
  unfold TimerManager.updateTimerDisplay.
  destruct (Background.isRunning _); [|split; assumption].
  split; simpl; [exact Hstart | lia].
Qed.

Lemma open_sound (t now : Z) (today : string) (w : Extension.World) :
  worldSound t w -> t <= now ->
  worldSound now (Extension.step zone w (now, Extension.Open today)).
Proof.
  intros Hsound Hle.
  destruct (worldSound_later t now w Hsound Hle) as (Hnow & Hp & Hw & Hs & Hr).
  destruct Hsound as (Ht & _ & Hw0 & _).
  pose proof (getTimerStatus_past t now (Extension.worker w) Hw0 Hle Hnow) as Hwk.
  pose proof (getTimerStatus_answer now (Extension.worker w)) as Hanswer.
  destruct (getRecords_init (Extension.storage w)) as [Hrecords Htimer].
  assert (Hs' : snapshotPast now (StorageManager.init (Extension.storage w))).
  { intros s0 Hs0. rewrite Htimer in Hs0. now apply Hs. }
  rewrite <- Hrecords in Hr.
  unfold Extension.step.
  destruct (Background.getTimerStatus now (Extension.worker w)) as [wk s].
  simpl in Hwk, Hanswer. subst s.
  pose proof (getTimerStatus_past now now wk Hwk (Z.le_refl _) Hnow) as Hwk2.
  pose proof (onMessage_status now wk) as Hquery.
  unfold Extension.call, TimerManager.loadTimerState, StorageManager.getCurrentTimer.
  rewrite Htimer.
  destruct (Background.isRunning (Background.timerState wk)).
  - cbn [fold_left Extension.perform Extension.popup Extension.worker Extension.storage].
    rewrite Hquery. apply worldSound_intro; trivial.
    apply updateTimerDisplay_past; trivial. exact (proj1 Hwk).
  - destruct (StorageManager.currentTimer (Extension.storage w)) as [snap|] eqn:Hsnap.
    + destruct (Hs snap Hsnap) as [Hstart Helapsed].
      destruct (StorageManager.snapIsRunning snap).
      * cbn [fold_left Extension.perform Extension.popup Extension.worker
             Extension.storage].
        rewrite Hquery. cbn [Background.onMessage fst].
        apply worldSound_intro; trivial.
        -- apply updateTimerDisplay_past; trivial. split; assumption.
        -- apply startTimer_past; simpl; assumption.
      * simpl. apply worldSound_intro; trivial. unfold popupPast; simpl. lia.
    + simpl. apply worldSound_intro; trivial. unfold popupPast; simpl. lia.
Qed.

Lemma start_sound (t now : Z) (w : Extension.World) :
  worldSound t w -> t <= now ->
  worldSound now (Extension.call now w (TimerManager.startTimer now)).
Proof.
  intros Hsound Hle.
  destruct (worldSound_later t now w Hsound Hle) as (Hnow & Hp & Hw & Hs & Hr).
  destruct Hp as [Hstart Helapsed].
  unfold Extension.call, TimerManager.startTimer.
  destruct (TimerManager.isRunning (Extension.popup w)); simpl.
  - apply worldSound_intro; trivial. split; assumption.
  - apply worldSound_intro; trivial.
    + unfold popupPast; simpl. lia.
    + apply startTimer_past; simpl; lia.
    + intros s Heq. simpl in Heq. injection Heq as <-. simpl. lia.
Qed.

Lemma pause_sound (t now : Z) (w : Extension.World) :
  worldSound t w -> t <= now ->
  worldSound now (Extension.call now w (TimerManager.pauseTimer now)).
Proof.
  intros Hsound Hle.
  destruct (worldSound_later t now w Hsound Hle) as (Hnow & Hp & Hw & Hs & Hr).
  destruct Hsound as (_ & _ & Hw0 & _).
  destruct Hp as [Hstart Helapsed].
  unfold Extension.call, TimerManager.pauseTimer.
  destruct (TimerManager.isRunning (Extension.popup w)); simpl.
  - apply worldSound_intro; trivial.
    + unfold popupPast; simpl. lia.
    + now apply pauseTimer_past with t.
    + intros s Heq. simpl in Heq. injection Heq as <-. simpl. lia.
  - apply worldSound_intro; trivial. split; assumption.
Qed.

Lemma end_sound (t now : Z) (workType : string) (w : Extension.World) :
  worldSound t w -> t <= now ->
  worldSound now (Extension.call now w (TimerManager.endTimer zone now workType)).
Proof.
  intros Hsound Hle.
  destruct (worldSound_later t now w Hsound Hle) as (Hnow & Hp & Hw & Hs & Hr).
  destruct Hp as [Hstart Helapsed].
  unfold Extension.call, TimerManager.endTimer.
  destruct (TimerManager.noStartTime (TimerManager.startTime (Extension.popup w)));
    simpl.
  - apply worldSound_intro; trivial. split; assumption.
  - apply worldSound_intro; trivial.
    + unfold popupPast; simpl. lia.
    + now apply clearTimer_past.
    + intros s Heq. discriminate Heq.
    + unfold StorageManager.getRecords; simpl.
      apply Forall_app. split; [exact Hr|].
      constructor; [|constructor].
      eexists. split; [reflexivity|].
      apply roundMinutes_nonneg.
      destruct (orZ_cases (TimerManager.elapsedTime (Extension.popup w))
                  (now - TimerManager.toNumber
                           (TimerManager.startTime (Extension.popup w))))
        as [[_ ->]|[_ ->]]; lia.
Qed.

Lemma refresh_sound (t now : Z) (w : Extension.World) :
  worldSound t w -> t <= now ->
  worldSound now (Extension.step zone w (now, Extension.Refresh)).
Proof.
  intros Hsound Hle.
  pose proof (worldSound_later t now w Hsound Hle) as Hlater.
  destruct Hlater as (Hnow & Hp & Hw & Hs & Hr).
  destruct Hsound as (_ & _ & Hw0 & _).
  pose proof (getTimerStatus_past t now (Extension.worker w) Hw0 Hle Hnow) as Hwk.
  pose proof (getTimerStatus_answer now (Extension.worker w)) as Hanswer.
  unfold Extension.step.
  destruct (TimerManager.asksStatus (Extension.popup w)).
  - destruct (Background.getTimerStatus now (Extension.worker w)) as [wk s].
    simpl in Hwk, Hanswer. subst s.
    apply worldSound_intro; trivial.
    unfold TimerManager.updateTimerDisplay.
    destruct (Background.isRunning (Background.timerState wk)); [|exact Hp].
    destruct Hp as [Hstart _]. destruct Hwk as [[Hs0 _] _].
    unfold popupPast; simpl. lia.
  - destruct w as [p wk ls]. now apply worldSound_intro.
Qed.

(** Every event of a run keeps the world sound. *)
Lemma step_sound (t now : Z) (e : Extension.Event) (w : Extension.World) :
  worldSound t w -> t <= now -> worldSound now (Extension.step zone w (now, e)).
Proof.
  intros Hsound Hle. destruct e as [today| | | |workType| | |].
  - now apply open_sound with t.
  - now apply start_sound with t.
  - now apply pause_sound with t.
  - now apply start_sound with t.
  - now apply end_sound with t.
  - now apply refresh_sound with t.
  - destruct (worldSound_later t now w Hsound Hle) as (Hnow & Hp & _ & Hs & Hr).
    destruct Hsound as (_ & _ & Hw0 & _). simpl.
    apply worldSound_intro; trivial. now apply tick_past with t.
  - destruct (worldSound_later t now w Hsound Hle) as (Hnow & Hp & Hw & Hs & Hr).
    simpl. apply worldSound_intro; trivial. now apply restart_past.
Qed.

Lemma run_sound (history : list (Z * Extension.Event)) (t : Z) (w : Extension.World) :
  worldSound t w -> Extension.chronological t history ->
  exists t', worldSound t' (Extension.run zone history w).
Proof.
  revert t w. induction history as [|[now e] later IH]; intros t w Hsound Hchron.
  - now exists t.
  - destruct Hchron as [Hle Hlater]. simpl.
    apply (IH now); [|exact Hlater]. now apply step_sound with t.
Qed.

End Runs.

(** ** What [endTimer] commits *)

Section Commit.

Variable zone : Z.

Lemma run_app (h1 h2 : list (Z * Extension.Event)) (w : Extension.World) :
  Extension.run zone (h1 ++ h2) w = Extension.run zone h2 (Extension.run zone h1 w).
Proof. unfold Extension.run. apply fold_left_app. Qed.

Lemma displayed_refreshFree (start elapsed : Z) (history : list (Z * Extension.Event)) :
  refreshFree history -> displayed start elapsed history = elapsed.
Proof.
  induction 1 as [|[now e] later Hne _ IH]; simpl; [reflexivity|].
  destruct e; try exact IH. now contradiction Hne.
Qed.

Lemma tick_runningSince (start now : Z) (wk : Background.Worker) :
  runningSince start wk -> runningSince start (Background.tick now wk).
Proof.
  intros Hsince. pose proof Hsince as [Hstored Hstate]. unfold Background.tick.
  destruct (Background.timerInterval wk) eqn:Hi; try exact Hsince.
  destruct Hstate as [Hrun Hstart]; [discriminate|].
  unfold runningSince, Background.persist; simpl. rewrite ?Hi. split.
  - eexists. split; [reflexivity|]. simpl. now split.
  - intros _. now split.
Qed.

Lemma restart_runningSince (start : Z) (wk : Background.Worker) :
  runningSince start wk -> runningSince start (Background.restart wk).
Proof.
  intros [Hstored _]. split; [exact Hstored|]. simpl. congruence.
Qed.

Lemma getTimerStatus_runningSince (start now : Z) (wk : Background.Worker) :
  start <> 0 -> runningSince start wk ->
  runningSince start (fst (Background.getTimerStatus now wk)) /\
  Background.isRunning (snd (Background.getTimerStatus now wk)) = true /\
  Background.startTime (snd (Background.getTimerStatus now wk)) = start.
Proof.
  intros Hstart [(s & Hs & Hrun & Hsince) Hstate].
  unfold Background.getTimerStatus. rewrite Hs, Hrun. simpl.
  destruct (Background.timerInterval wk) eqn:Hi; simpl.
  - unfold Background.startTimer, Background.persist, Background.asData; simpl.
    rewrite Hsince. destruct (orZ_cases start now) as [[? _]|[_ ->]]; [congruence|].
    split; [|split; reflexivity]. unfold runningSince; simpl. split.
    + eexists. split; [reflexivity|]. simpl. now split.
    + intros _. now split.
  - split; [|now split]. unfold runningSince; simpl. split.
    + exists s. now repeat split.
    + intros _. now split.
  - split; [|now split]. unfold runningSince; simpl. split.
    + exists s. now repeat split.
    + intros _. now split.
Qed.

Lemma step_displayOnly (start now elapsed : Z) (today : string)
    (e : Extension.Event) (w : Extension.World) :
  start <> 0 ->
  e = Extension.Refresh \/ e = Extension.WorkerTick \/ e = Extension.WorkerRestart ->
  Extension.popup w
  = {| TimerManager.timerInterval := Live; TimerManager.isRunning := true;
       TimerManager.startTime := Some start; TimerManager.elapsedTime := elapsed;
       TimerManager.currentDate := today |} ->
  runningSince start (Extension.worker w) ->
  Extension.popup (Extension.step zone w (now, e))
  = {| TimerManager.timerInterval := Live; TimerManager.isRunning := true;
       TimerManager.startTime := Some start;
       TimerManager.elapsedTime := displayed start elapsed [(now, e)];
       TimerManager.currentDate := today |}
  /\ Extension.storage (Extension.step zone w (now, e)) = Extension.storage w
  /\ runningSince start (Extension.worker (Extension.step zone w (now, e))).
Proof.
  intros Hstart [-> | [-> | ->]] Hp Hw.
  - destruct (getTimerStatus_runningSince start now (Extension.worker w) Hstart Hw)
      as (Hwk & Hrun & Hsince).
    unfold Extension.step, TimerManager.asksStatus. rewrite Hp.
    cbn [TimerManager.isRunning].
    destruct (Background.getTimerStatus now (Extension.worker w)) as [wk s].
    simpl in Hwk, Hrun, Hsince. simpl. rewrite Hrun, Hsince.
    split; [reflexivity | split; [reflexivity | exact Hwk]].
  - simpl. split; [exact Hp | split; [reflexivity|]]. now apply tick_runningSince.
  - simpl. split; [exact Hp | split; [reflexivity|]]. now apply restart_runningSince.
Qed.

(** Between start and stop, refreshes and worker events change nothing of
    the popup but the elapsed time it shows. *)
Lemma run_displayOnly (start : Z) (today : string)
    (history : list (Z * Extension.Event)) :
  start <> 0 -> displayOnly history ->
  forall (elapsed : Z) (w : Extension.World),
    Extension.popup w
    = {| TimerManager.timerInterval := Live; TimerManager.isRunning := true;
         TimerManager.startTime := Some start; TimerManager.elapsedTime := elapsed;
         TimerManager.currentDate := today |} ->
    runningSince start (Extension.worker w) ->
    Extension.popup (Extension.run zone history w)
    = {| TimerManager.timerInterval := Live; TimerManager.isRunning := true;
         TimerManager.startTime := Some start;
         TimerManager.elapsedTime := displayed start elapsed history;
         TimerManager.currentDate := today |}
    /\ Extension.storage (Extension.run zone history w) = Extension.storage w.
Proof.
  intros Hstart. induction 1 as [|[now e] later He _ IH]; intros elapsed w Hp Hw.
  - split; [exact Hp | reflexivity].
  - simpl in He.
    destruct (step_displayOnly start now elapsed today e w Hstart He Hp Hw)
      as (Hp1 & Hs1 & Hw1).
    change (Extension.run zone ((now, e) :: later) w)
      with (Extension.run zone later (Extension.step zone w (now, e))).
    destruct (IH _ _ Hp1 Hw1) as [Hp2 Hs2]. rewrite Hp2, Hs2, Hs1. split; [|reflexivity].
    destruct He as [-> | [-> | ->]]; reflexivity.
Qed.

(** A run from installation: start, then refreshes and worker events, then
    stop. *)
Lemma timed_run_commits (today workType : string) (T0 T1 : Z)
    (between : list (Z * Extension.Event)) :
  T0 <> 0 -> displayOnly between ->
  map StorageManager.duration
    (StorageManager.getRecords
       (Extension.storage
          (Extension.run zone
             ((T0, Extension.Start) :: between ++ [(T1, Extension.End workType)])
             (Extension.installed today))))
  = [JsNumber (Int (roundMinutes (orZ (displayed T0 0 between) (T1 - T0))))].
Proof.
  intros Hstart Hbetween.
  change ((T0, Extension.Start) :: between ++ [(T1, Extension.End workType)])
    with ([(T0, Extension.Start)] ++ between ++ [(T1, Extension.End workType)])%list.
  rewrite !run_app.
  set (w0 := Extension.run zone [(T0, Extension.Start)] (Extension.installed today)).
  assert (Hp : Extension.popup w0
               = {| TimerManager.timerInterval := Live; TimerManager.isRunning := true;
                    TimerManager.startTime := Some T0; TimerManager.elapsedTime := 0;
                    TimerManager.currentDate := today |}).
  { subst w0. simpl. now rewrite Z.sub_0_r. }
  assert (Hw : runningSince T0 (Extension.worker w0)).
  { subst w0. simpl. rewrite Z.sub_0_r.
    destruct (orZ_cases T0 T0) as [[? _]|[_ Heq]]; [congruence|].
    unfold runningSince; simpl. rewrite Heq. split.
    - eexists. split; [reflexivity|]. simpl. now split.
    - intros _. now split. }
  assert (Hls : StorageManager.getRecords (Extension.storage w0) = []).
  { subst w0. reflexivity. }
  destruct (run_displayOnly T0 today between Hstart Hbetween 0 w0 Hp Hw) as [Hp1 Hs1].
  set (w1 := Extension.run zone between w0) in *.
  simpl. unfold Extension.call, TimerManager.endTimer. rewrite Hp1. simpl.
  destruct (Z.eqb_spec T0 0) as [?|_]; [congruence|]. simpl.
  unfold StorageManager.getRecords at 1; simpl.
  rewrite Hs1, Hls. reflexivity.
Qed.

End Commit.

(** C2, as stated, fails: in a run without pause that starts at T0, is
    refreshed 29.5 s later and stopped at T1 = T0 + 30.2 s, the committed
    duration is 0 minutes, while round((T1 - T0) / 60000) is 1. *)
Lemma stale_elapsedTime_counterexample :
  Extension.chronological 1753062720000 staleHistory /\
  Extension.pauseFree staleHistory /\
  map StorageManager.duration
    (StorageManager.getRecords
       (Extension.storage
          (Extension.run 480 staleHistory (Extension.installed "2025-07-21"))))
  = [JsNumber (Int 0)] /\
  roundMinutes (1753062750200 - 1753062720000) = 1 /\
  map StorageManager.duration
    (StorageManager.getRecords
       (Extension.storage
          (Extension.run 480 staleHistory (Extension.installed "2025-07-21"))))
  <> [JsNumber (Int (roundMinutes (1753062750200 - 1753062720000)))].
Proof.
  split; [|split; [|split; [|split]]].
  - simpl. lia.
  - unfold Extension.pauseFree, staleHistory. repeat constructor; discriminate.
  - reflexivity.
  - reflexivity.
  - vm_compute. discriminate.
Qed.

(** C2, amended: [endTimer] commits one record whose duration is
    round(d / 60000), where d is the popup's elapsed time when that is not
    zero and [now - startTime] otherwise.  So in a run from installation
    that starts at T0, goes on with display refreshes and worker events
    only, and stops at T1, the one committed duration is round of the
    elapsed time the last refresh displayed, or of T1 - T0 if that is zero;
    without any refresh it is round((T1 - T0) / 60000).  In every run whose
    clock readings start at 0 or later and never go back, no committed
    duration is negative. *)
Theorem endTimer_commits_rounded_elapsed (zone : Z) :
  (forall now workType st,
      TimerManager.noStartTime (TimerManager.startTime st) = false ->
      exists r,
        TimerManager.committed (snd (TimerManager.endTimer zone now workType st)) = [r] /\
        StorageManager.duration r
        = JsNumber
            (Int (roundMinutes
                    (orZ (TimerManager.elapsedTime st)
                       (now - TimerManager.toNumber (TimerManager.startTime st)))))) /\
  (forall today workType T0 T1 between,
      T0 <> 0 -> displayOnly between ->
      map StorageManager.duration
        (StorageManager.getRecords
           (Extension.storage
              (Extension.run zone
                 ((T0, Extension.Start) :: between ++ [(T1, Extension.End workType)])
                 (Extension.installed today))))
      = [JsNumber (Int (roundMinutes (orZ (displayed T0 0 between) (T1 - T0))))]) /\
  (forall today workType T0 T1 between,
      T0 <> 0 -> displayOnly between -> refreshFree between ->
      map StorageManager.duration
        (StorageManager.getRecords
           (Extension.storage
              (Extension.run zone
                 ((T0, Extension.Start) :: between ++ [(T1, Extension.End workType)])
                 (Extension.installed today))))
      = [JsNumber (Int (roundMinutes (T1 - T0)))]) /\
  (forall today history,
      Extension.chronological 0 history ->
      Forall nonNegativeDuration
        (StorageManager.getRecords
           (Extension.storage (Extension.run zone history (Extension.installed today))))).
Proof.
  split; [|split; [|split]].
  - intros now workType st Hstarted. unfold TimerManager.endTimer.
    rewrite Hstarted. simpl. eexists. split; reflexivity.
  - intros today workType T0 T1 between. apply timed_run_commits.
  - intros today workType T0 T1 between Hstart Hdisplay Hfree.
    rewrite timed_run_commits by assumption.
    now rewrite (displayed_refreshFree T0 0 between Hfree).
  - intros today history Hchron.
    destruct (run_sound zone history 0 (Extension.installed today)
                (installed_sound today) Hchron) as (t' & _ & _ & _ & _ & Hrecords).
    exact Hrecords.
Qed.

Lemma endTimer_commits_rounded_elapsed_witness :
  map StorageManager.duration
    (StorageManager.getRecords
       (Extension.storage
          (Extension.run 480
             ((1753062720000, Extension.Start)
              :: [(1753062721000, Extension.WorkerTick)]
              ++ [(1753069980000, Extension.End "工作")])
             (Extension.installed "2025-07-21"))))
  = [JsNumber (Int (roundMinutes (1753069980000 - 1753062720000)))]
  /\ roundMinutes (1753069980000 - 1753062720000) = 121
  /\ Forall nonNegativeDuration
       (StorageManager.getRecords
          (Extension.storage
             (Extension.run 480 scenarioHistory (Extension.installed "2025-07-21")))).
Proof.
  destruct (endTimer_commits_rounded_elapsed 480) as (_ & _ & Hplain & Hsign).
  split; [|split].
  - apply Hplain.
    + discriminate.
    + constructor; [right; left; reflexivity | constructor].
    + constructor; [discriminate | constructor].
  - reflexivity.
  - apply Hsign. simpl. lia.
Defined.

(** The readings must not go back: when the wall clock is set back two
    minutes between start and stop, the committed duration is negative. *)
Example clock_set_back_negative_duration :
  map StorageManager.duration
    (StorageManager.getRecords
       (Extension.storage
          (Extension.run 480
             [(1753062720000, Extension.Start);
              (1753062600000, Extension.End "工作")]
             (Extension.installed "2025-07-21"))))
  = [JsNumber (Int (-2))].
Proof. reflexivity. Qed.

(** The spec's scenario: start at 09:52, pause at 10:10, resume at once,
    stop at 11:53 with the display refreshed a second before. *)
Example scenario_record :
  map (fun r => (StorageManager.startTime r, StorageManager.endTime r,
                 StorageManager.duration r, StorageManager.id r))
    (StorageManager.getRecords
       (Extension.storage
          (Extension.run 480 scenarioHistory (Extension.installed "2025-07-21"))))
  = [("09:52", "11:53", JsNumber (Int 121), 1753069980000)].
Proof. reflexivity. Qed.

(** ** The category list of the options page *)

Section Categories.

Import SettingsManager.

Lemma splice1_length (index : Z) (l : list string) :
  (List.length l - 1 <= List.length (splice1 index l))%nat.
Proof.
  unfold splice1. rewrite length_app, length_firstn, length_skipn. lia.
Qed.

Lemma splice1_nonempty (index : Z) (l : list string) :
  (List.length l <=? 1)%nat = false -> splice1 index l <> [].
Proof.
  intros Hlen Hnil. apply Nat.leb_gt in Hlen.
  pose proof (splice1_length index l) as H. rewrite Hnil in H. simpl in H. lia.
Qed.

Lemma saveSettings_sound (st : State) (ls : StorageManager.LocalStorage) :
  hasWorkType (currentSettings st) ->
  pageSound {| manager := fst (fst (saveSettings st ls));
               storage := snd (fst (saveSettings st ls)) |}.
Proof.
  intros Hwt. unfold pageSound; simpl. split; [exact Hwt|].
  eexists. split; [reflexivity | exact Hwt].
Qed.

Lemma load_sound (ls : StorageManager.LocalStorage) :
  (forall s, StorageManager.settings ls = Some s -> hasWorkType s) ->
  pageSound (load ls).
Proof.
  intros Hstored.
  assert (Hdefault : hasWorkType StorageManager.defaultSettings).
  { eexists. split; [reflexivity | discriminate]. }
  unfold pageSound, load, loadSettings, StorageManager.getSettings,
    StorageManager.init.
  destruct (StorageManager.settings ls) as [s|] eqn:Hs; simpl;
    destruct (StorageManager.records ls); simpl; rewrite ?Hs; simpl;
    (split; [|eexists; split; [reflexivity|]]); auto.
Qed.

Lemma step_pageSound (p : Page) (e : Event) : pageSound p -> pageSound (step p e).
Proof.
  intros Hp. pose proof Hp as [Hcurrent (s & Hs & Hstored)].
  destruct p as [st ls]. simpl in Hcurrent, Hs.
  destruct e as [typeName|index|f|]; simpl.
  - unfold addWorkType. destruct (typeName =? "")%string; [exact Hp|].
    destruct (includes typeName (workTypesOf st)); [exact Hp|].
    apply saveSettings_sound. simpl.
    eexists. split; [reflexivity|]. now destruct (workTypesOf st).
  - unfold deleteWorkType.
    destruct (List.length (workTypesOf st) <=? 1)%nat eqn:Hlen; [exact Hp|].
    apply saveSettings_sound. simpl.
    eexists. split; [reflexivity|]. now apply splice1_nonempty.
  - apply (saveSettings_sound {| currentSettings := currentSettings st; toggles := f |}).
    exact Hcurrent.
  - apply load_sound. intros s' Hs'. simpl in Hs'. congruence.
Qed.

Lemma reachable_pageSound (p : Page) : Reachable p -> pageSound p.
Proof.
  induction 1 as [|p e _ IH].
  - apply load_sound. discriminate.
  - now apply step_pageSound.
Qed.

End Categories.

(** C8: deleting when exactly one category is left shows the error
    "至少保留一种选择类型" and changes neither the page's settings nor the
    store; adding a category never shortens the list; and on every page
    reachable from a first load, through adding, deleting, toggling and
    reloading, the category list is present and non-empty, in the page and
    in the store. *)
Theorem workTypes_never_empty :
  (forall index st ls l,
      StorageManager.workTypes (SettingsManager.currentSettings st) = Some l ->
      List.length l = 1%nat ->
      SettingsManager.deleteWorkType index st ls
      = (st, ls, [SettingsManager.ShowStatusMessage "至少保留一种选择类型" "error"])) /\
  (forall typeName st ls,
      (List.length (SettingsManager.workTypesOf st)
       <= List.length
            (SettingsManager.workTypesOf
               (fst (fst (SettingsManager.addWorkType typeName st ls)))))%nat) /\
  (forall p, SettingsManager.Reachable p -> pageSound p).
Proof.
  split; [|split].
  - intros index st ls l Hl Hone. unfold SettingsManager.deleteWorkType,
      SettingsManager.workTypesOf. rewrite Hl. simpl. now rewrite Hone.
  - intros typeName st ls. unfold SettingsManager.addWorkType.
    destruct (typeName =? "")%string; [simpl; lia|].
    destruct (SettingsManager.includes typeName (SettingsManager.workTypesOf st));
      [simpl; lia|].
    unfold SettingsManager.workTypesOf; simpl. rewrite length_app. lia.
  - apply reachable_pageSound.
Qed.

Lemma workTypes_never_empty_witness :
  StorageManager.workTypes
    (SettingsManager.currentSettings (SettingsManager.manager lastCategoryPage))
  = Some ["工作"]
  /\ SettingsManager.step lastCategoryPage (SettingsManager.DeleteWorkType 0)
     = lastCategoryPage
  /\ pageSound lastCategoryPage.
Proof.
  destruct workTypes_never_empty as (Hlast & _ & Hreach).
  split; [reflexivity | split].
  - unfold SettingsManager.step.
    rewrite (Hlast 0 (SettingsManager.manager lastCategoryPage)
               (SettingsManager.storage lastCategoryPage) ["工作"] eq_refl eq_refl).
    reflexivity.
  - apply Hreach. unfold lastCategoryPage. cbn [fold_left].
    do 3 apply SettingsManager.reach_step. apply SettingsManager.reach_load.
Defined.

(* ===================================================================== *)
(** * Part III: further properties of the code                             *)
(* ===================================================================== *)

(** ** The ledger: add, update, delete, init, daily totals *)

Section LedgerOperations.

Import StorageManager.

Lemma filter_drops_some {A : Type} (p : A -> bool) (l : list A) (x : A) :
  In x l -> p x = false -> (List.length (filter p l) < List.length l)%nat.
Proof.
  induction l as [|y l IH]; intros Hin Hx; [contradiction|]. simpl.
  pose proof (filter_length_le p l) as Hle.
  destruct Hin as [-> | Hin].
  - rewrite Hx. lia.
  - specialize (IH Hin Hx). destruct (p y); simpl; lia.
Qed.

Lemma present_id_has_record (ls : LocalStorage) (i : Z) :
  In i (ids ls) -> exists r, In r (getRecords ls) /\ id r = i.
Proof.
  unfold ids. intros Hin. apply in_map_iff in Hin.
  destruct Hin as (r & Hid & Hr). now exists r.
Qed.

Lemma findIndex_first {A : Type} (p : A -> bool) (before : list A) (x : A)
    (after : list A) :
  (forall y, In y before -> p y = false) -> p x = true ->
  findIndex p (before ++ x :: after) = Some (List.length before).
Proof.
  induction before as [|y before IH]; intros Hbefore Hx; simpl.
  - now rewrite Hx.
  - rewrite (Hbefore y (or_introl eq_refl)).
    rewrite IH; [reflexivity | | exact Hx].
    intros z Hz. apply Hbefore. now right.
Qed.

Lemma setNth_middle {A : Type} (before : list A) (x y : A) (after : list A) :
  setNth (List.length before) y (before ++ x :: after) = (before ++ y :: after)%list.
Proof. induction before as [|z before IH]; simpl; [reflexivity | now rewrite IH]. Qed.

Lemma sumMinutes_app_number (rs : list WorkRecord) (r : WorkRecord) (t m : Z) :
  sumMinutes rs = Int t -> minutes r = Int m ->
  sumMinutes (rs ++ [r]) = Int (t + m).
Proof.
  unfold sumMinutes. intros Hrs Hr. rewrite fold_left_app, Hrs. simpl.
  now rewrite Hr.
Qed.

End LedgerOperations.

(** Deleting an id the ledger holds removes every record with that id and
    nothing else: the call succeeds, the other records stay, in their
    order, the id is gone from the ledger, and the only write is one
    [setItem] of the records key; settings and timer snapshot are not
    touched. *)
Theorem deleteRecord_removes_the_id (ls : StorageManager.LocalStorage) (i : Z) :
  In i (StorageManager.ids ls) ->
  exists ls',
    StorageManager.deleteRecord i ls = (StorageManager.ResolvedTrue, ls') /\
    StorageManager.getRecords ls'
    = filter (fun r => negb (StorageManager.id r =? i)) (StorageManager.getRecords ls) /\
    ~ In i (StorageManager.ids ls') /\
    (forall r, In r (StorageManager.getRecords ls) -> StorageManager.id r <> i ->
               In r (StorageManager.getRecords ls')) /\
    (List.length (StorageManager.getRecords ls')
     < List.length (StorageManager.getRecords ls))%nat /\
    StorageManager.writes ls'
    = (StorageManager.writes ls ++ [StorageManager.SetItem StorageManager.RECORDS])%list /\
    StorageManager.settings ls' = StorageManager.settings ls /\
    StorageManager.currentTimer ls' = StorageManager.currentTimer ls.
Proof.
  intros Hin. destruct (present_id_has_record ls i Hin) as (r & Hr & Hid).
  assert (Hshort :
    (List.length (filter (fun r => negb (StorageManager.id r =? i)%Z)
                    (StorageManager.getRecords ls))
     < List.length (StorageManager.getRecords ls))%nat).
  { apply filter_drops_some with r; [exact Hr|]. rewrite Hid, Z.eqb_refl. reflexivity. }
  eexists. split.
  - unfold StorageManager.deleteRecord.
    destruct (Nat.eqb_spec
                (List.length (filter (fun record => negb (StorageManager.id record =? i)%Z)
                                (StorageManager.getRecords ls)))
                (List.length (StorageManager.getRecords ls))) as [Heq|_]; [lia|].
    reflexivity.
  - unfold StorageManager.ids, StorageManager.getRecords at 1 2 4 5. simpl.
    repeat split; trivial.
    + intros Hi. apply in_map_iff in Hi. destruct Hi as (x & Hx & Hfx).
      apply filter_In in Hfx. destruct Hfx as [_ Hfx].
      rewrite Hx, Z.eqb_refl in Hfx. discriminate.
    + intros x Hx Hne. apply filter_In. split; [exact Hx|].
      apply Z.eqb_neq in Hne. now rewrite Hne.
Qed.

Lemma deleteRecord_removes_the_id_witness :
  exists ls',
    StorageManager.deleteRecord 1753070000000 sampleDay
    = (StorageManager.ResolvedTrue, ls') /\
    StorageManager.ids ls' = [1753062720000; 1753080000000].
Proof.
  assert (Hin : In 1753070000000 (StorageManager.ids sampleDay)).
  { simpl. auto. }
  destruct (deleteRecord_removes_the_id sampleDay 1753070000000 Hin)
    as (ls' & Hdel & Hrecords & _).
  exists ls'. split; [exact Hdel|].
  unfold StorageManager.ids. rewrite Hrecords. reflexivity.
Defined.

(** Adding a record at a clock reading that is not yet an id, then
    deleting that id, gives back the records the ledger had: both calls
    succeed, and lookups and daily totals are what they were. *)
Theorem addRecord_then_deleteRecord (ls : StorageManager.LocalStorage)
    (now : Z) (record : StorageManager.WorkRecord) :
  ~ In now (StorageManager.ids ls) ->
  let added := snd (StorageManager.addRecord now record ls) in
  StorageManager.ids added = (StorageManager.ids ls ++ [now])%list /\
  fst (StorageManager.deleteRecord now added) = StorageManager.ResolvedTrue /\
  StorageManager.getRecords (snd (StorageManager.deleteRecord now added))
  = StorageManager.getRecords ls /\
  forall d,
    StorageManager.getTotalTimeByDate d (snd (StorageManager.deleteRecord now added))
    = StorageManager.getTotalTimeByDate d ls.
Proof.
  intros Hfresh added.
  assert (Hids : StorageManager.ids added = (StorageManager.ids ls ++ [now])%list).
  { subst added. unfold StorageManager.ids, StorageManager.getRecords at 1. simpl.
    now rewrite map_app. }
  assert (Hin : In now (StorageManager.ids added)).
  { rewrite Hids. apply in_or_app. right. now left. }
  destruct (deleteRecord_removes_the_id added now Hin) as (ls' & Hdel & Hrecords & _).
  assert (Hback : StorageManager.getRecords ls' = StorageManager.getRecords ls).
  { rewrite Hrecords. subst added. unfold StorageManager.getRecords at 1. simpl.
    rewrite filter_app. simpl. rewrite Z.eqb_refl. simpl. rewrite app_nil_r.
    apply filter_keeps_all. intros r Hr.
    now rewrite (absent_id_differs ls now Hfresh r Hr). }
  rewrite Hdel. simpl. repeat split; trivial.
  intros d. unfold StorageManager.getTotalTimeByDate, StorageManager.getRecordsByDate.
  now rewrite Hback.
Qed.

Lemma addRecord_then_deleteRecord_witness :
  StorageManager.getRecords
    (snd (StorageManager.deleteRecord 1753090000000
            (snd (StorageManager.addRecord 1753090000000
                    {| StorageManager.id := 0; StorageManager.date := "2025-07-21";
                       StorageManager.startTime := "16:00";
                       StorageManager.endTime := "16:30";
                       StorageManager.duration := JsNumber (Int 30);
                       StorageManager.content := "周报";
                       StorageManager.type := "工作" |}
                    sampleDay))))
  = StorageManager.getRecords sampleDay.
Proof.
  assert (Hfresh : ~ In 1753090000000 (StorageManager.ids sampleDay)).
  { simpl. intros [H | [H | [H | []]]]; discriminate H. }
  exact (proj1 (proj2 (proj2
           (addRecord_then_deleteRecord sampleDay 1753090000000 _ Hfresh)))).
Defined.

(** Updating an id the ledger holds changes the first record with that id
    and no other: that record becomes the merge of itself and the updates,
    the records before and after it stay, the number of records stays, and
    a later record with the same id is not updated. *)
Theorem updateRecord_merges_first_match (ls : StorageManager.LocalStorage) (i : Z)
    (updates : StorageManager.Updates)
    (before : list StorageManager.WorkRecord) (old : StorageManager.WorkRecord)
    (after : list StorageManager.WorkRecord) :
  StorageManager.getRecords ls = (before ++ old :: after)%list ->
  StorageManager.id old = i ->
  (forall r, In r before -> StorageManager.id r <> i) ->
  StorageManager.updateRecord i updates ls
  = (StorageManager.ResolvedTrue,
     StorageManager.saveRecords
       (before ++ StorageManager.merge old updates :: after) ls)
  /\ List.length
       (StorageManager.getRecords (snd (StorageManager.updateRecord i updates ls)))
     = List.length (StorageManager.getRecords ls).
Proof.
  intros Hrecords Hid Hbefore.
  assert (Hupdate :
    StorageManager.updateRecord i updates ls
    = (StorageManager.ResolvedTrue,
       StorageManager.saveRecords
         (before ++ StorageManager.merge old updates :: after) ls)).
  { unfold StorageManager.updateRecord. rewrite Hrecords.
    rewrite findIndex_first.
    - rewrite nth_error_app2, Nat.sub_diag by lia. simpl.
      now rewrite setNth_middle.
    - intros r Hr. apply Z.eqb_neq. now apply Hbefore.
    - now apply Z.eqb_eq. }
  split; [exact Hupdate|].
  rewrite Hupdate, Hrecords. unfold StorageManager.getRecords. simpl.
  rewrite !length_app. reflexivity.
Qed.

Lemma updateRecord_merges_first_match_witness :
  map StorageManager.duration
    (StorageManager.getRecords
       (snd (StorageManager.updateRecord 1753070000000
               {| StorageManager.newId := None; StorageManager.newDate := None;
                  StorageManager.newStartTime := None;
                  StorageManager.newEndTime := Some "12:45";
                  StorageManager.newDuration := Some (JsNumber (Int 45));
                  StorageManager.newContent := None;
                  StorageManager.newType := None |}
               sampleDay)))
  = [JsNumber (Int 121); JsNumber (Int 45); JsUndefined].
Proof.
  pose proof (updateRecord_merges_first_match sampleDay 1753070000000
                {| StorageManager.newId := None; StorageManager.newDate := None;
                   StorageManager.newStartTime := None;
                   StorageManager.newEndTime := Some "12:45";
                   StorageManager.newDuration := Some (JsNumber (Int 45));
                   StorageManager.newContent := None;
                   StorageManager.newType := None |}
                (firstn 1 (StorageManager.getRecords sampleDay))
                (nth 1 (StorageManager.getRecords sampleDay) blankRecord)
                (skipn 2 (StorageManager.getRecords sampleDay))
                eq_refl eq_refl) as [Hupdate _].
  - simpl. intros r [<- | []]. discriminate.
  - rewrite Hupdate. reflexivity.
Defined.

(** A record with a whole number of minutes, once added, raises the total
    of its own day by that number and leaves the total of every other day
    as it was; it raises the total without 生活 by the same number unless
    its type is 生活, which leaves that total as it was. *)
Theorem addRecord_raises_daily_total (ls : StorageManager.LocalStorage) (now m t : Z)
    (record : StorageManager.WorkRecord) :
  StorageManager.duration record = JsNumber (Int m) ->
  StorageManager.getTotalTimeByDate (StorageManager.date record) ls = Int t ->
  let added := snd (StorageManager.addRecord now record ls) in
  StorageManager.getTotalTimeByDate (StorageManager.date record) added = Int (t + m) /\
  (forall d, d <> StorageManager.date record ->
     StorageManager.getTotalTimeByDate d added = StorageManager.getTotalTimeByDate d ls /\
     StorageManager.getWorkTimeExcludingLifeByDate d added
     = StorageManager.getWorkTimeExcludingLifeByDate d ls) /\
  (forall w,
     StorageManager.getWorkTimeExcludingLifeByDate (StorageManager.date record) ls
     = Int w ->
     StorageManager.getWorkTimeExcludingLifeByDate (StorageManager.date record) added
     = Int (if (StorageManager.type record =? "生活")%string then w else w + m)).
Proof.
  intros Hduration Htotal added.
  assert (Hminutes : StorageManager.minutes (StorageManager.withId now record) = Int m).
  { apply minutes_number. exact Hduration. }
  assert (Hby : forall d,
    StorageManager.getRecordsByDate d added
    = (StorageManager.getRecordsByDate d ls
       ++ (if (StorageManager.date record =? d)%string
           then [StorageManager.withId now record] else []))%list).
  { intros d. subst added.
    unfold StorageManager.getRecordsByDate, StorageManager.getRecords at 1. simpl.
    rewrite filter_app. reflexivity. }
  split; [|split].
  - unfold StorageManager.getTotalTimeByDate in *. rewrite Hby, String.eqb_refl.
    now apply sumMinutes_app_number.
  - intros d Hd.
    unfold StorageManager.getTotalTimeByDate,
      StorageManager.getWorkTimeExcludingLifeByDate.
    rewrite Hby. destruct (String.eqb_spec (StorageManager.date record) d) as [Heq|_].
    + now contradiction Hd.
    + now rewrite app_nil_r.
  - intros w Hw. unfold StorageManager.getWorkTimeExcludingLifeByDate in *.
    rewrite Hby, String.eqb_refl, filter_app. simpl.
    destruct (StorageManager.type record =? "生活")%string; simpl.
    + now rewrite app_nil_r.
    + now apply sumMinutes_app_number.
Qed.

Lemma addRecord_raises_daily_total_witness :
  StorageManager.getTotalTimeByDate "2025-07-21"
    (snd (StorageManager.addRecord 1753090000000
            {| StorageManager.id := 0; StorageManager.date := "2025-07-21";
               StorageManager.startTime := "16:00"; StorageManager.endTime := "16:30";
               StorageManager.duration := JsNumber (Int 30);
               StorageManager.content := "周报"; StorageManager.type := "工作" |}
            sampleDay))
  = Int (151 + 30).
Proof.
  exact (proj1 (addRecord_raises_daily_total sampleDay 1753090000000 30 151
                  {| StorageManager.id := 0; StorageManager.date := "2025-07-21";
                     StorageManager.startTime := "16:00";
                     StorageManager.endTime := "16:30";
                     StorageManager.duration := JsNumber (Int 30);
                     StorageManager.content := "周报"; StorageManager.type := "工作" |}
                  eq_refl eq_refl)).
Defined.

(** [init] never overwrites.  A key that holds text is left as it is,
    whether the text parses or not (text that does not parse stands in the
    store as what its getter makes of it, [[]] or [{}]); when both keys
    hold text nothing at all is written.  Only a key without text is
    written: the default settings, the empty record list.  The timer
    snapshot is not touched.  After [init] both keys hold text, and a
    second [init] changes nothing, not even the write log. *)
Theorem init_keeps_what_is_stored (ls : StorageManager.LocalStorage) :
  (StorageManager.settings ls <> None -> StorageManager.records ls <> None ->
   StorageManager.init ls = ls) /\
  (forall s, StorageManager.settings ls = Some s ->
             StorageManager.settings (StorageManager.init ls) = Some s) /\
  (forall rs, StorageManager.records ls = Some rs ->
              StorageManager.records (StorageManager.init ls) = Some rs) /\
  (StorageManager.settings ls = None ->
   StorageManager.settings (StorageManager.init ls)
   = Some StorageManager.defaultSettings /\
   In (StorageManager.SetItem StorageManager.SETTINGS)
      (StorageManager.writes (StorageManager.init ls))) /\
  (StorageManager.records ls = None ->
   StorageManager.records (StorageManager.init ls) = Some [] /\
   In (StorageManager.SetItem StorageManager.RECORDS)
      (StorageManager.writes (StorageManager.init ls))) /\
  StorageManager.currentTimer (StorageManager.init ls) = StorageManager.currentTimer ls /\
  StorageManager.init (StorageManager.init ls) = StorageManager.init ls.
Proof.
  unfold StorageManager.init.
  destruct (StorageManager.settings ls) as [s|] eqn:Hs;
    destruct (StorageManager.records ls) as [rs|] eqn:Hr; simpl;
    rewrite ?Hs, ?Hr; simpl; rewrite ?Hs, ?Hr;
    repeat split; intros; try congruence;
    rewrite ?in_app_iff; simpl; auto.
Qed.

(** ** The service worker: snapshots, clearing, ticking *)

Section WorkerOperations.

Import Background.

Lemma synced_step (e : Event) (w : Worker) :
  (timerInterval w = Live -> currentTimer w = Some (timerState w)) ->
  timerInterval (step e w) = Live ->
  currentTimer (step e w) = Some (timerState (step e w)).
Proof.
  intros Hw. destruct e as [now m| now |]; simpl.
  - destruct m as [data| | | |]; simpl.
    + reflexivity.
    + rewrite pauseTimer_interval. discriminate.
    + rewrite pauseTimer_interval. discriminate.
    + unfold getTimerStatus.
      destruct (currentTimer w) as [stored|] eqn:Hc; simpl; [|rewrite Hc; exact Hw].
      destruct (isRunning stored), (timerInterval w); simpl;
        try reflexivity; discriminate.
    + exact Hw.
  - unfold tick. destruct (timerInterval w) eqn:Hi; simpl; rewrite ?Hi; trivial.
  - discriminate.
Qed.

Lemma ticks_after_start (clock : list Z) (w : Worker) (start : Z) :
  timerInterval w = Live ->
  isRunning (timerState w) = true ->
  startTime (timerState w) = start ->
  timerInterval (ticks clock w) = Live /\
  isRunning (timerState (ticks clock w)) = true /\
  startTime (timerState (ticks clock w)) = start.
Proof.
  revert w. induction clock as [|now later IH]; intros w Hi Hrun Hstart.
  - now repeat split.
  - change (ticks (now :: later) w) with (ticks later (tick now w)).
    apply IH; unfold tick; rewrite Hi; simpl; auto.
Qed.

End WorkerOperations.

(** On every worker a history has led to, while the interval is live the
    stored snapshot is exactly the worker's timer state, and that state is
    running with a start time: what a status query or a restart would read
    from the store is what the worker holds. *)
Theorem live_worker_snapshot_is_its_state (w : Background.Worker) :
  Background.Reachable w ->
  Background.timerInterval w = Live ->
  Background.currentTimer w = Some (Background.timerState w) /\
  Background.isRunning (Background.timerState w) = true /\
  Background.startTime (Background.timerState w) <> 0.
Proof.
  intros Hreach Hlive.
  destruct (reachable_sound w Hreach) as (Hstart & _ & _ & Hrun).
  destruct (Hrun Hlive) as [Hrunning _].
  split; [|split; [exact Hrunning | now apply Hstart]].
  clear Hstart Hrun Hrunning. revert Hlive.
  induction Hreach as [|e w Hreach IH _].
  - discriminate.
  - now apply synced_step.
Qed.

Lemma live_worker_snapshot_is_its_state_witness :
  Background.currentTimer tickingWorker = Some (Background.timerState tickingWorker) /\
  Background.isRunning (Background.timerState tickingWorker) = true /\
  Background.startTime (Background.timerState tickingWorker) <> 0.
Proof.
  apply live_worker_snapshot_is_its_state; [|reflexivity].
  unfold tickingWorker.
  apply Background.reach_step; [apply Background.reach_step|]; simpl; try lia.
  apply Background.reach_initial.
Defined.

(** CLEAR_TIMER stops everything, whatever the worker was doing: the state
    is idle, the stored snapshot is removed, the interval is gone; from
    then on a tick or a pause changes nothing and a status query answers
    the idle state without starting anything. *)
Theorem clearTimer_stops_everything (now : Z) (w : Background.Worker) :
  Background.timerState (Background.clearTimer now w) = Background.idle /\
  Background.currentTimer (Background.clearTimer now w) = None /\
  Background.timerInterval (Background.clearTimer now w) = NoHandle /\
  forall later,
    Background.tick later (Background.clearTimer now w) = Background.clearTimer now w /\
    Background.pauseTimer later (Background.clearTimer now w)
    = Background.clearTimer now w /\
    Background.getTimerStatus later (Background.clearTimer now w)
    = (Background.clearTimer now w, Background.idle).
Proof.
  assert (Hi : Background.timerInterval (Background.clearTimer now w) = NoHandle).
  { unfold Background.clearTimer; simpl. apply pauseTimer_interval. }
  repeat split; trivial.
  - unfold Background.tick. now rewrite Hi.
  - apply pauseTimer_fixed; [exact Hi | reflexivity].
Qed.

(** A worker started at [t0] that ticks any number of times and is paused
    at [t1] holds, and has stored, the state: not running, the start time
    it was started with, elapsed time [t1] minus that start time.  The
    ticks in between leave no trace, and the interval is gone. *)
Theorem pause_freezes_time_since_start (t0 t1 : Z) (data : Background.StartData)
    (clock : list Z) (w : Background.Worker) :
  let start := Background.startTimeOr (Background.dataStartTime data) t0 in
  let paused := Background.pauseTimer t1 (ticks clock (Background.startTimer t0 data w)) in
  Background.timerState paused
  = {| Background.isRunning := false; Background.startTime := start;
       Background.elapsedTime := t1 - start |} /\
  Background.currentTimer paused = Some (Background.timerState paused) /\
  Background.timerInterval paused = NoHandle.
Proof.
  intros start paused.
  destruct (ticks_after_start clock (Background.startTimer t0 data w) start
              eq_refl eq_refl eq_refl) as (Hi & Hrun & Hstart).
  subst paused. unfold Background.pauseTimer. rewrite Hi. simpl. rewrite Hrun.
  unfold Background.persist; simpl. rewrite Hstart. now repeat split.
Qed.

(** ** The options page: unique labels, nothing unsaved, deleting by index *)

Section CategoryOperations.

Import SettingsManager.

Lemma includes_false (x : string) (l : list string) :
  includes x l = false -> ~ In x l.
Proof.
  unfold includes. intros Hno Hin.
  assert (Hyes : existsb (fun y => (y =? x)%string) l = true).
  { apply existsb_exists. exists x. split; [exact Hin | apply String.eqb_refl]. }
  congruence.
Qed.

Lemma includes_true (x : string) (l : list string) :
  includes x l = true -> In x l.
Proof.
  unfold includes. intros Hyes. apply existsb_exists in Hyes.
  destruct Hyes as (y & Hy & Heq). apply String.eqb_eq in Heq. now subst y.
Qed.

Lemma In_without (n : nat) (l : list string) (x : string) :
  In x (firstn n l ++ skipn (S n) l) -> In x l.
Proof.
  revert n. induction l as [|y l IH]; intros n Hin.
  - now destruct n.
  - destruct n as [|n]; simpl in Hin.
    + now right.
    + destruct Hin as [-> | Hin]; [now left | right; now apply (IH n)].
Qed.

Lemma NoDup_without (n : nat) (l : list string) :
  NoDup l -> NoDup (firstn n l ++ skipn (S n) l).
Proof.
  revert n. induction l as [|y l IH]; intros n Hnodup.
  - destruct n; constructor.
  - inversion Hnodup as [|? ? Hy Hl]; subst. destruct n as [|n]; simpl.
    + exact Hl.
    + constructor; [|now apply IH]. intros Hin. apply Hy. now apply In_without with n.
Qed.

Lemma NoDup_snoc (l : list string) (x : string) :
  NoDup l -> ~ In x l -> NoDup (l ++ [x]).
Proof.
  induction l as [|y l IH]; intros Hnodup Hx; simpl.
  - constructor; [intros [] | constructor].
  - inversion Hnodup as [|? ? Hy Hl]; subst. constructor.
    + intros Hin. apply in_app_or in Hin. destruct Hin as [Hin | [-> | []]].
      * now apply Hy.
      * apply Hx. now left.
    + apply IH; [exact Hl|]. intros Hin. apply Hx. now right.
Qed.

Lemma saveSettings_kept (st : State) (ls : StorageManager.LocalStorage) :
  StorageManager.records ls <> None ->
  pageSaved {| manager := fst (fst (saveSettings st ls));
               storage := snd (fst (saveSettings st ls)) |}.
Proof. intros Hr. unfold pageSaved; simpl. now repeat split. Qed.

Lemma load_kept (ls : StorageManager.LocalStorage) :
  (forall s, StorageManager.settings ls = Some s ->
             StorageManager.features s <> None /\
             exists l, StorageManager.workTypes s = Some l /\ NoDup l /\ ~ In "" l) ->
  pageTidy (load ls) /\ pageSaved (load ls).
Proof.
  intros Hstored.
  unfold pageTidy, pageSaved, load, loadSettings, StorageManager.getSettings,
    StorageManager.init.
  destruct (StorageManager.settings ls) as [s|] eqn:Hs.
  - destruct (Hstored s eq_refl) as (Hf & l & Hl & Hnodup & Hne).
    destruct (StorageManager.features s) as [f|] eqn:Hfs; [|congruence].
    destruct (StorageManager.records ls) eqn:Hr; simpl; rewrite ?Hs, ?Hr; simpl;
      rewrite ?Hfs; (split; [exists l; now repeat split|]);
      repeat split; congruence.
  - destruct (StorageManager.records ls) eqn:Hr; simpl; rewrite ?Hr; simpl;
      (split; [eexists; split; [reflexivity|]; split;
               [repeat constructor; simpl; intuition discriminate
               | simpl; intuition discriminate]|]);
      repeat split; congruence.
Qed.

Lemma step_kept (p : Page) (e : Event) :
  pageTidy p /\ pageSaved p -> pageTidy (step p e) /\ pageSaved (step p e).
Proof.
  intros Hp. pose proof Hp as [(l & Hl & Hnodup & Hne) (Hsaved & Hfeatures & Hrecords)].
  destruct p as [st ls]. simpl in Hl, Hsaved, Hfeatures, Hrecords.
  assert (Hof : workTypesOf st = l) by (unfold workTypesOf; now rewrite Hl).
  destruct e as [typeName|index|f|]; simpl.
  - unfold addWorkType. destruct (String.eqb_spec typeName "") as [?|Hname]; [exact Hp|].
    destruct (includes typeName (workTypesOf st)) eqn:Hinc; [exact Hp|].
    split; [|now apply saveSettings_kept].
    unfold pageTidy; simpl. eexists. split; [reflexivity|]. rewrite Hof in *. split.
    + apply NoDup_snoc; [exact Hnodup | now apply includes_false].
    + intros Hin. apply in_app_or in Hin. destruct Hin as [Hin | [Heq | []]]; auto.
  - unfold deleteWorkType.
    destruct (List.length (workTypesOf st) <=? 1)%nat; [exact Hp|].
    split; [|now apply saveSettings_kept].
    unfold pageTidy; simpl. eexists. split; [reflexivity|]. rewrite Hof.
    unfold splice1. split.
    + now apply NoDup_without.
    + intros Hin. apply Hne. eapply In_without. exact Hin.
  - split; [|now apply (saveSettings_kept
                          {| currentSettings := currentSettings st; toggles := f |})].
    unfold pageTidy; simpl. exists l. now repeat split.
  - apply load_kept. intros s Hs. simpl in Hs. rewrite Hsaved in Hs.
    injection Hs as <-. split; [congruence|]. exists l. now repeat split.
Qed.

Lemma reachable_kept (p : Page) : Reachable p -> pageTidy p /\ pageSaved p.
Proof.
  induction 1 as [|p e _ IH].
  - apply load_kept. discriminate.
  - now apply step_kept.
Qed.

End CategoryOperations.

(** On every options page reachable from a first load, through adding,
    deleting, toggling and reloading, the category list has no repeated
    label and no empty label. *)
Theorem workTypes_stay_unique (p : SettingsManager.Page) :
  SettingsManager.Reachable p -> pageTidy p.
Proof. intros Hreach. exact (proj1 (reachable_kept p Hreach)). Qed.

Lemma workTypes_stay_unique_witness : pageTidy lastCategoryPage.
Proof.
  apply workTypes_stay_unique. unfold lastCategoryPage. cbn [fold_left].
  do 3 apply SettingsManager.reach_step. apply SettingsManager.reach_load.
Defined.

(** On every such page nothing is unsaved: the stored settings are the
    page's settings and the stored features are the check boxes, so reloading
    the page gives the same page and writes nothing. *)
Theorem options_page_is_always_saved (p : SettingsManager.Page) :
  SettingsManager.Reachable p ->
  pageSaved p /\ SettingsManager.step p SettingsManager.Reload = p.
Proof.
  intros Hreach. destruct (reachable_kept p Hreach) as [_ Hsaved].
  split; [exact Hsaved|].
  destruct Hsaved as (Hs & Hf & Hr). destruct p as [[cs tg] ls]. simpl in *.
  unfold SettingsManager.load, StorageManager.init. rewrite Hs.
  destruct (StorageManager.records ls) eqn:Hrecords; [|congruence].
  rewrite ?Hrecords.
  unfold SettingsManager.loadSettings, StorageManager.getSettings. rewrite Hs. simpl.
  now rewrite Hf.
Qed.

Lemma options_page_is_always_saved_witness :
  pageSaved lastCategoryPage /\
  SettingsManager.step lastCategoryPage SettingsManager.Reload = lastCategoryPage.
Proof.
  apply options_page_is_always_saved. unfold lastCategoryPage. cbn [fold_left].
  do 3 apply SettingsManager.reach_step. apply SettingsManager.reach_load.
Defined.

Section CategoryEdits.

Import SettingsManager.

Lemma without_length (n : nat) (l : list string) :
  (n < List.length l)%nat ->
  S (List.length (firstn n l ++ skipn (S n) l)) = List.length l.
Proof.
  intros Hn. rewrite length_app, length_firstn, length_skipn. lia.
Qed.

Lemma without_keeps (n : nat) (l : list string) (x : string) :
  In x l -> x <> nth n l "" -> In x (firstn n l ++ skipn (S n) l).
Proof.
  revert n. induction l as [|y l IH]; intros n Hin Hne; [contradiction|].
  destruct n as [|n]; simpl in *.
  - destruct Hin as [<- | Hin]; [congruence | exact Hin].
  - destruct Hin as [<- | Hin]; [now left | right; now apply IH].
Qed.

Lemma without_drops (n : nat) (l : list string) :
  NoDup l -> (n < List.length l)%nat ->
  ~ In (nth n l "") (firstn n l ++ skipn (S n) l).
Proof.
  revert n. induction l as [|y l IH]; intros n Hnodup Hn; [simpl in Hn; lia|].
  inversion Hnodup as [|? ? Hy Hl]; subst. destruct n as [|n]; simpl in *.
  - exact Hy.
  - intros [Heq | Hin].
    + apply Hy. rewrite Heq. apply nth_In. lia.
    + apply (IH n Hl); [lia | exact Hin].
Qed.

End CategoryEdits.

(** Deleting by the index of a listed category, when at least two are
    listed, removes exactly the label at that index: one label fewer, every
    other label still listed, the removed label gone when the list had no
    repeats; the new settings are stored and the page reports success. *)
Theorem deleteWorkType_removes_the_indexed_label (index : Z)
    (st : SettingsManager.State) (ls : StorageManager.LocalStorage) (l : list string) :
  StorageManager.workTypes (SettingsManager.currentSettings st) = Some l ->
  (2 <= List.length l)%nat ->
  0 <= index < Z.of_nat (List.length l) ->
  let result := SettingsManager.deleteWorkType index st ls in
  let l' := (firstn (Z.to_nat index) l ++ skipn (S (Z.to_nat index)) l)%list in
  StorageManager.workTypes (SettingsManager.currentSettings (fst (fst result))) = Some l' /\
  S (List.length l') = List.length l /\
  (forall x, In x l -> x <> nth (Z.to_nat index) l "" -> In x l') /\
  (NoDup l -> ~ In (nth (Z.to_nat index) l "") l') /\
  StorageManager.settings (snd (fst result))
  = Some (SettingsManager.currentSettings (fst (fst result))) /\
  snd result
  = [SettingsManager.ShowStatusMessage "设置已保存" "success";
     SettingsManager.SettingsUpdated
       (SettingsManager.currentSettings (fst (fst result)))].
Proof.
  intros Hl Htwo Hindex result l'.
  assert (Hn : (Z.to_nat index < List.length l)%nat) by lia.
  assert (Hresult : result
    = SettingsManager.saveSettings
        {| SettingsManager.currentSettings :=
             SettingsManager.withWorkTypes l' (SettingsManager.currentSettings st);
           SettingsManager.toggles := SettingsManager.toggles st |} ls).
  { subst result l'. unfold SettingsManager.deleteWorkType, SettingsManager.workTypesOf.
    rewrite Hl. simpl.
    destruct (Nat.leb_spec (List.length l) 1) as [Hle|_]; [lia|].
    unfold SettingsManager.splice1.
    destruct (Z.ltb_spec index 0) as [Hneg|_]; [lia|].
    now rewrite Z.min_l by lia. }
  rewrite Hresult. simpl. repeat split.
  - now apply without_length.
  - intros x. apply without_keeps.
  - intros Hnodup. now apply without_drops.
Qed.

Lemma deleteWorkType_removes_the_indexed_label_witness :
  StorageManager.workTypes
    (SettingsManager.currentSettings
       (fst (fst (SettingsManager.deleteWorkType 1
                    (SettingsManager.manager (SettingsManager.load StorageManager.empty))
                    (SettingsManager.storage (SettingsManager.load StorageManager.empty))))))
  = Some ["工作"; "运动"; "学习"].
Proof.
  refine (proj1 (deleteWorkType_removes_the_indexed_label 1
                   (SettingsManager.manager (SettingsManager.load StorageManager.empty))
                   (SettingsManager.storage (SettingsManager.load StorageManager.empty))
                   ["工作"; "生活"; "运动"; "学习"] eq_refl _ _)).
  - simpl. lia.
  - simpl. lia.
Defined.

(** [addWorkType] on trimmed input: empty input is ignored without a word;
    a label that is already listed is refused with the error
    "该选择类型已存在", page and store unchanged; any other label is put at
    the end of the list, stored, and reported as saved. *)
Theorem addWorkType_appends_new_labels (typeName : string)
    (st : SettingsManager.State) (ls : StorageManager.LocalStorage) :
  (typeName = "" -> SettingsManager.addWorkType typeName st ls = (st, ls, [])) /\
  (typeName <> "" -> In typeName (SettingsManager.workTypesOf st) ->
   SettingsManager.addWorkType typeName st ls
   = (st, ls, [SettingsManager.ShowStatusMessage "该选择类型已存在" "error"])) /\
  (typeName <> "" -> ~ In typeName (SettingsManager.workTypesOf st) ->
   let result := SettingsManager.addWorkType typeName st ls in
   StorageManager.workTypes (SettingsManager.currentSettings (fst (fst result)))
   = Some (SettingsManager.workTypesOf st ++ [typeName])%list /\
   StorageManager.settings (snd (fst result))
   = Some (SettingsManager.currentSettings (fst (fst result))) /\
   snd result
   = [SettingsManager.ShowStatusMessage "设置已保存" "success";
      SettingsManager.SettingsUpdated
        (SettingsManager.currentSettings (fst (fst result)))]).
Proof.
  unfold SettingsManager.addWorkType. split; [|split].
  - intros ->. reflexivity.
  - intros Hname Hin. destruct (String.eqb_spec typeName "") as [?|_]; [congruence|].
    destruct (SettingsManager.includes typeName (SettingsManager.workTypesOf st))
      eqn:Hinc; [reflexivity|].
    now apply includes_false in Hinc.
  - intros Hname Hnew. destruct (String.eqb_spec typeName "") as [?|_]; [congruence|].
    destruct (SettingsManager.includes typeName (SettingsManager.workTypesOf st))
      eqn:Hinc.
    + now apply includes_true in Hinc.
    + simpl. now repeat split.
Qed.

Lemma addWorkType_appends_new_labels_witness :
  StorageManager.workTypes
    (SettingsManager.currentSettings
       (fst (fst (SettingsManager.addWorkType "阅读"
                    (SettingsManager.manager lastCategoryPage)
                    (SettingsManager.storage lastCategoryPage)))))
  = Some ["工作"; "阅读"]
  /\ SettingsManager.addWorkType "工作"
       (SettingsManager.manager lastCategoryPage)
       (SettingsManager.storage lastCategoryPage)
     = (SettingsManager.manager lastCategoryPage,
        SettingsManager.storage lastCategoryPage,
        [SettingsManager.ShowStatusMessage "该选择类型已存在" "error"]).
Proof.
  destruct (addWorkType_appends_new_labels "阅读"
              (SettingsManager.manager lastCategoryPage)
              (SettingsManager.storage lastCategoryPage)) as (_ & _ & Hnew).
  destruct (addWorkType_appends_new_labels "工作"
              (SettingsManager.manager lastCategoryPage)
              (SettingsManager.storage lastCategoryPage)) as (_ & Hold & _).
  split.
  - refine (proj1 (Hnew _ _)); [discriminate|].
    simpl. intros [H | []]. discriminate H.
  - apply Hold; [discriminate|]. simpl. now left.
Defined.

(** ** Runs: pausing, resuming, stopping, reopening the popup *)

Section Sessions.

Variable zone : Z.

Lemma step_displayOnly_popup (now : Z) (e : Extension.Event) (w : Extension.World) :
  e = Extension.Refresh \/ e = Extension.WorkerTick \/ e = Extension.WorkerRestart ->
  TimerManager.isRunning (Extension.popup (Extension.step zone w (now, e)))
  = TimerManager.isRunning (Extension.popup w) /\
  TimerManager.startTime (Extension.popup (Extension.step zone w (now, e)))
  = TimerManager.startTime (Extension.popup w) /\
  TimerManager.timerInterval (Extension.popup (Extension.step zone w (now, e)))
  = TimerManager.timerInterval (Extension.popup w) /\
  TimerManager.currentDate (Extension.popup (Extension.step zone w (now, e)))
  = TimerManager.currentDate (Extension.popup w) /\
  Extension.storage (Extension.step zone w (now, e)) = Extension.storage w.
Proof.
  intros [-> | [-> | ->]]; simpl; try (now repeat split).
  destruct (TimerManager.asksStatus (Extension.popup w)); [|now repeat split].
  destruct (Background.getTimerStatus now (Extension.worker w)) as [wk s]. simpl.
  destruct (Background.isRunning s); now repeat split.
Qed.

(** Refreshes and worker events change nothing of the popup but the
    elapsed time it shows, and nothing of localStorage. *)
Lemma run_displayOnly_popup (history : list (Z * Extension.Event)) :
  displayOnly history ->
  forall w,
    TimerManager.isRunning (Extension.popup (Extension.run zone history w))
    = TimerManager.isRunning (Extension.popup w) /\
    TimerManager.startTime (Extension.popup (Extension.run zone history w))
    = TimerManager.startTime (Extension.popup w) /\
    TimerManager.timerInterval (Extension.popup (Extension.run zone history w))
    = TimerManager.timerInterval (Extension.popup w) /\
    TimerManager.currentDate (Extension.popup (Extension.run zone history w))
    = TimerManager.currentDate (Extension.popup w) /\
    Extension.storage (Extension.run zone history w) = Extension.storage w.
Proof.
  induction 1 as [|[now e] later He _ IH]; intros w.
  - now repeat split.
  - change (Extension.run zone ((now, e) :: later) w)
      with (Extension.run zone later (Extension.step zone w (now, e))).
    destruct (step_displayOnly_popup now e w He) as (H1 & H2 & H3 & H4 & H5).
    destruct (IH (Extension.step zone w (now, e))) as (G1 & G2 & G3 & G4 & G5).
    rewrite G1, G2, G3, G4, G5. now repeat split.
Qed.

(** One session, from a popup that is not running. *)
Lemma session_run (started paused : Z) (between : list (Z * Extension.Event))
    (w : Extension.World) :
  displayOnly between ->
  TimerManager.isRunning (Extension.popup w) = false ->
  let start := started - TimerManager.elapsedTime (Extension.popup w) in
  let w' := Extension.run zone (sessionHistory (started, between, paused)) w in
  Extension.popup w'
  = {| TimerManager.timerInterval := Cleared; TimerManager.isRunning := false;
       TimerManager.startTime := Some start;
       TimerManager.elapsedTime := paused - start;
       TimerManager.currentDate := TimerManager.currentDate (Extension.popup w) |} /\
  StorageManager.currentTimer (Extension.storage w')
  = Some {| StorageManager.snapIsRunning := false;
            StorageManager.snapStartTime := Some start;
            StorageManager.snapElapsedTime := paused - start |} /\
  StorageManager.getRecords (Extension.storage w')
  = StorageManager.getRecords (Extension.storage w).
Proof.
  intros Hbetween Hidle start w'. subst w'.
  change (sessionHistory (started, between, paused))
    with ([(started, Extension.Start)] ++ between ++ [(paused, Extension.Pause)])%list.
  rewrite !run_app.
  set (w0 := Extension.run zone [(started, Extension.Start)] w).
  assert (H0 : TimerManager.isRunning (Extension.popup w0) = true /\
               TimerManager.startTime (Extension.popup w0) = Some start /\
               TimerManager.timerInterval (Extension.popup w0) = Live /\
               TimerManager.currentDate (Extension.popup w0)
               = TimerManager.currentDate (Extension.popup w) /\
               StorageManager.getRecords (Extension.storage w0)
               = StorageManager.getRecords (Extension.storage w)).
  { subst w0. simpl. unfold Extension.call, TimerManager.startTimer.
    rewrite Hidle. simpl. now repeat split. }
  destruct H0 as (Hr0 & Hs0 & Hi0 & Hd0 & Hl0).
  destruct (run_displayOnly_popup between Hbetween w0) as (Hr1 & Hs1 & Hi1 & Hd1 & Hl1).
  set (w1 := Extension.run zone between w0) in *.
  simpl. unfold Extension.call, TimerManager.pauseTimer.
  rewrite Hr1, Hr0. simpl. rewrite Hs1, Hs0, Hi1, Hi0, Hd1, Hd0. simpl.
  repeat split. unfold StorageManager.getRecords in *. simpl. now rewrite Hl1.
Qed.

Lemma sessions_run (ss : list Session) :
  quietSessions ss ->
  forall w,
    TimerManager.isRunning (Extension.popup w) = false ->
    let w' := Extension.run zone (sessionsHistory ss) w in
    TimerManager.isRunning (Extension.popup w') = false /\
    TimerManager.elapsedTime (Extension.popup w')
    = TimerManager.elapsedTime (Extension.popup w) + runningTime ss /\
    TimerManager.currentDate (Extension.popup w')
    = TimerManager.currentDate (Extension.popup w) /\
    StorageManager.getRecords (Extension.storage w')
    = StorageManager.getRecords (Extension.storage w) /\
    (ss <> [] ->
     exists start,
       TimerManager.startTime (Extension.popup w') = Some start /\
       StorageManager.currentTimer (Extension.storage w')
       = Some {| StorageManager.snapIsRunning := false;
                 StorageManager.snapStartTime := Some start;
                 StorageManager.snapElapsedTime :=
                   TimerManager.elapsedTime (Extension.popup w') |}).
Proof.
  induction 1 as [|[[started between] paused] rest Hquiet Hrest IH]; intros w Hidle.
  - simpl. repeat split; try lia; trivial. intros Hne. now contradiction Hne.
  - simpl in Hquiet.
    destruct (session_run started paused between w Hquiet Hidle) as (Hp & Hc & Hl).
    cbv zeta. unfold sessionsHistory. cbn [flat_map]. fold (sessionsHistory rest).
    rewrite run_app.
    set (w1 := Extension.run zone (sessionHistory (started, between, paused)) w) in *.
    assert (Hidle1 : TimerManager.isRunning (Extension.popup w1) = false)
      by (rewrite Hp; reflexivity).
    destruct (IH w1 Hidle1) as (Hr & He & Hd & Hg & Hlast).
    split; [exact Hr|]. split.
    { rewrite He, Hp. cbn [TimerManager.elapsedTime runningTime]. lia. }
    split; [rewrite Hd, Hp; reflexivity|].
    split; [now rewrite Hg|].
    intros _. destruct rest as [|next rest].
    + simpl. rewrite Hp, Hc. simpl. eexists. split; reflexivity.
    + apply Hlast. discriminate.
Qed.

(** With every start at or after the pause before it, the start time the
    popup holds after the sessions is positive. *)
Lemma sessions_start_positive (ss : list Session) :
  quietSessions ss ->
  forall t w,
    startsAfter t ss ->
    TimerManager.isRunning (Extension.popup w) = false ->
    1 <= t - TimerManager.elapsedTime (Extension.popup w) ->
    ss <> [] ->
    exists start,
      TimerManager.startTime
        (Extension.popup (Extension.run zone (sessionsHistory ss) w)) = Some start /\
      1 <= start.
Proof.
  induction 1 as [|[[started between] paused] rest Hquiet Hrest IH];
    intros t w Hafter Hidle Hlow Hne; [now contradiction Hne|].
  simpl in Hquiet, Hafter. destruct Hafter as [Hle Hafter].
  destruct (session_run started paused between w Hquiet Hidle) as (Hp & _ & _).
  unfold sessionsHistory. cbn [flat_map]. fold (sessionsHistory rest).
  rewrite run_app.
  set (w1 := Extension.run zone (sessionHistory (started, between, paused)) w) in *.
  destruct rest as [|next rest].
  - simpl. rewrite Hp. simpl. eexists. split; [reflexivity | lia].
  - apply (IH paused w1); trivial.
    + rewrite Hp. reflexivity.
    + rewrite Hp. simpl. lia.
    + discriminate.
Qed.

End Sessions.



(** Stopping while paused records the time the timer ran: in a run from
    installation made of sessions, each starting no earlier than the pause
    before it and the first one after the epoch, a stop after the last
    pause commits one record whose duration is the sum of the sessions'
    running times, rounded to minutes, when that sum is not zero; the time
    spent paused is not counted. *)
Theorem stop_while_paused_commits_running_time (zone T : Z) (today workType : string)
    (ss : list Session) :
  ss <> [] ->
  quietSessions ss ->
  startsAfter 1 ss ->
  runningTime ss <> 0 ->
  map StorageManager.duration
    (StorageManager.getRecords
       (Extension.storage
          (Extension.run zone (sessionsHistory ss ++ [(T, Extension.End workType)])
             (Extension.installed today))))
  = [JsNumber (Int (roundMinutes (runningTime ss)))].
Proof.
  intros Hne Hquiet Hafter Hran. rewrite run_app.
  destruct (sessions_run zone ss Hquiet (Extension.installed today) eq_refl)
    as (_ & He & _ & Hg & _).
  destruct (sessions_start_positive zone ss Hquiet 1 (Extension.installed today)
              Hafter eq_refl) as (start & Hs & Hpos); [simpl; lia | exact Hne |].
  set (w1 := Extension.run zone (sessionsHistory ss) (Extension.installed today)) in *.
  simpl in He. simpl. unfold Extension.call, TimerManager.endTimer.
  rewrite Hs. simpl. destruct (Z.eqb_spec start 0) as [?|_]; [lia|]. simpl.
  unfold StorageManager.getRecords at 1. simpl. rewrite Hg, He. simpl.
  destruct (orZ_cases (runningTime ss) (T - start)) as [[? _]|[_ ->]]; [congruence|].
  reflexivity.
Qed.

Lemma stop_while_paused_commits_running_time_witness :
  map StorageManager.duration
    (StorageManager.getRecords
       (Extension.storage
          (Extension.run 480
             (sessionsHistory scenarioSessions
              ++ [(1753073580000, Extension.End "工作")])
             (Extension.installed "2025-07-21"))))
  = [JsNumber (Int (roundMinutes (runningTime scenarioSessions)))]
  /\ roundMinutes (runningTime scenarioSessions) = 121.
Proof.
  split; [|reflexivity].
  apply stop_while_paused_commits_running_time.
  - discriminate.
  - repeat constructor.
  - simpl. lia.
  - discriminate.
Defined.



Section Reopening.

Variable zone : Z.

(** The world right after a first start at [T0]. *)
Lemma started_world (today : string) (T0 : Z) :
  T0 <> 0 ->
  let w0 := Extension.run zone [(T0, Extension.Start)] (Extension.installed today) in
  Extension.popup w0
  = {| TimerManager.timerInterval := Live; TimerManager.isRunning := true;
       TimerManager.startTime := Some T0; TimerManager.elapsedTime := 0;
       TimerManager.currentDate := today |} /\
  runningSince T0 (Extension.worker w0) /\
  Background.timerInterval (Extension.worker w0) = Live /\
  StorageManager.currentTimer (Extension.storage w0)
  = Some {| StorageManager.snapIsRunning := true;
            StorageManager.snapStartTime := Some T0;
            StorageManager.snapElapsedTime := 0 |}.
Proof.
  intros Hstart. cbv zeta. simpl. rewrite Z.sub_0_r.
  destruct (orZ_cases T0 T0) as [[? _]|[_ Heq]]; [congruence|].
  repeat split.
  - unfold runningSince; simpl. eexists. split; [reflexivity|]. simpl.
    now rewrite Heq.
  - simpl. now rewrite Heq.
Qed.

Lemma step_displayOnly_live (start now elapsed : Z) (today : string)
    (e : Extension.Event) (w : Extension.World) :
  start <> 0 ->
  e = Extension.Refresh \/ e = Extension.WorkerTick ->
  Extension.popup w
  = {| TimerManager.timerInterval := Live; TimerManager.isRunning := true;
       TimerManager.startTime := Some start; TimerManager.elapsedTime := elapsed;
       TimerManager.currentDate := today |} ->
  runningSince start (Extension.worker w) ->
  Background.timerInterval (Extension.worker w) = Live ->
  Background.timerInterval (Extension.worker (Extension.step zone w (now, e))) = Live.
Proof.
  intros Hstart [-> | ->] Hp [(s & Hs & Hrun & _) _] Hlive.
  - unfold Extension.step, TimerManager.asksStatus. rewrite Hp.
    cbn [TimerManager.isRunning]. unfold Background.getTimerStatus.
    rewrite Hs. cbn [Background.timerInterval]. rewrite Hrun, Hlive. reflexivity.
  - simpl. unfold Background.tick. rewrite Hlive. reflexivity.
Qed.

(** After refreshes and worker events the worker is still running since
    [start]; without a restart among them its interval is still live. *)
Lemma run_displayOnly_worker (start : Z) (today : string)
    (history : list (Z * Extension.Event)) :
  start <> 0 -> displayOnly history ->
  forall (elapsed : Z) (w : Extension.World),
    Extension.popup w
    = {| TimerManager.timerInterval := Live; TimerManager.isRunning := true;
         TimerManager.startTime := Some start; TimerManager.elapsedTime := elapsed;
         TimerManager.currentDate := today |} ->
    runningSince start (Extension.worker w) ->
    runningSince start (Extension.worker (Extension.run zone history w)) /\
    (restartFree history ->
     Background.timerInterval (Extension.worker w) = Live ->
     Background.timerInterval (Extension.worker (Extension.run zone history w)) = Live).
Proof.
  intros Hstart. induction 1 as [|[now e] later He _ IH]; intros elapsed w Hp Hw.
  - split; [exact Hw | auto].
  - simpl in He.
    destruct (step_displayOnly zone start now elapsed today e w Hstart He Hp Hw)
      as (Hp1 & _ & Hw1).
    change (Extension.run zone ((now, e) :: later) w)
      with (Extension.run zone later (Extension.step zone w (now, e))).
    destruct (IH _ _ Hp1 Hw1) as [Hsince Hlive]. split; [exact Hsince|].
    intros Hfree Hi. inversion Hfree as [|? ? Hne Hfree']; subst. simpl in Hne.
    apply Hlive; [exact Hfree'|].
    apply (step_displayOnly_live start now elapsed today); trivial.
    destruct He as [-> | [-> | ->]]; auto. now contradiction Hne.
Qed.

(** Opening the popup while the worker has been running since [start]:
    the popup adopts the worker's start time, its display refresh sets the
    elapsed time to the time since then, and nothing but [init] touches
    localStorage. *)
Lemma open_running (start now : Z) (today : string) (w : Extension.World) :
  start <> 0 ->
  runningSince start (Extension.worker w) ->
  Extension.popup (Extension.step zone w (now, Extension.Open today))
  = {| TimerManager.timerInterval := Live; TimerManager.isRunning := true;
       TimerManager.startTime := Some start;
       TimerManager.elapsedTime := now - start;
       TimerManager.currentDate := today |} /\
  runningSince start (Extension.worker (Extension.step zone w (now, Extension.Open today))) /\
  Extension.storage (Extension.step zone w (now, Extension.Open today))
  = StorageManager.init (Extension.storage w).
Proof.
  intros Hstart Hw.
  destruct (getTimerStatus_runningSince start now (Extension.worker w) Hstart Hw)
    as (Hwk & Hrun & Hsince).
  unfold Extension.step.
  destruct (Background.getTimerStatus now (Extension.worker w)) as [wk s].
  cbn [fst snd] in Hwk, Hrun, Hsince.
  destruct (getTimerStatus_runningSince start now wk Hstart Hwk)
    as (Hwk2 & Hrun2 & Hsince2).
  pose proof (onMessage_status now wk) as Hquery.
  unfold Extension.call, TimerManager.loadTimerState, TimerManager.updateTimerDisplay.
  rewrite Hrun, Hrun2, Hsince, Hsince2.
  cbn [fold_left Extension.perform Extension.popup Extension.worker Extension.storage
       TimerManager.timerInterval TimerManager.isRunning TimerManager.startTime
       TimerManager.currentDate TimerManager.create].
  rewrite Hquery. split; [reflexivity | split; [exact Hwk2 | reflexivity]].
Qed.

End Reopening.

(** Closing and reopening the popup does not lose a running timer: after a
    start at [T0] and any refreshes, worker ticks and worker restarts, a
    popup opened anew is running, with start time [T0] and a live display
    tick, and the worker is running since [T0] too; the popup's first
    display refresh has set its elapsed time to the time since [T0]. *)
Theorem reopened_popup_finds_running_timer (zone T0 T : Z) (today today' : string)
    (between : list (Z * Extension.Event)) :
  T0 <> 0 ->
  displayOnly between ->
  let w := Extension.run zone
             ((T0, Extension.Start) :: between ++ [(T, Extension.Open today')])
             (Extension.installed today) in
  TimerManager.isRunning (Extension.popup w) = true /\
  TimerManager.startTime (Extension.popup w) = Some T0 /\
  TimerManager.timerInterval (Extension.popup w) = Live /\
  TimerManager.currentDate (Extension.popup w) = today' /\
  runningSince T0 (Extension.worker w) /\
  TimerManager.elapsedTime (Extension.popup w) = T - T0.
Proof.
  intros Hstart Hbetween. cbv zeta.
  change ((T0, Extension.Start) :: between ++ [(T, Extension.Open today')])
    with ([(T0, Extension.Start)] ++ between ++ [(T, Extension.Open today')])%list.
  rewrite !run_app.
  destruct (started_world zone today T0 Hstart) as (Hp0 & Hw0 & _ & _).
  set (w0 := Extension.run zone [(T0, Extension.Start)] (Extension.installed today)) in *.
  destruct (run_displayOnly_worker zone T0 today between Hstart Hbetween 0 w0 Hp0 Hw0)
    as [Hw1 _].
  set (w1 := Extension.run zone between w0) in *.
  destruct (open_running zone T0 T today' w1 Hstart Hw1) as (Hp2 & Hw2 & _).
  change (Extension.run zone [(T, Extension.Open today')] w1)
    with (Extension.step zone w1 (T, Extension.Open today')).
  rewrite Hp2. repeat (split; [reflexivity|]). split; [exact Hw2 | reflexivity].
Qed.

Lemma reopened_popup_finds_running_timer_witness :
  TimerManager.startTime
    (Extension.popup
       (Extension.run 480
          ((1753062720000, Extension.Start)
           :: [(1753062721000, Extension.WorkerTick);
               (1753062722000, Extension.WorkerRestart)]
           ++ [(1753062730000, Extension.Open "2025-07-21")])
          (Extension.installed "2025-07-21")))
  = Some 1753062720000.
Proof.
  refine (proj1 (proj2 (reopened_popup_finds_running_timer 480 1753062720000
                          1753062730000 "2025-07-21" "2025-07-21"
                          [(1753062721000, Extension.WorkerTick);
                           (1753062722000, Extension.WorkerRestart)] _ _))).
  - discriminate.
  - constructor; [right; left; reflexivity|].
    constructor; [right; right; reflexivity|]. constructor.
Defined.



(** A pause that reaches a worker the browser has just restarted does not
    stick.  The restarted worker has forgotten that it was running, so
    PAUSE_TIMER changes nothing and its stored snapshot still says running
    since [T0]; the popup's own store says paused.  A popup opened anew
    believes the worker: it is running again, with start time [T0], so the
    time after the pause is counted. *)
Theorem pause_after_worker_restart_is_undone (zone T0 Tr T1 T2 : Z)
    (today today' : string) (between : list (Z * Extension.Event)) :
  T0 <> 0 ->
  displayOnly between ->
  let paused := Extension.run zone
                  ((T0, Extension.Start)
                   :: between ++ [(Tr, Extension.WorkerRestart);
                                  (T1, Extension.Pause)])
                  (Extension.installed today) in
  let w := Extension.step zone paused (T2, Extension.Open today') in
  TimerManager.isRunning (Extension.popup paused) = false /\
  StorageManager.getCurrentTimer (Extension.storage paused)
  = Some {| StorageManager.snapIsRunning := false;
            StorageManager.snapStartTime := Some T0;
            StorageManager.snapElapsedTime := T1 - T0 |} /\
  TimerManager.isRunning (Extension.popup w) = true /\
  TimerManager.startTime (Extension.popup w) = Some T0 /\
  TimerManager.timerInterval (Extension.popup w) = Live /\
  Background.timerInterval (Extension.worker w) = Live /\
  runningSince T0 (Extension.worker w).
Proof.
  intros Hstart Hbetween. cbv zeta.
  change ((T0, Extension.Start)
          :: between ++ [(Tr, Extension.WorkerRestart); (T1, Extension.Pause)])
    with ([(T0, Extension.Start)]
          ++ between ++ [(Tr, Extension.WorkerRestart); (T1, Extension.Pause)])%list.
  rewrite !run_app.
  destruct (started_world zone today T0 Hstart) as (Hp0 & Hw0 & _ & Hs0).
  cbv zeta in Hp0, Hw0, Hs0.
  destruct (run_displayOnly zone T0 today between Hstart Hbetween 0 _ Hp0 Hw0)
    as [Hp1 Hs1].
  destruct (run_displayOnly_worker zone T0 today between Hstart Hbetween 0 _ Hp0 Hw0)
    as [Hw1 _].
  clear Hs0.
  destruct (Extension.run zone between
              (Extension.run zone [(T0, Extension.Start)] (Extension.installed today)))
    as [p [i ts ct wr] ls].
  cbn [Extension.popup Extension.worker Extension.storage] in Hp1, Hw1.
  simpl in Hs1. subst p ls. destruct Hw1 as [(s & Hs & Hrun & Hsince) _].
  simpl in Hs. subst ct. destruct s as [r s e]. simpl in Hrun, Hsince. subst r s.
  simpl. unfold Background.startTimeOr, Background.asData. simpl.
  destruct (orZ_cases T0 T2) as [[? _]|[_ Heq]]; [congruence|]. rewrite Heq.
  repeat (split; [reflexivity|]).
  unfold runningSince; simpl. split.
  - eexists. split; [reflexivity|]. now split.
  - intros _. now split.
Qed.

Lemma pause_after_worker_restart_is_undone_witness :
  TimerManager.isRunning
    (Extension.popup
       (Extension.step 480
          (Extension.run 480
             ((1753062720000, Extension.Start)
              :: [(1753062721000, Extension.Refresh)]
              ++ [(1753063000000, Extension.WorkerRestart);
                  (1753063800000, Extension.Pause)])
             (Extension.installed "2025-07-21"))
          (1753063900000, Extension.Open "2025-07-21")))
  = true.
Proof.
  refine (proj1 (proj2 (proj2 (pause_after_worker_restart_is_undone 480
                   1753062720000 1753063000000 1753063800000 1753063900000
                   "2025-07-21" "2025-07-21"
                   [(1753062721000, Extension.Refresh)] _ _)))).
  - discriminate.
  - constructor; [left; reflexivity | constructor].
Defined.

Section Escaping.

Lemma append_assoc (a b c : string) : (a ++ b) ++ c = a ++ (b ++ c).
Proof. induction a as [|x a IH]; simpl; [reflexivity | now rewrite IH]. Qed.

Lemma replaceAll_app (c : ascii) (replacement a b : string) :
  replaceAll c replacement (a ++ b)
  = replaceAll c replacement a ++ replaceAll c replacement b.
Proof.
  induction a as [|x a IH]; simpl; [reflexivity|].
  destruct (x =? c)%char; rewrite IH; [|reflexivity].
  now rewrite append_assoc.
Qed.

Lemma escapeEach_app (a b : string) :
  escapeEach (a ++ b) = escapeEach a ++ escapeEach b.
Proof.
  induction a as [|x a IH]; simpl; [reflexivity|].
  now rewrite IH, append_assoc.
Qed.

(** The five passes do not see each other's output: the text is escaped
    character by character. *)
Lemma escapeHtml_each (text : string) : TimerManager.escapeHtml text = escapeEach text.
Proof.
  unfold TimerManager.escapeHtml.
  destruct (String.eqb_spec text "") as [-> | _]; [reflexivity|].
  induction text as [|c rest IH]; [reflexivity|].
  cbn [replaceAll escapeEach]. unfold escapeChar.
  destruct (Ascii.eqb_spec c "&") as [-> | _]; [simpl; now rewrite IH|].
  cbn [replaceAll].
  destruct (Ascii.eqb_spec c "<") as [-> | _]; [simpl; now rewrite IH|].
  cbn [replaceAll].
  destruct (Ascii.eqb_spec c ">") as [-> | _]; [simpl; now rewrite IH|].
  cbn [replaceAll].
  destruct (Ascii.eqb_spec c doubleQuote) as [-> | _]; [simpl; now rewrite IH|].
  cbn [replaceAll].
  destruct (Ascii.eqb_spec c "'") as [-> | _]; [simpl; now rewrite IH|].
  simpl. now rewrite IH.
Qed.

Lemma escapeChar_no_markup (c : ascii) :
  Forall (fun x => ~ markup x) (list_ascii_of_string (escapeChar c)).
Proof.
  unfold escapeChar, markup.
  destruct (Ascii.eqb_spec c "&") as [-> | _];
    [repeat constructor; intros [H|[H|[H|H]]]; discriminate H|].
  destruct (Ascii.eqb_spec c "<") as [-> | Hlt];
    [repeat constructor; intros [H|[H|[H|H]]]; discriminate H|].
  destruct (Ascii.eqb_spec c ">") as [-> | Hgt];
    [repeat constructor; intros [H|[H|[H|H]]]; discriminate H|].
  destruct (Ascii.eqb_spec c doubleQuote) as [-> | Hdq];
    [repeat constructor; intros [H|[H|[H|H]]]; discriminate H|].
  destruct (Ascii.eqb_spec c "'") as [-> | Hq];
    [repeat constructor; intros [H|[H|[H|H]]]; discriminate H|].
  repeat constructor. intros [H|[H|[H|H]]]; congruence.
Qed.

Lemma list_ascii_of_string_app (a b : string) :
  list_ascii_of_string (a ++ b)
  = (list_ascii_of_string a ++ list_ascii_of_string b)%list.
Proof. induction a as [|x a IH]; simpl; [reflexivity | now rewrite IH]. Qed.

End Escaping.

(** Whatever the text, its escaped form holds no [<], no [>] and no
    quote of either kind, so that inside a quoted attribute value it can
    neither end the value nor open a tag. *)
Theorem escapeHtml_leaves_no_markup (text : string) :
  Forall (fun c => ~ markup c) (list_ascii_of_string (TimerManager.escapeHtml text)).
Proof.
  rewrite escapeHtml_each. induction text as [|c rest IH]; simpl; [constructor|].
  rewrite list_ascii_of_string_app. apply Forall_app. split; [|exact IH].
  apply escapeChar_no_markup.
Qed.

(** Escaping loses nothing: two texts with the same escaped form are the
    same text. *)
Theorem escapeHtml_is_injective (a b : string) :
  TimerManager.escapeHtml a = TimerManager.escapeHtml b -> a = b.
Proof.
  rewrite !escapeHtml_each. revert b.
  induction a as [|x a IH]; intros [|y b] Heq; simpl in Heq.
  - reflexivity.
  - exfalso. revert Heq. unfold escapeChar.
    repeat (destruct (_ =? _)%char; [discriminate|]). discriminate.
  - exfalso. revert Heq. unfold escapeChar.
    repeat (destruct (_ =? _)%char; [discriminate|]). discriminate.
  - revert Heq. unfold escapeChar.
    destruct (Ascii.eqb_spec x "&") as [-> | Hx1];
    [|destruct (Ascii.eqb_spec x "<") as [-> | Hx2];
      [|destruct (Ascii.eqb_spec x ">") as [-> | Hx3];
        [|destruct (Ascii.eqb_spec x doubleQuote) as [-> | Hx4];
          [|destruct (Ascii.eqb_spec x "'") as [-> | Hx5]]]]];
    (destruct (Ascii.eqb_spec y "&") as [-> | Hy1];
     [|destruct (Ascii.eqb_spec y "<") as [-> | Hy2];
       [|destruct (Ascii.eqb_spec y ">") as [-> | Hy3];
         [|destruct (Ascii.eqb_spec y doubleQuote) as [-> | Hy4];
           [|destruct (Ascii.eqb_spec y "'") as [-> | Hy5]]]]]);
    simpl; intros Heq; try discriminate Heq;
    try (injection Heq as Heq; f_equal; now apply IH);
    try (injection Heq as Hc Heq; congruence).
    injection Heq as Hc Heq. subst y. f_equal. now apply IH.
Qed.

Lemma escapeHtml_is_injective_witness :
  "a<b & c" = "a<b & c".
Proof.
  apply (escapeHtml_is_injective "a<b & c" "a<b & c"). reflexivity.
Defined.

Section RowButtons.

Import StorageManager.

Lemma parseDigits_step (c : ascii) (k a : Z) (s : string) :
  digitValue c = Some k -> k < 10 ->
  parseDigits 10 (Some a) (String c s) = parseDigits 10 (Some (10 * a + k)) s.
Proof.
  intros Hc Hk. cbn [parseDigits]. rewrite Hc.
  destruct (Z.ltb_spec k 10) as [_|?]; [reflexivity | lia].
Qed.

Lemma parseDigits_positive (d : Decimal.uint) (acc : positive) :
  parseDigits 10 (Some (Z.pos acc)) (NilEmpty.string_of_uint d)
  = Some (Z.pos (Pos.of_uint_acc d acc)).
Proof.
  revert acc. induction d; intros acc; [reflexivity|..];
    cbn [NilEmpty.string_of_uint Pos.of_uint_acc];
    rewrite <- IHd;
    (erewrite parseDigits_step; [ | cbv; reflexivity | ]; [f_equal; f_equal; lia | lia]).
Qed.

Lemma parseDigits_zero (d : Decimal.uint) :
  parseDigits 10 (Some 0) (NilEmpty.string_of_uint d)
  = Some (Z.of_N (Pos.of_uint d)).
Proof.
  induction d; [reflexivity|..];
    cbn [NilEmpty.string_of_uint Pos.of_uint Z.of_N];
    first [ rewrite <- IHd; reflexivity
          | rewrite <- parseDigits_positive; reflexivity ].
Qed.

Lemma parseDigits_none (d : Decimal.uint) :
  d <> Decimal.Nil ->
  parseDigits 10 None (NilEmpty.string_of_uint d)
  = Some (Z.of_N (Pos.of_uint d)).
Proof.
  intros Hd. rewrite <- parseDigits_zero.
  destruct d; [congruence|..]; reflexivity.
Qed.

Lemma parseIntString_digits (d : Decimal.uint) :
  d <> Decimal.Nil ->
  parseIntString (NilEmpty.string_of_uint d)
  = match parseDigits 10 None (NilEmpty.string_of_uint d) with
    | Some m => Int (1 * m)
    | None => NaN
    end.
Proof.
  intros Hd. destruct d as [|l|l|l|l|l|l|l|l|l|l];
    [congruence | destruct l; reflexivity | reflexivity ..].
Qed.

Lemma parseIntString_minus_digits (d : Decimal.uint) :
  d <> Decimal.Nil ->
  parseIntString (String "-" (NilEmpty.string_of_uint d))
  = match parseDigits 10 None (NilEmpty.string_of_uint d) with
    | Some m => Int (-1 * m)
    | None => NaN
    end.
Proof.
  intros Hd. destruct d as [|l|l|l|l|l|l|l|l|l|l];
    [congruence | destruct l; reflexivity | reflexivity ..].
Qed.

(** A whole number printed and read back by [parseInt] is itself. *)
Lemma parseIntString_numberToString (z : Z) :
  parseIntString (numberToString (Int z)) = Int z.
Proof.
  destruct z as [|p|p]; [reflexivity|..]; unfold numberToString, Z.to_int;
    pose proof (Unsigned.to_uint_nonnil p) as Hd;
    pose proof (DecimalPos.Unsigned.of_to p) as Hp;
    cbn [NilZero.string_of_int];
    replace (NilZero.string_of_uint (Pos.to_uint p))
      with (NilEmpty.string_of_uint (Pos.to_uint p))
      by (destruct (Pos.to_uint p); [congruence | reflexivity ..]).
  - rewrite parseIntString_digits, parseDigits_none, Hp by exact Hd.
    f_equal.
  - rewrite parseIntString_minus_digits, parseDigits_none, Hp by exact Hd.
    f_equal.
Qed.

Lemma find_first_id (rs : list WorkRecord) (i : Z) (r : WorkRecord) :
  find (fun x => id x =? i) rs = Some r -> In r rs /\ id r = i.
Proof.
  intros Hfind. apply find_some in Hfind. destruct Hfind as [Hin Heq].
  split; [exact Hin | now apply Z.eqb_eq].
Qed.

Lemma find_unique_id (rs : list WorkRecord) (r : WorkRecord) :
  In r rs -> NoDup (map id rs) -> find (fun x => id x =? id r) rs = Some r.
Proof.
  induction rs as [|x rs IH]; intros Hin Hnodup; [contradiction|].
  simpl in Hnodup. inversion Hnodup as [|? ? Hx Hrest]; subst. simpl.
  destruct Hin as [-> | Hin].
  - now rewrite Z.eqb_refl.
  - destruct (Z.eqb_spec (id x) (id r)) as [Heq|_]; [|now apply IH].
    exfalso. apply Hx. rewrite Heq. now apply in_map.
Qed.

Lemma find_present_id (rs : list WorkRecord) (r : WorkRecord) :
  In r rs -> exists r0, find (fun x => id x =? id r) rs = Some r0.
Proof.
  intros Hin. destruct (find (fun x => id x =? id r) rs) as [r0|] eqn:Hfind.
  - now exists r0.
  - exfalso. pose proof (find_none _ _ Hfind r Hin) as Hne. simpl in Hne.
    now rewrite Z.eqb_refl in Hne.
Qed.

End RowButtons.

(** The delete button of a row removes that row's record.  The button
    carries the record's id as text; read back, it is the id again, so a
    confirmed click removes every record with that id and keeps the others
    in their order.  A click that is not confirmed changes nothing. *)
Theorem row_delete_button_removes_its_record (ls : StorageManager.LocalStorage)
    (r : StorageManager.WorkRecord) :
  In r (StorageManager.getRecords ls) ->
  let ls' := TimerManager.deleteRecord true (TimerManager.dataId r) ls in
  StorageManager.getRecords ls'
  = filter (fun x => negb (StorageManager.id x =? StorageManager.id r))
      (StorageManager.getRecords ls) /\
  ~ In r (StorageManager.getRecords ls') /\
  ~ In (StorageManager.id r) (StorageManager.ids ls') /\
  TimerManager.deleteRecord false (TimerManager.dataId r) ls = ls.
Proof.
  intros Hin. cbv zeta. unfold TimerManager.deleteRecord, TimerManager.dataId, toString.
  rewrite parseIntString_numberToString.
  assert (Hshort :
    (List.length (filter (fun x => negb (StorageManager.id x =? StorageManager.id r)%Z)
                    (StorageManager.getRecords ls))
     < List.length (StorageManager.getRecords ls))%nat).
  { apply filter_drops_some with r; [exact Hin|]. now rewrite Z.eqb_refl. }
  unfold StorageManager.deleteRecord.
  destruct (Nat.eqb_spec
              (List.length (filter (fun record =>
                                      negb (StorageManager.id record =? StorageManager.id r)%Z)
                              (StorageManager.getRecords ls)))
              (List.length (StorageManager.getRecords ls))) as [Heq|_]; [lia|].
  unfold StorageManager.ids. cbn [negb snd].
  unfold StorageManager.getRecords at 1 3 4. cbn [StorageManager.saveRecords StorageManager.records].
  split; [reflexivity|]. split; [|split; [|reflexivity]].
  - intros Hr. apply filter_In in Hr. destruct Hr as [_ Hr].
    now rewrite Z.eqb_refl in Hr.
  - intros Hi. apply in_map_iff in Hi. destruct Hi as (x & Hx & Hfx).
    apply filter_In in Hfx. destruct Hfx as [_ Hfx].
    rewrite Hx, Z.eqb_refl in Hfx. discriminate.
Qed.

Lemma row_delete_button_removes_its_record_witness :
  StorageManager.ids
    (TimerManager.deleteRecord true
       (TimerManager.dataId (nth 1 (StorageManager.getRecords sampleDay) blankRecord))
       sampleDay)
  = [1753062720000; 1753080000000].
Proof.
  assert (Hin : In (nth 1 (StorageManager.getRecords sampleDay) blankRecord)
                   (StorageManager.getRecords sampleDay)).
  { simpl. auto. }
  destruct (row_delete_button_removes_its_record sampleDay _ Hin) as (Hrecords & _).
  unfold StorageManager.ids. rewrite Hrecords. reflexivity.
Defined.

(** The edit button of a row opens the form on a record with that row's
    id, the first one the ledger holds; where ids are not shared, on the
    row's own record. *)
Theorem row_edit_button_opens_its_record (ls : StorageManager.LocalStorage)
    (r : StorageManager.WorkRecord) :
  In r (StorageManager.getRecords ls) ->
  (exists r0,
      TimerManager.editRecord (TimerManager.dataId r) ls
      = (Some (StorageManager.id r, r0), []) /\
      In r0 (StorageManager.getRecords ls) /\
      StorageManager.id r0 = StorageManager.id r) /\
  (NoDup (StorageManager.ids ls) ->
   TimerManager.editRecord (TimerManager.dataId r) ls
   = (Some (StorageManager.id r, r), [])).
Proof.
  intros Hin. unfold TimerManager.editRecord, TimerManager.dataId, toString.
  rewrite parseIntString_numberToString. split.
  - destruct (find_present_id _ r Hin) as (r0 & Hfind). exists r0.
    rewrite Hfind. split; [reflexivity|]. now apply find_first_id.
  - intros Hnodup. now rewrite (find_unique_id _ r Hin Hnodup).
Qed.

Lemma row_edit_button_opens_its_record_witness :
  TimerManager.editRecord
    (TimerManager.dataId (nth 1 (StorageManager.getRecords sampleDay) blankRecord))
    sampleDay
  = (Some (1753070000000, nth 1 (StorageManager.getRecords sampleDay) blankRecord), []).
Proof.
  assert (Hin : In (nth 1 (StorageManager.getRecords sampleDay) blankRecord)
                   (StorageManager.getRecords sampleDay)).
  { simpl. auto. }
  refine (proj2 (row_edit_button_opens_its_record sampleDay _ Hin) _).
  repeat constructor; simpl; intuition discriminate.
Defined.

Section RecordForms.

Import StorageManager.

Lemma findIndex_some {A : Type} (p : A -> bool) (l : list A) (i : nat) :
  findIndex p l = Some i -> exists x, nth_error l i = Some x /\ p x = true.
Proof.
  revert i. induction l as [|y l IH]; intros i; simpl; [discriminate|].
  destruct (p y) eqn:Hy.
  - intros [= <-]. now exists y.
  - destruct (findIndex p l) as [j|]; [|discriminate].
    intros [= <-]. now apply IH.
Qed.

Lemma map_setNth {A B : Type} (f : A -> B) (l : list A) (i : nat) (x y : A) :
  nth_error l i = Some x -> f y = f x -> map f (setNth i y l) = map f l.
Proof.
  revert i. induction l as [|z l IH]; intros [|i]; simpl; try discriminate.
  - intros [= ->] Hf. now rewrite Hf.
  - intros Hnth Hf. now rewrite (IH i Hnth Hf).
Qed.

Lemma setNth_length {A : Type} (l : list A) (i : nat) (y : A) :
  List.length (setNth i y l) = List.length l.
Proof.
  revert i. induction l as [|z l IH]; intros [|i]; simpl; try reflexivity.
  now rewrite IH.
Qed.

(** Whatever [updateRecord] is given under the id it looks up, the ids of
    the ledger and their order stay. *)
Lemma updateRecord_keeps_ids (i : Z) (updates : Updates) (ls : LocalStorage) :
  newId updates = Some i ->
  ids (snd (updateRecord i updates ls)) = ids ls /\
  List.length (getRecords (snd (updateRecord i updates ls)))
  = List.length (getRecords ls).
Proof.
  intros Hid. unfold updateRecord.
  destruct (findIndex (fun record => id record =? i) (getRecords ls))
    as [index|] eqn:Hindex; [|now split].
  destruct (findIndex_some _ _ _ Hindex) as (old & Hnth & Hold).
  rewrite Hnth. unfold ids. cbn [snd]. unfold getRecords at 1 3. cbn [saveRecords records].
  split; [|apply setNth_length].
  apply map_setNth with old; [exact Hnth|].
  unfold merge. cbn [id]. rewrite Hid. cbn [orElse].
  symmetry. now apply Z.eqb_eq.
Qed.

End RecordForms.

(** A filled-in add-record form whose end time is later than its start
    time by at least half a minute stores one record: it is appended to the
    ledger with the clock reading as id and the popup's date, its duration
    is the difference rounded to minutes, the total of that date rises by
    it, and success is reported. *)
Theorem manual_record_adds_its_minutes (dateTime : string -> string -> Number)
    (now a b t : Z) (content type startTime endTime : string)
    (st : TimerManager.State) (ls : StorageManager.LocalStorage) :
  content <> "" -> startTime <> "" -> endTime <> "" ->
  dateTime (TimerManager.currentDate st) startTime = Int a ->
  dateTime (TimerManager.currentDate st) endTime = Int b ->
  0 < roundMinutes (b - a) ->
  StorageManager.getTotalTimeByDate (TimerManager.currentDate st) ls = Int t ->
  let saved :=
    TimerManager.onSaveRecord dateTime now content type startTime endTime st ls in
  StorageManager.getRecords (fst saved)
  = (StorageManager.getRecords ls
     ++ [{| StorageManager.id := now;
            StorageManager.date := TimerManager.currentDate st;
            StorageManager.startTime := startTime;
            StorageManager.endTime := endTime;
            StorageManager.duration := JsNumber (Int (roundMinutes (b - a)));
            StorageManager.content := content;
            StorageManager.type := type |}])%list /\
  StorageManager.getTotalTimeByDate (TimerManager.currentDate st) (fst saved)
  = Int (t + roundMinutes (b - a)) /\
  snd saved = [TimerManager.ShowMessage "记录添加成功" "success"].
Proof.
  intros Hcontent Hstart Hend Ha Hb Hpositive Htotal. cbv zeta.
  unfold TimerManager.onSaveRecord. rewrite Ha, Hb.
  destruct (String.eqb_spec content "") as [?|_]; [contradiction|].
  destruct (String.eqb_spec startTime "") as [?|_]; [contradiction|].
  destruct (String.eqb_spec endTime "") as [?|_]; [contradiction|].
  cbn [orb numSub roundMinutesOf notPositive jsonNumber].
  destruct (Z.leb_spec (roundMinutes (b - a)) 0) as [?|_]; [lia|].
  cbn [fst snd]. unfold StorageManager.addRecord. cbn [snd].
  split; [reflexivity|]. split; [|reflexivity].
  unfold StorageManager.getTotalTimeByDate, StorageManager.getRecordsByDate in *.
  unfold StorageManager.getRecords at 1.
  cbn [StorageManager.saveRecords StorageManager.records].
  rewrite filter_app. cbn [filter StorageManager.withId StorageManager.date].
  rewrite String.eqb_refl.
  apply sumMinutes_app_number; [exact Htotal|]. now apply minutes_number.
Qed.

Lemma manual_record_adds_its_minutes_witness :
  StorageManager.getTotalTimeByDate "2025-07-21"
    (fst (TimerManager.onSaveRecord sampleDateTime 1753090000000
            "周报" "工作" "16:00" "16:30" (TimerManager.create "2025-07-21") sampleDay))
  = Int (151 + 30).
Proof.
  refine (proj1 (proj2 (manual_record_adds_its_minutes sampleDateTime 1753090000000
                          57600000 59400000 151 "周报" "工作" "16:00" "16:30"
                          (TimerManager.create "2025-07-21") sampleDay
                          _ _ _ _ _ _ _)));
    first [discriminate | reflexivity].
Defined.

(** The add-record form stores nothing short of a minute.  Whatever is in
    its fields, a click on save either leaves the store as it is and shows
    an alert, or appends one record whose content and times are not empty
    and whose duration is a whole number of at least 1 - or null, when the
    times could not be read as dates. *)
Theorem manual_record_is_never_below_a_minute (dateTime : string -> string -> Number)
    (now : Z) (content type startTime endTime : string)
    (st : TimerManager.State) (ls : StorageManager.LocalStorage) :
  let saved :=
    TimerManager.onSaveRecord dateTime now content type startTime endTime st ls in
  (fst saved = ls /\ exists message, snd saved = [TimerManager.Alert message]) \/
  (exists r,
      StorageManager.getRecords (fst saved) = (StorageManager.getRecords ls ++ [r])%list /\
      StorageManager.id r = now /\
      StorageManager.content r <> "" /\
      StorageManager.startTime r <> "" /\
      StorageManager.endTime r <> "" /\
      (StorageManager.duration r = JsNull \/
       exists m, StorageManager.duration r = JsNumber (Int m) /\ 1 <= m)).
Proof.
  cbv zeta. unfold TimerManager.onSaveRecord.
  destruct (String.eqb_spec content "") as [?|Hcontent];
    [left; split; [reflexivity | eexists; reflexivity]|].
  destruct (String.eqb_spec startTime "") as [?|Hstart];
    [left; split; [reflexivity | eexists; reflexivity]|].
  destruct (String.eqb_spec endTime "") as [?|Hend];
    [left; split; [reflexivity | eexists; reflexivity]|].
  cbn [orb].
  destruct (numSub (dateTime (TimerManager.currentDate st) endTime)
              (dateTime (TimerManager.currentDate st) startTime)) as [|ms];
    cbn [roundMinutesOf notPositive jsonNumber].
  - right. eexists. split; [reflexivity|]. cbn. repeat split; auto.
  - destruct (Z.leb_spec (roundMinutes ms) 0) as [_|Hpositive];
      [left; split; [reflexivity | eexists; reflexivity]|].
    right. eexists. split; [reflexivity|]. cbn. repeat split; auto.
    right. exists (roundMinutes ms). split; [reflexivity | lia].
Qed.

(** Saving the edit form never changes which ids the ledger holds, nor
    their order or number, whatever is in the fields and whatever has
    become of the ledger since the form was opened. *)
Theorem edit_form_keeps_the_ids (dateTime : string -> string -> Number)
    (button : string) (opened ls : StorageManager.LocalStorage)
    (recordId : Z) (record : StorageManager.WorkRecord)
    (shown : list TimerManager.Effect)
    (content type date startTime endTime : string) :
  TimerManager.editRecord button opened = (Some (recordId, record), shown) ->
  let saved :=
    TimerManager.onSaveEditRecord dateTime recordId record
      content type date startTime endTime ls in
  StorageManager.ids (fst saved) = StorageManager.ids ls /\
  List.length (StorageManager.getRecords (fst saved))
  = List.length (StorageManager.getRecords ls).
Proof.
  intros Hopened. cbv zeta.
  assert (Hid : StorageManager.id record = recordId).
  { unfold TimerManager.editRecord in Hopened.
    destruct (parseIntString button) as [|i]; [discriminate|].
    destruct (find (fun r => StorageManager.id r =? i) (StorageManager.getRecords opened))
      as [r|] eqn:Hfind; [|discriminate].
    injection Hopened as <- <- _. now apply (find_first_id _ _ _ Hfind). }
  unfold TimerManager.onSaveEditRecord.
  destruct ((content =? "")%string || (date =? "")%string
            || (startTime =? "")%string || (endTime =? "")%string); [now split|].
  destruct (notPositive _); [now split|]. cbn [fst].
  apply updateRecord_keeps_ids. cbn. now rewrite Hid.
Qed.

Lemma edit_form_keeps_the_ids_witness :
  StorageManager.ids
    (fst (TimerManager.onSaveEditRecord sampleDateTime 1753070000000
            (nth 1 (StorageManager.getRecords sampleDay) blankRecord)
            "周报" "工作" "2025-07-22" "16:00" "16:30" sampleDay))
  = StorageManager.ids sampleDay.
Proof.
  refine (proj1 (edit_form_keeps_the_ids sampleDateTime "1753070000000"
                   sampleDay sampleDay 1753070000000
                   (nth 1 (StorageManager.getRecords sampleDay) blankRecord) []
                   "周报" "工作" "2025-07-22" "16:00" "16:30" _)).
  reflexivity.
Defined.

(** A valid edit rewrites one record in place: the first record with the
    form's id takes the form's date, times, content and type, its duration
    is computed anew from the times, its id stays, and every other record
    is as it was. *)
Theorem edit_form_rewrites_one_record (dateTime : string -> string -> Number)
    (a b : Z) (content type date startTime endTime : string)
    (ls : StorageManager.LocalStorage)
    (before : list StorageManager.WorkRecord) (old : StorageManager.WorkRecord)
    (after : list StorageManager.WorkRecord) :
  content <> "" -> date <> "" -> startTime <> "" -> endTime <> "" ->
  dateTime date startTime = Int a ->
  dateTime date endTime = Int b ->
  0 < roundMinutes (b - a) ->
  StorageManager.getRecords ls = (before ++ old :: after)%list ->
  (forall r, In r before -> StorageManager.id r <> StorageManager.id old) ->
  let saved :=
    TimerManager.onSaveEditRecord dateTime (StorageManager.id old) old
      content type date startTime endTime ls in
  StorageManager.getRecords (fst saved)
  = (before
     ++ {| StorageManager.id := StorageManager.id old;
           StorageManager.date := date;
           StorageManager.startTime := startTime;
           StorageManager.endTime := endTime;
           StorageManager.duration := JsNumber (Int (roundMinutes (b - a)));
           StorageManager.content := content;
           StorageManager.type := type |} :: after)%list /\
  snd saved = [TimerManager.ShowMessage "记录已更新" "success"].
Proof.
  intros Hcontent Hdate Hstart Hend Ha Hb Hpositive Hrecords Hbefore. cbv zeta.
  unfold TimerManager.onSaveEditRecord. rewrite Ha, Hb.
  destruct (String.eqb_spec content "") as [?|_]; [contradiction|].
  destruct (String.eqb_spec date "") as [?|_]; [contradiction|].
  destruct (String.eqb_spec startTime "") as [?|_]; [contradiction|].
  destruct (String.eqb_spec endTime "") as [?|_]; [contradiction|].
  cbn [orb numSub roundMinutesOf notPositive jsonNumber].
  destruct (Z.leb_spec (roundMinutes (b - a)) 0) as [?|_]; [lia|].
  cbn [fst snd]. split; [|reflexivity].
  unfold StorageManager.updateRecord. rewrite Hrecords.
  rewrite findIndex_first.
  - rewrite nth_error_app2, Nat.sub_diag by lia. cbn [nth_error snd].
    now rewrite setNth_middle.
  - intros r Hr. apply Z.eqb_neq. now apply Hbefore.
  - apply Z.eqb_refl.
Qed.

Lemma edit_form_rewrites_one_record_witness :
  StorageManager.getRecords
    (fst (TimerManager.onSaveEditRecord sampleDateTime 1753070000000
            (nth 1 (StorageManager.getRecords sampleDay) blankRecord)
            "周报" "工作" "2025-07-22" "16:00" "16:30" sampleDay))
  = (firstn 1 (StorageManager.getRecords sampleDay)
     ++ {| StorageManager.id := 1753070000000;
           StorageManager.date := "2025-07-22";
           StorageManager.startTime := "16:00";
           StorageManager.endTime := "16:30";
           StorageManager.duration := JsNumber (Int 30);
           StorageManager.content := "周报";
           StorageManager.type := "工作" |}
        :: skipn 2 (StorageManager.getRecords sampleDay))%list.
Proof.
  refine (proj1 (edit_form_rewrites_one_record sampleDateTime 57600000 59400000
                   "周报" "工作" "2025-07-22" "16:00" "16:30" sampleDay
                   (firstn 1 (StorageManager.getRecords sampleDay))
                   (nth 1 (StorageManager.getRecords sampleDay) blankRecord)
                   (skipn 2 (StorageManager.getRecords sampleDay))
                   _ _ _ _ _ _ _ _ _));
    try first [discriminate | reflexivity].
  intros r [<- | []]. discriminate.
Defined.

(** The edit form reports success even when it updated nothing.  If the
    record was deleted while the form was open, a valid save leaves the
    store as it is, writes nothing, and still shows the message that the
    record has been updated. *)
Theorem edit_form_reports_success_without_record
    (dateTime : string -> string -> Number) (recordId : Z)
    (record : StorageManager.WorkRecord)
    (content type date startTime endTime : string)
    (ls : StorageManager.LocalStorage) :
  ~ In recordId (StorageManager.ids ls) ->
  content <> "" -> date <> "" -> startTime <> "" -> endTime <> "" ->
  notPositive (roundMinutesOf (numSub (dateTime date endTime)
                                 (dateTime date startTime))) = false ->
  TimerManager.onSaveEditRecord dateTime recordId record
    content type date startTime endTime ls
  = (ls, [TimerManager.ShowMessage "记录已更新" "success"]).
Proof.
  intros Habsent Hcontent Hdate Hstart Hend Hvalid.
  unfold TimerManager.onSaveEditRecord. rewrite Hvalid.
  destruct (String.eqb_spec content "") as [?|_]; [contradiction|].
  destruct (String.eqb_spec date "") as [?|_]; [contradiction|].
  destruct (String.eqb_spec startTime "") as [?|_]; [contradiction|].
  destruct (String.eqb_spec endTime "") as [?|_]; [contradiction|].
  cbn [orb]. unfold StorageManager.updateRecord.
  rewrite findIndex_none; [reflexivity|].
  intros r Hr. now apply absent_id_differs with ls.
Qed.

Lemma edit_form_reports_success_without_record_witness :
  TimerManager.onSaveEditRecord sampleDateTime 1753070000000
    (nth 1 (StorageManager.getRecords sampleDay) blankRecord)
    "周报" "工作" "2025-07-22" "16:00" "16:30"
    (snd (StorageManager.deleteRecord 1753070000000 sampleDay))
  = (snd (StorageManager.deleteRecord 1753070000000 sampleDay),
     [TimerManager.ShowMessage "记录已更新" "success"]).
Proof.
  apply edit_form_reports_success_without_record;
    try first [discriminate | reflexivity].
  simpl. intuition discriminate.
Defined.

Section Report.

Import StorageManager.

Lemma property_assign_same (key : string) (v : JsValue) (obj : list (string * JsValue)) :
  property key (assign key v obj) = v.
Proof.
  induction obj as [|[k x] obj IH]; simpl.
  - now rewrite String.eqb_refl.
  - destruct (String.eqb_spec k key) as [Heq|Hne]; simpl.
    + destruct (String.eqb_spec k key); [reflexivity | contradiction].
    + destruct (String.eqb_spec k key); [contradiction | exact IH].
Qed.

Lemma property_assign_other (key other : string) (v : JsValue)
    (obj : list (string * JsValue)) :
  other <> key -> property other (assign key v obj) = property other obj.
Proof.
  intros Hother. induction obj as [|[k x] obj IH]; simpl.
  - destruct (String.eqb_spec key other); [congruence | reflexivity].
  - destruct (String.eqb_spec k key) as [Heq|Hne]; simpl.
    + destruct (String.eqb_spec k other); [congruence | reflexivity].
    + destruct (String.eqb_spec k other); [reflexivity | exact IH].
Qed.

Lemma hasOwn_assign (key k : string) (v : JsValue) (obj : list (string * JsValue)) :
  hasOwn k (assign key v obj) = hasOwn k obj || (key =? k)%string.
Proof.
  unfold hasOwn. induction obj as [|[k' x] obj IH]; simpl.
  - now rewrite orb_false_r.
  - destruct (String.eqb_spec k' key) as [-> | Hne]; simpl.
    + destruct (key =? k)%string; simpl; [reflexivity | now rewrite orb_false_r].
    + rewrite IH. now rewrite orb_assoc.
Qed.

Lemma property_none (k : string) (obj : list (string * JsValue)) :
  hasOwn k obj = false -> property k obj = JsUndefined.
Proof.
  unfold hasOwn. induction obj as [|[k' x] obj IH]; simpl; [reflexivity|].
  destruct (k' =? k)%string; [discriminate | exact IH].
Qed.

Lemma property_write_same (key : string) (v : JsValue) (obj : list (string * JsValue)) :
  key <> "__proto__" -> property key (write key v obj) = v.
Proof.
  intros Hkey. unfold write.
  destruct (String.eqb_spec key "__proto__"); [contradiction|].
  apply property_assign_same.
Qed.

Lemma property_write_other (key other : string) (v : JsValue)
    (obj : list (string * JsValue)) :
  other <> key -> property other (write key v obj) = property other obj.
Proof.
  intros Hother. unfold write.
  destruct (key =? "__proto__")%string; [reflexivity|].
  now apply property_assign_other.
Qed.

Lemma hasOwn_write (key k : string) (v : JsValue) (obj : list (string * JsValue)) :
  hasOwn k (write key v obj)
  = hasOwn k obj || ((key =? k)%string && negb (k =? "__proto__")%string).
Proof.
  unfold write. destruct (String.eqb_spec key "__proto__") as [-> | Hkey].
  - destruct (String.eqb_spec "__proto__" k) as [<- | _]; simpl;
      now rewrite orb_false_r.
  - rewrite hasOwn_assign.
    destruct (String.eqb_spec key k) as [<- | _]; simpl; [|reflexivity].
    destruct (String.eqb_spec key "__proto__"); [contradiction | reflexivity].
Qed.

Lemma property_accumulate_other (key other : string) (amount : JsValue)
    (obj : list (string * JsValue)) :
  other <> key ->
  property other (TimerManager.accumulate key amount obj) = property other obj.
Proof.
  intros Hother. unfold TimerManager.accumulate.
  rewrite property_write_other by exact Hother.
  destruct (negb (truthyRead (read key obj))); [|reflexivity].
  now apply property_write_other.
Qed.

Lemma hasOwn_accumulate (key k : string) (amount : JsValue)
    (obj : list (string * JsValue)) :
  hasOwn k (TimerManager.accumulate key amount obj)
  = hasOwn k obj || ((key =? k)%string && negb (k =? "__proto__")%string).
Proof.
  unfold TimerManager.accumulate. rewrite hasOwn_write.
  destruct (negb (truthyRead (read key obj))); [|reflexivity].
  rewrite hasOwn_write.
  destruct (hasOwn k obj), ((key =? k)%string && negb (k =? "__proto__")%string);
    reflexivity.
Qed.

Lemma textOf_nonempty (members : list (string * string)) (k text : string) :
  Forall (fun member => snd member <> "") members ->
  textOf k members = Some text -> text <> "".
Proof.
  induction 1 as [|[k' t] members Ht _ IH]; simpl; [discriminate|].
  destruct (k' =? k)%string; [intros [= <-]; exact Ht | exact IH].
Qed.

Lemma inherited_text (k text : string) : inherited k = Some text -> text <> "".
Proof.
  apply textOf_nonempty. unfold objectPrototype.
  repeat (constructor; [discriminate|]). constructor.
Qed.

Lemma inherited_none (k : string) : inherited k = None -> k <> "__proto__".
Proof. intros Hk ->. vm_compute in Hk. discriminate Hk. Qed.

Lemma append_nonempty (a b : string) : a <> "" -> a ++ b <> "".
Proof. destruct a; [congruence | discriminate]. Qed.

Lemma written_minutes (r : WorkRecord) :
  writtenDuration r -> minutes r = Int (wholeMinutes r).
Proof.
  intros Hr. unfold wholeMinutes.
  destruct (minutes r) as [|z] eqn:Hm; [|reflexivity].
  exfalso. unfold minutes in Hm. destruct Hr as [Hr | [m Hr]]; rewrite Hr in Hm.
  - discriminate.
  - unfold jsOr in Hm. simpl in Hm. destruct (m =? 0); discriminate.
Qed.

Lemma written_jsAdd (r : WorkRecord) (a : Z) :
  writtenDuration r ->
  jsAdd (JsNumber (Int a)) (duration r) = JsNumber (Int (a + wholeMinutes r)).
Proof.
  intros Hr. unfold wholeMinutes, minutes.
  destruct Hr as [Hr | [m Hr]]; rewrite Hr; simpl; [reflexivity|].
  unfold jsOr. simpl. destruct (Z.eqb_spec m 0) as [-> | _]; reflexivity.
Qed.

(** Counting one more record under a key that names nothing inherited
    adds its minutes there, whether the key is new, stands at 0, or holds
    a sum already. *)
Lemma property_accumulate_same (r : WorkRecord) (k : string)
    (obj : list (string * JsValue)) (a : Z) :
  writtenDuration r ->
  inherited k = None ->
  hasOwn k obj = false /\ a = 0
  \/ hasOwn k obj = true /\ property k obj = JsNumber (Int a) ->
  property k (TimerManager.accumulate k (duration r) obj)
  = JsNumber (Int (a + wholeMinutes r)).
Proof.
  intros Hr Hk Hobj. pose proof (inherited_none k Hk) as Hproto.
  assert (Hzero : forall o,
    addRead (read k (write k (JsNumber (Int 0)) o)) (duration r)
    = JsNumber (Int (0 + wholeMinutes r))).
  { intros o. unfold read. rewrite hasOwn_write, String.eqb_refl.
    destruct (String.eqb_spec k "__proto__"); [contradiction|].
    rewrite orb_true_r, property_write_same by exact Hproto.
    now apply written_jsAdd. }
  unfold TimerManager.accumulate. rewrite property_write_same by exact Hproto.
  destruct Hobj as [[Hown ->] | [Hown Hvalue]].
  - unfold read at 2. rewrite Hown, Hk. simpl. apply Hzero.
  - unfold read at 2. rewrite Hown, Hvalue. simpl.
    destruct (Z.eqb_spec a 0) as [-> | _]; simpl; [apply Hzero|].
    unfold read. rewrite Hown, Hvalue. now apply written_jsAdd.
Qed.

(** Counting under a key that names an inherited member gives a text. *)
Lemma property_accumulate_member (k text : string) (amount : JsValue)
    (obj : list (string * JsValue)) :
  inherited k = Some text ->
  k <> "__proto__" ->
  hasOwn k obj = false
  \/ (exists t, t <> "" /\ hasOwn k obj = true /\ property k obj = JsString t) ->
  exists t, t <> "" /\
            property k (TimerManager.accumulate k amount obj) = JsString t.
Proof.
  intros Hk Hproto Hobj. pose proof (inherited_text k text Hk) as Htext.
  unfold TimerManager.accumulate. rewrite property_write_same by exact Hproto.
  destruct Hobj as [Hown | (t & Ht & Hown & Hvalue)].
  - unfold read. rewrite Hown, Hk. simpl. rewrite ?Hown, ?Hk. simpl.
    eexists. split; [|reflexivity]. now apply append_nonempty.
  - unfold read. rewrite Hown, Hvalue. simpl.
    destruct (String.eqb_spec t ""); [contradiction|]. simpl.
    rewrite ?Hown, ?Hvalue. simpl.
    eexists. split; [|reflexivity]. now apply append_nonempty.
Qed.

Lemma sumWhole_snoc (rs : list WorkRecord) (r : WorkRecord) :
  sumWhole (rs ++ [r]) = sumWhole rs + wholeMinutes r.
Proof. induction rs as [|x rs IH]; simpl; [lia | rewrite IH; lia]. Qed.

Lemma filter_none {A : Type} (p : A -> bool) (l : list A) :
  existsb p l = false -> filter p l = [].
Proof.
  induction l as [|x l IH]; simpl; [reflexivity|].
  destruct (p x); [discriminate | exact IH].
Qed.

Lemma tally_snoc (key : WorkRecord -> string) (rs : list WorkRecord) (r : WorkRecord) :
  tally key (rs ++ [r]) = TimerManager.accumulate (key r) (duration r) (tally key rs).
Proof. unfold tally. now rewrite fold_left_app. Qed.

(** The names a counter holds: the keys of the records counted, but for
    [__proto__]. *)
Lemma tally_hasOwn (key : WorkRecord -> string) (rs : list WorkRecord) (k : string) :
  hasOwn k (tally key rs)
  = existsb (fun r => (key r =? k)%string) rs && negb (k =? "__proto__")%string.
Proof.
  induction rs as [|r rs IH] using rev_ind; [reflexivity|].
  rewrite tally_snoc, hasOwn_accumulate, IH, existsb_app. simpl.
  destruct (existsb _ rs), (key r =? k)%string, (k =? "__proto__")%string; reflexivity.
Qed.

Lemma tally_property (key : WorkRecord -> string) (rs : list WorkRecord) (k : string) :
  Forall writtenDuration rs ->
  inherited k = None ->
  property k (tally key rs)
  = if existsb (fun r => (key r =? k)%string) rs
    then JsNumber (Int (sumWhole (filedUnder key k rs)))
    else JsUndefined.
Proof.
  intros Hrs Hk. pose proof (inherited_none k Hk) as Hproto.
  induction rs as [|r rs IH] using rev_ind; [reflexivity|].
  apply Forall_app in Hrs. destruct Hrs as [Hrs Hr].
  inversion Hr as [|? ? Hwritten _]; subst. specialize (IH Hrs).
  pose proof (tally_hasOwn key rs k) as Hown.
  destruct (String.eqb_spec k "__proto__") as [?|_]; [contradiction|].
  rewrite andb_true_r in Hown.
  rewrite tally_snoc. unfold filedUnder in *. rewrite existsb_app, filter_app.
  cbn [existsb filter].
  destruct (String.eqb_spec (key r) k) as [Heq|Hne].
  - subst k. rewrite orb_true_r, sumWhole_snoc.
    apply property_accumulate_same; [exact Hwritten | exact Hk |].
    destruct (existsb _ rs) eqn:Hex; [right | left]; split; trivial.
    now rewrite (filter_none _ _ Hex).
  - rewrite orb_false_r, app_nil_r, property_accumulate_other by congruence.
    exact IH.
Qed.

Lemma tally_member (key : WorkRecord -> string) (rs : list WorkRecord)
    (k text : string) :
  inherited k = Some text ->
  k <> "__proto__" ->
  existsb (fun r => (key r =? k)%string) rs = true ->
  exists t, t <> "" /\ property k (tally key rs) = JsString t.
Proof.
  intros Hk Hproto.
  induction rs as [|r rs IH] using rev_ind; [discriminate|].
  rewrite existsb_app, tally_snoc. cbn [existsb]. rewrite orb_false_r.
  pose proof (tally_hasOwn key rs k) as Hown.
  destruct (String.eqb_spec k "__proto__") as [?|_]; [contradiction|].
  rewrite andb_true_r in Hown.
  destruct (String.eqb_spec (key r) k) as [Heq|Hne].
  - intros _. subst k. apply property_accumulate_member with text; trivial.
    destruct (existsb _ rs) eqn:Hex; [right | now left].
    destruct (IH eq_refl) as (t & Ht & Hvalue). now exists t.
  - rewrite orb_false_r. intros Hex.
    rewrite property_accumulate_other by congruence. now apply IH.
Qed.

Lemma reportStats_from (rs : list WorkRecord) (stats : TimerManager.ReportStats) :
  let final :=
    fold_left
      (fun stats record =>
         {| TimerManager.statsByDate :=
              TimerManager.accumulate (date record) (duration record)
                (TimerManager.statsByDate stats);
            TimerManager.statsByType :=
              TimerManager.accumulate (type record) (duration record)
                (TimerManager.statsByType stats);
            TimerManager.totalDuration :=
              jsAdd (TimerManager.totalDuration stats) (duration record) |})
      rs stats in
  TimerManager.statsByDate final
  = fold_left (fun byDate record =>
                 TimerManager.accumulate (date record) (duration record) byDate)
      rs (TimerManager.statsByDate stats) /\
  TimerManager.statsByType final
  = fold_left (fun byType record =>
                 TimerManager.accumulate (type record) (duration record) byType)
      rs (TimerManager.statsByType stats) /\
  TimerManager.totalDuration final
  = fold_left (fun total record => jsAdd total (duration record))
      rs (TimerManager.totalDuration stats).
Proof.
  revert stats. induction rs as [|r rs IH]; intros stats; cbv zeta; simpl.
  - now repeat split.
  - apply IH.
Qed.

Lemma reportStats_tallies (rs : list WorkRecord) :
  TimerManager.statsByDate (TimerManager.reportStats rs) = tally date rs /\
  TimerManager.statsByType (TimerManager.reportStats rs) = tally type rs /\
  TimerManager.totalDuration (TimerManager.reportStats rs)
  = fold_left (fun total record => jsAdd total (duration record)) rs (JsNumber (Int 0)).
Proof. apply reportStats_from. Qed.

Lemma written_total (rs : list WorkRecord) (a : Z) :
  Forall writtenDuration rs ->
  fold_left (fun total record => jsAdd total (duration record)) rs (JsNumber (Int a))
  = JsNumber (Int (a + sumWhole rs)).
Proof.
  intros Hrs. revert a. induction Hrs as [|r rs Hr _ IH]; intros a; simpl.
  - do 2 f_equal. lia.
  - rewrite written_jsAdd by exact Hr. rewrite IH. do 2 f_equal. lia.
Qed.

Lemma written_sumMinutes (rs : list WorkRecord) :
  Forall writtenDuration rs -> sumMinutes rs = Int (sumWhole rs).
Proof.
  intros Hrs. apply sumMinutes_whole. intros r Hr.
  rewrite Forall_forall in Hrs. rewrite (written_minutes r (Hrs r Hr)). discriminate.
Qed.

Lemma text_total (rs : list WorkRecord) (text : string) :
  exists text',
    fold_left (fun total record => jsAdd total (duration record)) rs (JsString text)
    = JsString text'.
Proof.
  revert text. induction rs as [|r rs IH]; intros text; simpl.
  - now exists text.
  - apply IH.
Qed.

End Report.

(** On a ledger of durations the extension wrote itself, the report and
    the popup agree wherever a date or a type does not bear the name of a
    member every object inherits: the report's total is the sum of all
    minutes, the minutes it lists for such a date are the popup's total of
    that date, the minutes it lists for such a type are the sum over the
    records of that type, and a date without records is not listed.  A
    type that bears such a name, like constructor, is listed with a text
    instead: the counter finds the inherited member where it expects
    nothing, and appends the minutes to it. *)
Theorem report_agrees_with_daily_totals (ls : StorageManager.LocalStorage) :
  Forall writtenDuration (StorageManager.getRecords ls) ->
  StorageManager.getRecords ls <> [] ->
  exists stats,
    fst (TimerManager.generateReport ls) = Some stats /\
    TimerManager.totalDuration stats
    = JsNumber (StorageManager.sumMinutes (StorageManager.getRecords ls)) /\
    (forall r, In r (StorageManager.getRecords ls) ->
       (inherited (StorageManager.date r) = None ->
        property (StorageManager.date r) (TimerManager.statsByDate stats)
        = JsNumber (StorageManager.getTotalTimeByDate (StorageManager.date r) ls)) /\
       (inherited (StorageManager.type r) = None ->
        property (StorageManager.type r) (TimerManager.statsByType stats)
        = JsNumber (StorageManager.sumMinutes
                      (filedUnder StorageManager.type (StorageManager.type r)
                         (StorageManager.getRecords ls)))) /\
       (inherited (StorageManager.type r) <> None ->
        StorageManager.type r <> "__proto__" ->
        exists text,
          text <> "" /\
          property (StorageManager.type r) (TimerManager.statsByType stats)
          = JsString text)) /\
    (forall d, ~ In d (map StorageManager.date (StorageManager.getRecords ls)) ->
       property d (TimerManager.statsByDate stats) = JsUndefined).
Proof.
  intros Hwritten Hsome. exists (TimerManager.reportStats (StorageManager.getRecords ls)).
  destruct (reportStats_tallies (StorageManager.getRecords ls))
    as (HbyDate & HbyType & Htotal).
  split; [|split; [|split]].
  - unfold TimerManager.generateReport.
    destruct (StorageManager.getRecords ls); [now contradiction Hsome | reflexivity].
  - rewrite Htotal, written_total, written_sumMinutes by exact Hwritten. reflexivity.
  - intros r Hr. rewrite HbyDate, HbyType.
    assert (Hfiled : forall key,
      Forall writtenDuration (filedUnder key (key r) (StorageManager.getRecords ls))).
    { intros key. unfold filedUnder. rewrite Forall_forall in *.
      intros x Hx. apply filter_In in Hx. now apply Hwritten. }
    assert (Hexists : forall key,
      existsb (fun x => (key x =? key r)%string) (StorageManager.getRecords ls) = true).
    { intros key. apply existsb_exists. exists r. now rewrite String.eqb_refl. }
    split; [|split].
    + intros Hdate. rewrite tally_property, Hexists by assumption.
      unfold StorageManager.getTotalTimeByDate.
      rewrite <- (written_sumMinutes _ (Hfiled StorageManager.date)). reflexivity.
    + intros Htype. rewrite tally_property, Hexists by assumption.
      rewrite <- (written_sumMinutes _ (Hfiled StorageManager.type)). reflexivity.
    + intros Htype Hproto.
      destruct (inherited (StorageManager.type r)) as [text|] eqn:Hk;
        [|now contradiction Htype].
      apply tally_member with text; trivial.
  - intros d Hd. rewrite HbyDate. apply property_none. rewrite tally_hasOwn.
    destruct (existsb (fun r => (StorageManager.date r =? d)%string)
                (StorageManager.getRecords ls)) eqn:Hex; [|reflexivity].
    exfalso. apply existsb_exists in Hex. destruct Hex as (r & Hr & Hdate).
    apply Hd. apply String.eqb_eq in Hdate. subst d. now apply in_map.
Qed.

(** A type called constructor, 45 minutes: the report lists a text. *)
Example report_lists_text_for_constructor :
  property "constructor"
    (TimerManager.statsByType
       (TimerManager.reportStats
          [{| StorageManager.id := 1753080000000;
              StorageManager.date := "2025-07-21";
              StorageManager.startTime := "12:00";
              StorageManager.endTime := "12:45";
              StorageManager.duration := JsNumber (Int 45);
              StorageManager.content := "午饭";
              StorageManager.type := "constructor" |}]))
  = JsString "function Object() { [native code] }45".
Proof. reflexivity. Qed.

Lemma report_agrees_with_daily_totals_witness :
  exists stats,
    fst (TimerManager.generateReport writtenLedger) = Some stats /\
    TimerManager.totalDuration stats
    = JsNumber (StorageManager.sumMinutes (StorageManager.getRecords writtenLedger)).
Proof.
  assert (Hwritten : Forall writtenDuration (StorageManager.getRecords writtenLedger)).
  { simpl. repeat (constructor; [right; eexists; reflexivity|]). constructor. }
  assert (Hsome : StorageManager.getRecords writtenLedger <> []) by discriminate.
  destruct (report_agrees_with_daily_totals writtenLedger Hwritten Hsome)
    as (stats & Hstats & Htotal & _).
  exists stats. now split.
Defined.

(** One duration stored as text turns the report's total into text: from
    that record on the durations are appended as characters, not added,
    while the popup's totals read the same text as a number. *)
Theorem report_total_is_text_after_a_text_duration
    (rs : list StorageManager.WorkRecord) (r : StorageManager.WorkRecord)
    (s : string) :
  In r rs ->
  StorageManager.duration r = JsString s ->
  exists text,
    TimerManager.totalDuration (TimerManager.reportStats rs) = JsString text.
Proof.
  intros Hin Hs. destruct (reportStats_tallies rs) as (_ & _ & ->).
  generalize (JsNumber (Int 0)).
  induction rs as [|x rs IH]; intros total; [contradiction|]. simpl.
  destruct Hin as [-> | Hin]; [|now apply IH].
  rewrite Hs. unfold jsAdd at 2. cbn [primitiveNumber].
  destruct (primitiveNumber total); apply text_total.
Qed.

Lemma report_total_is_text_after_a_text_duration_witness :
  exists text,
    TimerManager.totalDuration
      (TimerManager.reportStats (StorageManager.getRecords unreadableWork))
    = JsString text.
Proof.
  apply (report_total_is_text_after_a_text_duration
           (StorageManager.getRecords unreadableWork)
           (nth 0 (StorageManager.getRecords unreadableWork) blankRecord) "abc").
  - simpl. auto.
  - reflexivity.
Defined.

(** A record is filed under the day the popup was last opened.  When the
    timer is started in one popup and stopped in a popup opened later,
    whatever refreshes, worker ticks and worker restarts lie between, the
    one record committed has the later popup's date, the original start
    time, the stop time as end time and the stop's clock reading as id. *)
Theorem record_is_filed_under_the_reopening_date (zone T0 T T1 : Z)
    (today today' workType : string)
    (before after : list (Z * Extension.Event)) :
  T0 <> 0 ->
  displayOnly before ->
  displayOnly after ->
  let w := Extension.run zone
             ((T0, Extension.Start)
              :: before ++ (T, Extension.Open today')
              :: after ++ [(T1, Extension.End workType)])
             (Extension.installed today) in
  map (fun r => (StorageManager.id r, StorageManager.date r,
                 StorageManager.startTime r, StorageManager.endTime r,
                 StorageManager.type r))
    (StorageManager.getRecords (Extension.storage w))
  = [(T1, today', TimerManager.formatTime zone T0,
      TimerManager.formatTime zone T1, workType)].
Proof.
  intros Hstart Hbefore Hafter. cbv zeta.
  change ((T0, Extension.Start)
          :: before ++ (T, Extension.Open today')
          :: after ++ [(T1, Extension.End workType)])
    with ([(T0, Extension.Start)]
          ++ before ++ [(T, Extension.Open today')]
          ++ after ++ [(T1, Extension.End workType)])%list.
  rewrite !run_app.
  destruct (started_world zone today T0 Hstart) as (Hp0 & Hw0 & _ & _).
  cbv zeta in Hp0, Hw0.
  assert (Hls0 : Extension.storage
                   (Extension.run zone [(T0, Extension.Start)] (Extension.installed today))
                 = StorageManager.saveCurrentTimer
                     {| StorageManager.snapIsRunning := true;
                        StorageManager.snapStartTime := Some T0;
                        StorageManager.snapElapsedTime := 0 |}
                     StorageManager.empty).
  { simpl. now rewrite Z.sub_0_r. }
  destruct (run_displayOnly zone T0 today before Hstart Hbefore 0 _ Hp0 Hw0)
    as [_ Hs1].
  destruct (run_displayOnly_worker zone T0 today before Hstart Hbefore 0 _ Hp0 Hw0)
    as [Hw1 _].
  rewrite Hls0 in Hs1. clear Hp0 Hw0 Hls0.
  set (w1 := Extension.run zone before _) in *.
  set (w2 := Extension.run zone [(T, Extension.Open today')] w1).
  assert (Hopened :
    Extension.popup w2
    = {| TimerManager.timerInterval := Live; TimerManager.isRunning := true;
         TimerManager.startTime := Some T0;
         TimerManager.elapsedTime := T - T0;
         TimerManager.currentDate := today' |}
    /\ runningSince T0 (Extension.worker w2)
    /\ StorageManager.getRecords (Extension.storage w2) = []).
  { destruct (open_running zone T0 T today' w1 Hstart Hw1) as (Hp2 & Hw2 & Hs2).
    subst w2.
    change (Extension.run zone [(T, Extension.Open today')] w1)
      with (Extension.step zone w1 (T, Extension.Open today')).
    rewrite Hp2, Hs2, Hs1. split; [reflexivity | split; [exact Hw2 | reflexivity]]. }
  destruct Hopened as (Hp2 & Hw2' & Hls2).
  destruct (run_displayOnly zone T0 today' after Hstart Hafter _ w2 Hp2 Hw2')
    as [Hp3 Hs3].
  set (w3 := Extension.run zone after w2) in *.
  simpl. unfold Extension.call, TimerManager.endTimer. rewrite Hp3. simpl.
  destruct (Z.eqb_spec T0 0) as [?|_]; [congruence|]. simpl.
  unfold StorageManager.getRecords at 1; simpl.
  rewrite Hs3, Hls2. reflexivity.
Qed.

Lemma record_is_filed_under_the_reopening_date_witness :
  map StorageManager.date
    (StorageManager.getRecords
       (Extension.storage
          (Extension.run 480
             ((1753109400000, Extension.Start)
              :: [(1753109401000, Extension.WorkerTick)]
              ++ (1753142500000, Extension.Open "2025-07-22")
              :: [(1753142501000, Extension.Refresh)]
              ++ [(1753143000000, Extension.End "工作")])
             (Extension.installed "2025-07-21"))))
  = ["2025-07-22"].
Proof.
  pose proof (record_is_filed_under_the_reopening_date 480 1753109400000
                1753142500000 1753143000000 "2025-07-21" "2025-07-22" "工作"
                [(1753109401000, Extension.WorkerTick)]
                [(1753142501000, Extension.Refresh)]) as Hfiled.
  cbv zeta in Hfiled.
  apply (f_equal (map (fun fields => snd (fst (fst (fst fields)))))) in Hfiled.
  - rewrite map_map in Hfiled. exact Hfiled.
  - discriminate.
  - constructor; [right; left; reflexivity | constructor].
  - constructor; [left; reflexivity | constructor].
Defined.

(** The popup's category selector offers what the options page shows.
    After any adding, deleting, toggling and reloading on the options page,
    the options [loadWorkTypes] reads from the store are the page's own
    list: at least one, none of them empty, none twice. *)
Theorem popup_offers_the_saved_categories (p : SettingsManager.Page) :
  SettingsManager.Reachable p ->
  let options := TimerManager.loadWorkTypes (SettingsManager.storage p) in
  StorageManager.workTypes
    (SettingsManager.currentSettings (SettingsManager.manager p)) = Some options /\
  options <> [] /\ NoDup options /\ ~ In "" options.
Proof.
  intros Hreach. cbv zeta.
  destruct (reachable_kept p Hreach) as [(l & Hl & Hnodup & Hempty) (Hsaved & _)].
  destruct (reachable_pageSound p Hreach) as [(l' & Hl' & Hsome) _].
  unfold TimerManager.loadWorkTypes, StorageManager.getSettings.
  rewrite Hsaved. cbn [StorageManager.orElse]. rewrite Hl.
  rewrite Hl in Hl'. injection Hl' as <-. now repeat split.
Qed.

Lemma popup_offers_the_saved_categories_witness :
  TimerManager.loadWorkTypes (SettingsManager.storage lastCategoryPage) <> [].
Proof.
  refine (proj1 (proj2 (popup_offers_the_saved_categories lastCategoryPage _))).
  unfold lastCategoryPage. cbn [fold_left].
  do 3 apply SettingsManager.reach_step. apply SettingsManager.reach_load.
Defined.
